(** * SafeMind content-risk aggregation engine

    A shallow embedding of [apps/api/src/services/content-analyzer.ts]
    (class [CombinedContentAnalyzer]) together with the pure parts of the two
    classifier adapters it consumes ([integrations/perspective.ts] and the
    [OpenAIModerator] class), followed by the properties of the risk
    aggregator and of the conversation analyzer.

    Conventions of the embedding.
    - A JavaScript [number] is an IEEE double.  In the embedding of the
      whole aggregator finite values are modelled as exact rationals
      ([Q]); the three special values the code can produce ([NaN],
      [-Infinity], [+Infinity]) are kept, with the IEEE rules for
      arithmetic and comparison on them.  Rounding and the sign of zero
      are not modelled there, and what is proved on it are bounds,
      orderings and structure, which rounding preserves.
    - The functions whose answer turns on a rounding (the escalation test
      and the sentiment estimator) are embedded a second time over
      binary64 floats, in module [Double]; what is stated as an exact
      equivalence or an exact value is proved on those.
    - Numbers decoded from a JSON payload are finite, hence plain [Q].
    - A JavaScript string is modelled as a [string] of 8-bit characters;
      [toLowerCase] folds the ASCII letters only.
    - A rejected promise is [None]; the [timestamp] field of a result is
      left out. *)

From Stdlib Require Import ZArith QArith Qminmax Lqa Lia List String Ascii Bool.
From Stdlib Require Import DecimalString.
From Stdlib Require Import Permutation.
From Stdlib Require PrimFloat Uint63.
Import ListNotations.

Local Open Scope Q_scope.

(* ================================================================== *)
(** ** JavaScript numbers *)

Module Num.

Inductive num : Type :=
| NaN
| NegInf
| PosInf
| Fin (q : Q).

(** The infinity whose sign is the sign of a comparison with zero;
    [0 * Infinity] is [NaN]. *)
Definition inf_of (c : comparison) : num :=
  match c with
  | Gt => PosInf
  | Lt => NegInf
  | Eq => NaN
  end.

Definition neg (a : num) : num :=
  match a with
  | NaN => NaN
  | NegInf => PosInf
  | PosInf => NegInf
  | Fin q => Fin (- q)
  end.

Definition add (a b : num) : num :=
  match a, b with
  | NaN, _ | _, NaN => NaN
  | PosInf, NegInf | NegInf, PosInf => NaN
  | PosInf, _ | _, PosInf => PosInf
  | NegInf, _ | _, NegInf => NegInf
  | Fin p, Fin q => Fin (p + q)
  end.

Definition sub (a b : num) : num := add a (neg b).

Definition mul (a b : num) : num :=
  match a, b with
  | NaN, _ | _, NaN => NaN
  | Fin p, Fin q => Fin (p * q)
  | PosInf, PosInf | NegInf, NegInf => PosInf
  | PosInf, NegInf | NegInf, PosInf => NegInf
  | PosInf, Fin q | Fin q, PosInf => inf_of (q ?= 0)
  | NegInf, Fin q | Fin q, NegInf => inf_of (CompOpp (q ?= 0))
  end.

(** Division; a zero divisor is the positive zero (every divisor of the
    program is a length or a positive literal). *)
Definition div (a b : num) : num :=
  match a, b with
  | NaN, _ | _, NaN => NaN
  | Fin p, Fin q => if Qeq_bool q 0 then inf_of (p ?= 0) else Fin (p / q)
  | Fin _, PosInf | Fin _, NegInf => Fin 0
  | PosInf, Fin q => if Qle_bool 0 q then PosInf else NegInf
  | NegInf, Fin q => if Qle_bool 0 q then NegInf else PosInf
  | _, _ => NaN
  end.

(** [a < b]; every comparison with [NaN] is false. *)
Definition ltb (a b : num) : bool :=
  match a, b with
  | NaN, _ | _, NaN => false
  | _, NegInf => false
  | NegInf, _ => true
  | PosInf, _ => false
  | Fin _, PosInf => true
  | Fin p, Fin q => negb (Qle_bool q p)
  end.

(** [a <= b]. *)
Definition leb (a b : num) : bool :=
  match a, b with
  | NaN, _ | _, NaN => false
  | NegInf, _ => true
  | _, PosInf => true
  | _, NegInf => false
  | PosInf, Fin _ => false
  | Fin p, Fin q => Qle_bool p q
  end.

Definition gtb (a b : num) : bool := ltb b a.
Definition geb (a b : num) : bool := leb b a.

(** [Math.max(a, b)] and [Math.min(a, b)]: [NaN] if either is [NaN]. *)
Definition max2 (a b : num) : num :=
  match a, b with
  | NaN, _ | _, NaN => NaN
  | _, _ => if ltb a b then b else a
  end.

Definition min2 (a b : num) : num :=
  match a, b with
  | NaN, _ | _, NaN => NaN
  | _, _ => if ltb b a then b else a
  end.

(** [Math.max(...xs)]: the variadic form starts from [-Infinity], which
    is its value on no argument at all. *)
Definition Math_max (xs : list num) : num := fold_left max2 xs NegInf.

(** A length, as a number. *)
Definition of_nat (n : nat) : num := Fin (inject_Z (Z.of_nat n)).

(** [reduce((a, b) => a + b, 0)]. *)
Definition sum (xs : list num) : num := fold_left add xs (Fin 0).

(** Equality of numbers up to the representation of a rational. *)
Definition eqv (a b : num) : Prop :=
  match a, b with
  | NaN, NaN | NegInf, NegInf | PosInf, PosInf => True
  | Fin p, Fin q => p == q
  | _, _ => False
  end.

(** A finite number inside the closed interval [[lo, hi]]. *)
Definition within (lo hi : Q) (a : num) : Prop :=
  match a with
  | Fin q => lo <= q /\ q <= hi
  | _ => False
  end.

End Num.

Import Num.

(* ================================================================== *)
(** ** JavaScript strings and arrays *)

Module Js.

Definition lower_char (c : ascii) : ascii :=
  let n := nat_of_ascii c in
  if (Nat.leb 65 n && Nat.leb n 90)%bool then ascii_of_nat (n + 32) else c.

(** [s.toLowerCase()]. *)
Fixpoint toLowerCase (s : string) : string :=
  match s with
  | EmptyString => EmptyString
  | String c s' => String (lower_char c) (toLowerCase s')
  end.

(** [s.includes(sub)]: [sub] occurs in [s] as a contiguous substring. *)
Fixpoint includes (s sub : string) : bool :=
  (String.prefix sub s
   || match s with
      | EmptyString => false
      | String _ s' => includes s' sub
      end)%bool.

(** [xs.includes(x)] on an array of strings. *)
Definition array_includes (xs : list string) (x : string) : bool :=
  existsb (String.eqb x) xs.

(** [xs.slice(start, end)], with the source's rule for negative and
    out-of-range indices. *)
Definition rel_index (len i : Z) : Z :=
  if (i <? 0)%Z then Z.max (len + i) 0 else Z.min i len.

Definition slice {A : Type} (xs : list A) (start stop : Z) : list A :=
  let len := Z.of_nat (List.length xs) in
  let k := rel_index len start in
  let final := rel_index len stop in
  firstn (Z.to_nat (Z.max (final - k) 0)) (skipn (Z.to_nat k) xs).

(** [xs.slice(start)]: up to the end of the array. *)
Definition slice_from {A : Type} (xs : list A) (start : Z) : list A :=
  let len := Z.of_nat (List.length xs) in
  skipn (Z.to_nat (rel_index len start)) xs.

(** [xs.push(x)]. *)
Definition push {A : Type} (xs : list A) (x : A) : list A := (xs ++ [x])%list.

End Js.

Import Js.

Local Open Scope string_scope.

(* ================================================================== *)
(** ** Classifier A: [integrations/perspective.ts] *)

Module Perspective.

(** The decoded payload: [Object.entries(data.attributeScores)], each
    attribute with its [summaryScore.value]. *)
Record PerspectiveResponse : Type := {
  attributeScores : list (string * Q)
}.

(** What [analyzeText] resolves to. *)
Record Result : Type := {
  scores : list (string * num);
  highestScore : num;
  flaggedCategories : list string
}.

(** The adapter object; [fetch] stands for the network round trip and is
    [None] when the request fails, the status is not a success or the
    body cannot be decoded. *)
Record PerspectiveAnalyzer : Type := {
  fetch : string -> option PerspectiveResponse
}.

(** One turn of the [for ... of Object.entries(...)] loop. *)
Definition visit (st : Result) (entry : string * Q) : Result :=
  let (attribute, value) := entry in
  let score := Fin value in
  {| scores := push (scores st) (attribute, score);
     highestScore :=
       if gtb score (highestScore st) then score else highestScore st;
     flaggedCategories :=
       if gtb score (Fin 0.7)
       then push (flaggedCategories st) attribute
       else flaggedCategories st |}.

Definition analyzeText (self : PerspectiveAnalyzer) (text : string)
  : option Result :=
  match fetch self text with
  | None => None
  | Some data =>
      Some (fold_left visit (attributeScores data)
              {| scores := []; highestScore := Fin 0;
                 flaggedCategories := [] |})
  end.

End Perspective.

(* ================================================================== *)
(** ** Classifier B: class [OpenAIModerator] *)

Module OpenAI.

(** A value found under a key of [category_scores]: a number, or
    anything else. *)
Inductive JsonValue : Type :=
| JNumber (q : Q)
| JOther.

(** The decoded payload. *)
Module Wire.
Record ModerationResult : Type := {
  flagged : bool;
  categories : list (string * bool);
  category_scores : list (string * JsonValue)
}.

Record ModerationResponse : Type := {
  results : list ModerationResult
}.
End Wire.

(** What [moderateText] resolves to.  Its own [riskLevel] field, which
    the aggregator never reads, is left out. *)
Record Result : Type := {
  flagged : bool;
  categories : list string;
  scores : list (string * JsonValue);
  criticalFlags : list string
}.

Record OpenAIModerator : Type := {
  fetch : string -> option Wire.ModerationResponse
}.

Definition criticalCategories : list string :=
  [ "self-harm/intent";
    "self-harm/instructions";
    "violence/graphic";
    "harassment/threatening";
    "sexual/minors" ].

(** [Object.entries(result.categories).filter(([_, flagged]) => flagged)
    .map(([category, _]) => category)]. *)
Definition flaggedNames (entries : list (string * bool)) : list string :=
  map fst (filter snd entries).

(** [data.results[0]] of an empty array is [undefined], and reading a
    property of it throws. *)
Definition moderateText (self : OpenAIModerator) (text : string)
  : option Result :=
  match fetch self text with
  | None => None
  | Some data =>
      match Wire.results data with
      | [] => None
      | result :: _ =>
          let categories := flaggedNames (Wire.categories result) in
          let criticalFlags :=
            filter (fun cat => array_includes criticalCategories cat)
                   categories in
          Some {| flagged := Wire.flagged result;
                  categories := categories;
                  scores := Wire.category_scores result;
                  criticalFlags := criticalFlags |}
      end
  end.

End OpenAI.

(* ================================================================== *)
(** ** The aggregator: class [CombinedContentAnalyzer] *)

Module Analyzer.

Import OpenAI.

Inductive RiskLevel : Type := low | medium | high | critical.

Inductive Trend : Type := improving | declining | stable.

Record Flags : Type := {
  toxicity : bool;
  selfHarm : bool;
  violence : bool;
  hate : bool;
  sexual : bool;
  mentalHealthConcern : bool
}.

Record Details : Type := {
  d_perspective : Perspective.Result;
  d_openai : OpenAI.Result;
  keywords : list string;
  sentiment : num
}.

Record AnalysisResult : Type := {
  text : string;
  riskScore : num;
  riskLevel : RiskLevel;
  categories : list string;
  flags : Flags;
  details : Details;
  requiresAlert : bool;
  suggestedActions : list string
}.

Record ConversationAnalysis : Type := {
  messageCount : nat;
  overallRiskScore : num;
  overallRiskLevel : RiskLevel;
  isEscalating : bool;
  sentimentTrend : Trend;
  criticalMessages : list AnalysisResult;
  recommendations : list string
}.

Record CombinedContentAnalyzer : Type := {
  perspective : Perspective.PerspectiveAnalyzer;
  openai : OpenAI.OpenAIModerator
}.

(** The two term sets the constructor installs, in insertion order. *)
Definition mentalHealthKeywords : list string :=
  [ "depressed"; "depression"; "anxious"; "anxiety"; "hopeless";
    "worthless"; "lonely"; "isolated"; "empty"; "numb";
    "tired of living"; "can't go on"; "give up"; "no point";
    "burden"; "better off without me"; "end it all"; "done with life" ].

Definition suicidalIdeationKeywords : list string :=
  [ "kill myself"; "suicide"; "end my life"; "want to die";
    "wish i was dead"; "wouldn't miss me"; "goodbye forever";
    "final message"; "take my own life"; "self harm"; "cut myself";
    "overdose"; "jump off"; "hang myself" ].

Definition detectKeywords (text : string) : list string :=
  let normalizedText := toLowerCase text in
  let matches : list string := [] in
  let matches :=
    fold_left (fun matches keyword =>
                 if includes normalizedText keyword
                 then push matches keyword else matches)
              mentalHealthKeywords matches in
  let matches :=
    fold_left (fun matches keyword =>
                 if includes normalizedText keyword
                 then push matches ("[CRITICAL] " ++ keyword) else matches)
              suicidalIdeationKeywords matches in
  matches.

Definition positiveWords : list string :=
  [ "happy"; "good"; "great"; "better"; "hope"; "love"; "joy" ].

Definition negativeWords : list string :=
  [ "sad"; "bad"; "worse"; "hate"; "hurt"; "pain"; "terrible" ].

Definition analyzeSentiment (text : string) : num :=
  let normalized := toLowerCase text in
  let score := Fin 0 in
  let score :=
    fold_left (fun score word =>
                 if includes normalized word
                 then add score (Fin 0.1) else score)
              positiveWords score in
  let score :=
    fold_left (fun score word =>
                 if includes normalized word
                 then sub score (Fin 0.1) else score)
              negativeWords score in
  max2 (Fin (-1)) (min2 (Fin 1) score).

(** [typeof v === 'number' ? v : 0]. *)
Definition numberOrZero (v : JsonValue) : num :=
  match v with
  | JNumber q => Fin q
  | JOther => Fin 0
  end.

Definition keywordScore (keywords : list string) : num :=
  let hasCriticalKeyword :=
    existsb (fun k => includes k "[CRITICAL]") keywords in
  if hasCriticalKeyword
  then Fin 100
  else mul (of_nat (List.length keywords)) (Fin 20).

Definition calculateRiskScore
           (perspective : Perspective.Result) (openai : OpenAI.Result)
           (keywords : list string) (sentiment : num) : num :=
  let perspectiveWeight := Fin 0.3 in
  let openaiWeight := Fin 0.4 in
  let keywordWeight := Fin 0.2 in
  let sentimentWeight := Fin 0.1 in
  let perspectiveScore :=
    mul (Perspective.highestScore perspective) (Fin 100) in
  let openaiScore :=
    mul (Math_max (map (fun kv => numberOrZero (snd kv))
                       (OpenAI.scores openai)))
        (Fin 100) in
  let keywordScore := keywordScore keywords in
  let sentimentScore := mul (sub (Fin 1) sentiment) (Fin 50) in
  let composite :=
    add (add (add (mul perspectiveScore perspectiveWeight)
                  (mul openaiScore openaiWeight))
             (mul keywordScore keywordWeight))
        (mul sentimentScore sentimentWeight) in
  min2 (Fin 100) (max2 (Fin 0) composite).

Definition determineRiskLevel (score : num) (criticalFlags : list string)
  : RiskLevel :=
  if (Nat.ltb 0 (List.length criticalFlags) || geb score (Fin 80))%bool
  then critical
  else if geb score (Fin 60) then high
  else if geb score (Fin 40) then medium
  else low.

Definition detectEscalation (scores : list num) : bool :=
  if Nat.ltb (List.length scores) 3 then false
  else
    let recentScores := slice_from scores (-3) in
    let olderScores := slice scores (-6) (-3) in
    if Nat.eqb (List.length olderScores) 0 then false
    else
      let recentAvg :=
        div (sum recentScores) (of_nat (List.length recentScores)) in
      let olderAvg :=
        div (sum olderScores) (of_nat (List.length olderScores)) in
      gtb recentAvg (mul olderAvg (Fin 1.3)).

Definition analyzeSentimentTrend (sentiments : list num) : Trend :=
  if Nat.ltb (List.length sentiments) 3 then stable
  else
    let recentAvg := div (sum (slice_from sentiments (-3))) (Fin 3) in
    let olderAvg := div (sum (slice sentiments (-6) (-3))) (Fin 3) in
    if gtb recentAvg (mul olderAvg (Fin 1.2)) then improving
    else if ltb recentAvg (mul olderAvg (Fin 0.8)) then declining
    else stable.

(** [a === b] on two risk levels. *)
Definition levelIs (a b : RiskLevel) : bool :=
  match a, b with
  | low, low | medium, medium | high, high | critical, critical => true
  | _, _ => false
  end.

(** [riskLevel === 'critical' || riskLevel === 'high']. *)
Definition isHighOrCritical (level : RiskLevel) : bool :=
  levelIs level critical || levelIs level high.

Definition generateSuggestedActions (flags : Flags) (riskLevel : RiskLevel)
  : list string :=
  let actions : list string := [] in
  let actions :=
    if selfHarm flags then
      let actions :=
        push actions "IMMEDIATE: Contact crisis intervention services" in
      let actions := push actions "Notify parent/guardian immediately" in
      push actions "Provide crisis hotline resources"
    else actions in
  let actions :=
    if violence flags then
      let actions :=
        push actions "Assess immediate danger to self or others" in
      push actions "Notify appropriate authorities if threat detected"
    else actions in
  let actions :=
    if mentalHealthConcern flags then
      let actions :=
        push actions "Consider reaching out to mental health resources" in
      push actions "Monitor conversation closely"
    else actions in
  let actions :=
    if isHighOrCritical riskLevel then
      let actions := push actions "Send alert to trusted contacts" in
      push actions "Increase monitoring frequency"
    else actions in
  actions.

Definition generateRecommendations
           (overallRiskLevel : RiskLevel) (isEscalating : bool)
           (sentimentTrend : Trend) (criticalMessages : list AnalysisResult)
  : list string :=
  let recommendations : list string := [] in
  let recommendations :=
    if Nat.ltb 0 (List.length criticalMessages) then
      push recommendations
           (NilZero.string_of_uint (Nat.to_uint (List.length criticalMessages))
            ++ " critical message(s) detected - immediate review required")
    else recommendations in
  let recommendations :=
    if isEscalating then
      push recommendations
           "Conversation risk is escalating - increase monitoring"
    else recommendations in
  let recommendations :=
    match sentimentTrend with
    | declining =>
        push recommendations
             "Sentiment is declining - user may need support"
    | _ => recommendations
    end in
  let recommendations :=
    if isHighOrCritical overallRiskLevel then
      push recommendations "High overall risk - consider intervention"
    else recommendations in
  recommendations.

(** [promise.catch(() => fallback)]. *)
Definition catch {A : Type} (outcome : option A) (fallback : A) : A :=
  match outcome with
  | Some value => value
  | None => fallback
  end.

Definition perspectiveFallback : Perspective.Result :=
  {| Perspective.scores := [];
     Perspective.highestScore := Fin 0;
     Perspective.flaggedCategories := [] |}.

Definition openaiFallback : OpenAI.Result :=
  {| OpenAI.flagged := false;
     OpenAI.categories := [];
     OpenAI.scores := [];
     OpenAI.criticalFlags := [] |}.

(** The body of [analyzeMessage] once the four concurrent computations
    have been joined. *)
Definition assemble (text : string)
           (perspectiveResult : Perspective.Result)
           (openaiResult : OpenAI.Result)
           (keywordMatches : list string) (sentiment : num)
  : AnalysisResult :=
  let riskScore :=
    calculateRiskScore perspectiveResult openaiResult
                       keywordMatches sentiment in
  let riskLevel :=
    determineRiskLevel riskScore (OpenAI.criticalFlags openaiResult) in
  let reported := array_includes (OpenAI.categories openaiResult) in
  let flags :=
    {| toxicity := gtb (Perspective.highestScore perspectiveResult) (Fin 0.7);
       selfHarm := reported "self-harm/intent"
                   || reported "self-harm/instructions";
       violence := reported "violence" || reported "violence/graphic";
       hate := reported "hate" || reported "hate/threatening";
       sexual := reported "sexual" || reported "sexual/minors";
       mentalHealthConcern := Nat.ltb 0 (List.length keywordMatches) |} in
  let categories :=
    (Perspective.flaggedCategories perspectiveResult
     ++ OpenAI.categories openaiResult)%list in
  let requiresAlert :=
    levelIs riskLevel critical || levelIs riskLevel high || selfHarm flags in
  let suggestedActions := generateSuggestedActions flags riskLevel in
  {| text := text;
     riskScore := riskScore;
     riskLevel := riskLevel;
     categories := categories;
     flags := flags;
     details := {| d_perspective := perspectiveResult;
                   d_openai := openaiResult;
                   keywords := keywordMatches;
                   sentiment := sentiment |};
     requiresAlert := requiresAlert;
     suggestedActions := suggestedActions |}.

Definition analyzeMessage (self : CombinedContentAnalyzer) (text : string)
  : AnalysisResult :=
  let perspectiveResult :=
    catch (Perspective.analyzeText (perspective self) text)
          perspectiveFallback in
  let openaiResult :=
    catch (OpenAI.moderateText (openai self) text) openaiFallback in
  let keywordMatches := detectKeywords text in
  let sentiment := analyzeSentiment text in
  assemble text perspectiveResult openaiResult keywordMatches sentiment.

Definition analyzeConversation (self : CombinedContentAnalyzer)
           (messages : list string) : ConversationAnalysis :=
  let analyses := map (analyzeMessage self) messages in
  let overallRiskScore :=
    div (fold_left (fun sum a => add sum (riskScore a)) analyses (Fin 0))
        (of_nat (List.length analyses)) in
  let overallRiskLevel := determineRiskLevel overallRiskScore [] in
  let isEscalating := detectEscalation (map riskScore analyses) in
  let sentimentTrend :=
    analyzeSentimentTrend (map (fun a => sentiment (details a)) analyses) in
  let criticalMessages :=
    filter (fun a => isHighOrCritical (riskLevel a)) analyses in
  let recommendations :=
    generateRecommendations overallRiskLevel isEscalating
                            sentimentTrend criticalMessages in
  {| messageCount := List.length messages;
     overallRiskScore := overallRiskScore;
     overallRiskLevel := overallRiskLevel;
     isEscalating := isEscalating;
     sentimentTrend := sentimentTrend;
     criticalMessages := criticalMessages;
     recommendations := recommendations |}.

End Analyzer.

Import Analyzer.

(* ================================================================== *)
(** ** Definitions used to state the properties *)

Module Props.

(** The order of severity of the four levels. *)
Definition rank (level : RiskLevel) : nat :=
  match level with
  | low => 0
  | medium => 1
  | high => 2
  | critical => 3
  end.



Definition mentalHealthBlock : list string :=
  [ "Consider reaching out to mental health resources";
    "Monitor conversation closely" ].


Definition blockIf (b : bool) (block : list string) : list string :=
  if b then block else [].

(** A lexicon match carries the critical tag when it contains the
    marker the matcher prepends. *)
Definition isCriticalMatch (k : string) : bool := includes k "[CRITICAL]".

Definition concernMatches (keywords : list string) : list string :=
  filter (fun k => negb (isCriticalMatch k)) keywords.

(** The adapter contract on the result of classifier B. *)
Definition adapterContract (r : OpenAI.Result) : Prop :=
  OpenAI.criticalFlags r
  = filter (array_includes OpenAI.criticalCategories) (OpenAI.categories r).

(** Windows over a list of scores, oldest first. *)
Definition lastN {A : Type} (n : nat) (xs : list A) : list A :=
  skipn (List.length xs - n) xs.

Definition dropLast {A : Type} (n : nat) (xs : list A) : list A :=
  firstn (List.length xs - n) xs.

Definition recentWindow {A : Type} (xs : list A) : list A := lastN 3 xs.

Definition olderWindow {A : Type} (xs : list A) : list A :=
  lastN 3 (dropLast 3 xs).

Definition total (qs : list Q) : Q := fold_left Qplus qs 0.

Definition mean (qs : list Q) : Q :=
  total qs / inject_Z (Z.of_nat (List.length qs)).

(** The rational a finite number stands for. *)
Definition valueOf (a : num) : Q :=
  match a with
  | Fin q => q
  | _ => 0
  end.

Definition isFinite (a : num) : Prop :=
  match a with
  | Fin _ => True
  | _ => False
  end.

(** A finite number or [-Infinity]: what a sum of weighted components
    can be. *)
Definition finiteOrNegInf (a : num) : Prop :=
  match a with
  | Fin _ | NegInf => True
  | _ => False
  end.

(** The per-message risk scores and sentiments of a conversation. *)
Definition riskScores (self : CombinedContentAnalyzer)
           (messages : list string) : list Q :=
  map (fun text => valueOf (riskScore (analyzeMessage self text))) messages.

Definition sentiments (self : CombinedContentAnalyzer)
           (messages : list string) : list Q :=
  map (fun text => valueOf (sentiment (details (analyzeMessage self text))))
      messages.

(** The terms of a set that occur in a text once it is case-folded. *)
Definition termsFound (terms : list string) (text : string) : list string :=
  filter (includes (toLowerCase text)) terms.

End Props.

Import Props.

(** Definitions that follow the words of the specification, to be compared
    with the functions of the source. *)
Module Spec.

(** The composite announced when classifier B fails: its component is
    0 and the three others keep their weights. *)
Definition compositeWithoutB (toxicity keyword sentiment : Q) : Q :=
  Qmin 100 (Qmax 0 (0.3 * toxicity + 0.2 * keyword + 0.1 * sentiment)).

(** The keyword component with its announced cap. *)
Definition keywordComponent (keywords : list string) : Q :=
  if existsb isCriticalMatch keywords then 100
  else Qmin 100 (20 * inject_Z (Z.of_nat (List.length (concernMatches keywords)))).

Definition Qltb (a b : Q) : bool := negb (Qle_bool b a).

(** Escalation as announced: three recent and three older scores are
    required. *)
Definition isEscalating (scores : list Q) : bool :=
  if Nat.ltb (List.length scores) 3 then false
  else if Nat.ltb (List.length (olderWindow scores)) 3 then false
  else Qltb (1.3 * mean (olderWindow scores)) (mean (recentWindow scores)).

(** The sentiment trend as announced: both means are arithmetic means
    over the messages actually present in the window. *)
Definition sentimentTrend (sentiments : list Q) : Trend :=
  if Nat.ltb (List.length sentiments) 3 then stable
  else
    let recent := mean (recentWindow sentiments) in
    let older := mean (olderWindow sentiments) in
    if Qltb (1.2 * older) recent then improving
    else if Qltb recent (0.8 * older) then declining
    else stable.

End Spec.

(* ================================================================== *)
(** ** Concrete classifiers and conversations *)

Module Samples.

(** Classifier A answering one attribute with the given score. *)
Definition toxicityOf (score : Q) : Perspective.PerspectiveAnalyzer :=
  {| Perspective.fetch := fun _ =>
       Some {| Perspective.attributeScores := [("TOXICITY", score)] |} |}.

Definition perspectiveDown : Perspective.PerspectiveAnalyzer :=
  {| Perspective.fetch := fun _ => None |}.

Definition openaiDown : OpenAI.OpenAIModerator :=
  {| OpenAI.fetch := fun _ => None |}.

Definition categoryNames : list string :=
  [ "sexual"; "hate"; "harassment"; "self-harm"; "sexual/minors";
    "hate/threatening"; "violence/graphic"; "self-harm/intent";
    "self-harm/instructions"; "harassment/threatening"; "violence" ].

(** Classifier B flagging exactly [name], with confidence [score] there
    and 0 elsewhere. *)
Definition moderationOf (name : string) (score : Q)
  : OpenAI.Wire.ModerationResult :=
  {| OpenAI.Wire.flagged := existsb (String.eqb name) categoryNames;
     OpenAI.Wire.categories :=
       map (fun c => (c, String.eqb name c)) categoryNames;
     OpenAI.Wire.category_scores :=
       map (fun c => (c, OpenAI.JNumber (if String.eqb name c then score else 0)))
           categoryNames |}.

Definition openaiFlagging (name : string) (score : Q)
  : OpenAI.OpenAIModerator :=
  {| OpenAI.fetch := fun _ =>
       Some {| OpenAI.Wire.results := [moderationOf name score] |} |}.

(** Classifier B finding nothing: no category flagged, every score 0. *)
Definition openaiCalm : OpenAI.OpenAIModerator := openaiFlagging "" 0.

(** Classifier A up at toxicity 0.5, classifier B down. *)
Definition degraded : CombinedContentAnalyzer :=
  {| perspective := toxicityOf 0.5; openai := openaiDown |}.

(** Classifier B reporting self-harm intent at confidence 0.3 on an
    otherwise unremarkable message. *)
Definition selfHarmIntent : CombinedContentAnalyzer :=
  {| perspective := toxicityOf 0.1;
     openai := openaiFlagging "self-harm/intent" 0.3 |}.

(** What classifier B resolves to in that scenario. *)
Definition selfHarmReport : OpenAI.Result :=
  {| OpenAI.flagged := true;
     OpenAI.categories := ["self-harm/intent"];
     OpenAI.scores := OpenAI.Wire.category_scores
                        (moderationOf "self-harm/intent" 0.3);
     OpenAI.criticalFlags := ["self-harm/intent"] |}.

(** Classifier A down, classifier B finding nothing. *)
Definition calm : CombinedContentAnalyzer :=
  {| perspective := perspectiveDown; openai := openaiCalm |}.

Definition sixConcernTerms : string :=
  "depressed depression anxious anxiety hopeless worthless".

Definition fourMessages : list string :=
  [ "hello";
    "i feel hopeless and worthless";
    "i feel hopeless and worthless";
    "i feel hopeless and worthless" ].

Definition fadingMood : list string :=
  [ "happy good great"; "happy good"; "happy good"; "happy good" ].

End Samples.

(* ================================================================== *)
(** ** JavaScript objects used as maps, and joined promises *)

Module Obj.

(** An object as the list of its entries, in insertion order, every key
    at most once. *)
Definition t (V : Type) : Type := list (string * V).

(** [obj[key]]; [None] is [undefined]. *)
Fixpoint get {V : Type} (obj : t V) (key : string) : option V :=
  match obj with
  | [] => None
  | (k, v) :: rest => if String.eqb k key then Some v else get rest key
  end.

(** [obj[key] = value]: an existing key keeps its place, a new one goes
    last. *)
Fixpoint set {V : Type} (obj : t V) (key : string) (value : V) : t V :=
  match obj with
  | [] => [(key, value)]
  | (k, v) :: rest =>
      if String.eqb k key then (k, value) :: rest
      else (k, v) :: set rest key value
  end.

(** [delete obj[key]]. *)
Definition remove {V : Type} (obj : t V) (key : string) : t V :=
  filter (fun kv => negb (String.eqb (fst kv) key)) obj.

(** [Object.keys(obj)]. *)
Definition keys {V : Type} (obj : t V) : list string := map fst obj.

End Obj.

Module Async.

(** [Promise.all(xs.map(f))]: rejected as soon as one of the promises
    is, otherwise the results in the order of [xs]. *)
Fixpoint all {A B : Type} (f : A -> option B) (xs : list A)
  : option (list B) :=
  match xs with
  | [] => Some []
  | x :: rest =>
      match f x, all f rest with
      | Some y, Some ys => Some (y :: ys)
      | _, _ => None
      end
  end.

End Async.

(* ================================================================== *)
(** ** Classifier A over a conversation *)

Module PerspectiveBatch.

(** [{ message, ...result }]. *)
Record MessageAnalysis : Type := {
  message : string;
  analysis : Perspective.Result
}.

Record ConversationResult : Type := {
  overallRisk : num;
  messageAnalyses : list MessageAnalysis;
  trendingUp : bool
}.

Definition isTrendingUp (scores : list num) : bool :=
  if Nat.ltb (List.length scores) 3 then false
  else
    let recentScores := slice_from scores (-3) in
    let olderScores := slice scores (-6) (-3) in
    if Nat.eqb (List.length olderScores) 0 then false
    else
      let recentAvg :=
        div (sum recentScores) (of_nat (List.length recentScores)) in
      let olderAvg :=
        div (sum olderScores) (of_nat (List.length olderScores)) in
      gtb recentAvg (mul olderAvg (Fin 1.2)).

Definition analyzeConversation (self : Perspective.PerspectiveAnalyzer)
           (messages : list string) : option ConversationResult :=
  match Async.all
          (fun message =>
             match Perspective.analyzeText self message with
             | Some result =>
                 Some {| message := message; analysis := result |}
             | None => None
             end)
          messages with
  | None => None
  | Some analyses =>
      let overallRisk :=
        div (fold_left
               (fun sum a => add sum (Perspective.highestScore (analysis a)))
               analyses (Fin 0))
            (of_nat (List.length analyses)) in
      let trendingUp :=
        isTrendingUp
          (map (fun a => Perspective.highestScore (analysis a)) analyses) in
      Some {| overallRisk := overallRisk;
              messageAnalyses := analyses;
              trendingUp := trendingUp |}
  end.

End PerspectiveBatch.

(* ================================================================== *)
(** ** Classifier B: risk levels, conversations, self-harm check *)

Module Moderation.

Import OpenAI.

(** The number an argument of [Math.max] is coerced to.  A value that is
    not a number lies outside the declared type of the payload; it is
    taken as [NaN], as for [undefined]. *)
Definition toNumber (v : JsonValue) : num :=
  match v with
  | JNumber q => Fin q
  | JOther => NaN
  end.

Definition calculateRiskLevel (scores : list (string * JsonValue))
           (criticalFlags : list string) : RiskLevel :=
  if Nat.ltb 0 (List.length criticalFlags) then critical
  else
    let maxScore := Math_max (map (fun kv => toNumber (snd kv)) scores) in
    if gtb maxScore (Fin 0.8) then high
    else if gtb maxScore (Fin 0.5) then medium
    else low.

(** What [moderateText] resolves to, with the [riskLevel] field. *)
Record Moderated : Type := {
  outcome : OpenAI.Result;
  riskLevel : RiskLevel
}.

Definition moderateText (self : OpenAIModerator) (text : string)
  : option Moderated :=
  match fetch self text with
  | None => None
  | Some data =>
      match Wire.results data with
      | [] => None
      | result :: _ =>
          let categories := flaggedNames (Wire.categories result) in
          let criticalFlags :=
            filter (fun cat => array_includes criticalCategories cat)
                   categories in
          let riskLevel :=
            calculateRiskLevel (Wire.category_scores result) criticalFlags in
          Some {| outcome := {| flagged := Wire.flagged result;
                                categories := categories;
                                scores := Wire.category_scores result;
                                criticalFlags := criticalFlags |};
                  riskLevel := riskLevel |}
      end
  end.

Record SelfHarmRisk : Type := {
  hasSelfHarmIntent : bool;
  hasSelfHarmInstructions : bool;
  score : num;
  requiresIntervention : bool
}.

(** [result.scores[key]] as an argument of [Math.max]: a missing key is
    [undefined], which coerces to [NaN]. *)
Definition scoreAt (scores : list (string * JsonValue)) (key : string) : num :=
  match Obj.get scores key with
  | Some v => toNumber v
  | None => NaN
  end.

Definition checkSelfHarmRisk (self : OpenAIModerator) (text : string)
  : option SelfHarmRisk :=
  match moderateText self text with
  | None => None
  | Some result =>
      let hasSelfHarmIntent :=
        array_includes (categories (outcome result)) "self-harm/intent" in
      let hasSelfHarmInstructions :=
        array_includes (categories (outcome result))
                       "self-harm/instructions" in
      let score :=
        Math_max [ scoreAt (scores (outcome result)) "self-harm/intent";
                   scoreAt (scores (outcome result)) "self-harm/instructions";
                   scoreAt (scores (outcome result)) "self-harm" ] in
      let requiresIntervention :=
        hasSelfHarmIntent || hasSelfHarmInstructions
        || gtb score (Fin 0.7) in
      Some {| hasSelfHarmIntent := hasSelfHarmIntent;
              hasSelfHarmInstructions := hasSelfHarmInstructions;
              score := score;
              requiresIntervention := requiresIntervention |}
  end.

End Moderation.

Module ModerationBatch.

(** One element of [results] in [moderateConversation]. *)
Record Entry : Type := {
  message : string;
  flagged : bool;
  categories : list string;
  criticalFlags : list string;
  riskLevel : RiskLevel
}.

Record ConversationModeration : Type := {
  results : list Entry;
  overallRiskLevel : RiskLevel;
  hasCriticalFlags : bool;
  categoryFrequency : Obj.t nat
}.

Definition determineOverallRisk (results : list Entry) : RiskLevel :=
  if existsb (fun r => levelIs (riskLevel r) critical) results then critical
  else
    let highRiskCount :=
      List.length (filter (fun r => levelIs (riskLevel r) high) results) in
    if Nat.leb 2 highRiskCount then high
    else if Nat.eqb highRiskCount 1 then high
    else
      let mediumRiskCount :=
        List.length (filter (fun r => levelIs (riskLevel r) medium) results) in
      if Nat.leb 3 mediumRiskCount then medium
      else low.

(** [categoryFrequency[cat] = (categoryFrequency[cat] || 0) + 1]. *)
Definition countCategory (categoryFrequency : Obj.t nat) (cat : string)
  : Obj.t nat :=
  Obj.set categoryFrequency cat
          (match Obj.get categoryFrequency cat with
           | Some n => if Nat.eqb n 0 then 0 else n
           | None => 0
           end + 1)%nat.

Definition moderateConversation (self : OpenAI.OpenAIModerator)
           (messages : list string) : option ConversationModeration :=
  match Async.all
          (fun message =>
             match Moderation.moderateText self message with
             | Some moderation =>
                 Some {| message := message;
                         flagged :=
                           OpenAI.flagged (Moderation.outcome moderation);
                         categories :=
                           OpenAI.categories (Moderation.outcome moderation);
                         criticalFlags :=
                           OpenAI.criticalFlags (Moderation.outcome moderation);
                         riskLevel := Moderation.riskLevel moderation |}
             | None => None
             end)
          messages with
  | None => None
  | Some results =>
      let hasCriticalFlags :=
        existsb (fun r => Nat.ltb 0 (List.length (criticalFlags r))) results in
      let categoryFrequency : Obj.t nat := [] in
      let categoryFrequency :=
        fold_left (fun categoryFrequency r =>
                     fold_left countCategory (categories r) categoryFrequency)
                  results categoryFrequency in
      let overallRiskLevel := determineOverallRisk results in
      Some {| results := results;
              overallRiskLevel := overallRiskLevel;
              hasCriticalFlags := hasCriticalFlags;
              categoryFrequency := categoryFrequency |}
  end.

End ModerationBatch.

(* ================================================================== *)
(** ** The rate-limiting middleware *)

Module RateLimit.

Local Open Scope Z_scope.

(** Times are the integer milliseconds of [Date.now()]; the two options
    are integers as well. *)
Record Entry : Type := {
  count : Z;
  resetTime : Z
}.

Definition RateLimitStore : Type := Obj.t Entry.

Record Options : Type := {
  windowMs : Z;
  maxRequests : Z
}.

(** What the middleware does with a request: hand it on, or answer 429
    with [retryAfter]. *)
Inductive Verdict : Type :=
| next
| tooManyRequests (retryAfter : Z).

(** [req.ip || 'unknown']. *)
Definition clientKey (ip : option string) : string :=
  match ip with
  | Some (String c rest) => String c rest
  | _ => "unknown"%string
  end.

(** [Math.ceil(ms / 1000)] on an integer. *)
Definition ceilSeconds (ms : Z) : Z := - ((- ms) / 1000).

Definition rateLimiter (options : Options) (ip : option string) (now : Z)
           (store : RateLimitStore) : RateLimitStore * Verdict :=
  let key := clientKey ip in
  match Obj.get store key with
  | None =>
      (Obj.set store key {| count := 1; resetTime := now + windowMs options |},
       next)
  | Some entry =>
      if now >? resetTime entry then
        (Obj.set store key
                 {| count := 1; resetTime := now + windowMs options |},
         next)
      else
        let entry := {| count := count entry + 1;
                        resetTime := resetTime entry |} in
        let store := Obj.set store key entry in
        if count entry >? maxRequests options then
          (store, tooManyRequests (ceilSeconds (resetTime entry - now)))
        else (store, next)
  end.

(** The body of the periodic cleanup, run at time [now]. *)
Definition cleanup (now : Z) (store : RateLimitStore) : RateLimitStore :=
  fold_left (fun store key =>
               match Obj.get store key with
               | Some entry =>
                   if now >? resetTime entry then Obj.remove store key
                   else store
               | None => store
               end)
            (Obj.keys store) store.

(** A client sending requests at the given times, one after the other. *)
Fixpoint serve (options : Options) (ip : option string) (times : list Z)
         (store : RateLimitStore) : RateLimitStore * list Verdict :=
  match times with
  | [] => (store, [])
  | now :: later =>
      let (store1, verdict) := rateLimiter options ip now store in
      let (store2, verdicts) := serve options ip later store1 in
      (store2, verdict :: verdicts)
  end.

Definition admitted (v : Verdict) : bool :=
  match v with
  | next => true
  | tooManyRequests _ => false
  end.

(** An entry as a cleanup run at [now] leaves it. *)
Definition kept (now : Z) (entry : option Entry) : option Entry :=
  match entry with
  | Some e => if now >? resetTime e then None else Some e
  | None => None
  end.

End RateLimit.

(* ================================================================== *)
(** ** The analysis routes *)

Module Routes.

(** The environment of the process: the two keys, and the two services
    as they answer a request made with a key for a text. *)
Record Env : Type := {
  PERSPECTIVE_API_KEY : option string;
  OPENAI_API_KEY : option string;
  perspectiveService :
    string -> string -> option Perspective.PerspectiveResponse;
  openaiService :
    string -> string -> option OpenAI.Wire.ModerationResponse
}.

(** A variable that is set and not empty. *)
Definition configured (variable : option string) : option string :=
  match variable with
  | Some (String c rest) => Some (String c rest)
  | _ => None
  end.

(** [getAnalyzer]; [None] is the thrown [Error('API keys not
    configured')]. *)
Definition getAnalyzer (env : Env) : option CombinedContentAnalyzer :=
  match configured (PERSPECTIVE_API_KEY env),
        configured (OPENAI_API_KEY env) with
  | Some perspectiveKey, Some openaiKey =>
      Some {| perspective :=
                {| Perspective.fetch := perspectiveService env perspectiveKey |};
              openai :=
                {| OpenAI.fetch := openaiService env openaiKey |} |}
  | _, _ => None
  end.

(** [z.string().min(1).max(10000)]. *)
Definition validText (s : string) : bool :=
  (1 <=? Z.of_nat (String.length s))%Z
  && (Z.of_nat (String.length s) <=? 10000)%Z.

(** [analyzeMessageSchema.parse(req.body)]; the [text] field of the body
    is [None] when it is missing or not a string, and the result is
    [None] when a [ZodError] is thrown. *)
Definition analyzeMessageSchema (text : option string) : option string :=
  match text with
  | Some s => if validText s then Some s else None
  | None => None
  end.

(** [analyzeConversationSchema.parse(req.body)]; the [messages] field is
    [None] when it is missing or not an array, and an element is [None]
    when it is not a string. *)
Definition analyzeConversationSchema (messages : option (list (option string)))
  : option (list string) :=
  match messages with
  | None => None
  | Some items =>
      match Async.all analyzeMessageSchema items with
      | None => None
      | Some texts =>
          if Nat.leb 1 (List.length texts) && Nat.leb (List.length texts) 100
          then Some texts else None
      end
  end.

(** The answer of a route: 200 with the analysis, 400 on a validation
    error, 500 with the message of any other error. *)
Inductive Response (A : Type) : Type :=
| success (analysis : A)
| validationError
| failure (error : string).

Arguments success {A} analysis.
Arguments validationError {A}.
Arguments failure {A} error.



Definition postConversation (env : Env)
           (messages : option (list (option string)))
  : Response ConversationAnalysis :=
  match analyzeConversationSchema messages with
  | None => validationError
  | Some messages =>
      match getAnalyzer env with
      | None => failure "API keys not configured"
      | Some analyzer => success (analyzeConversation analyzer messages)
      end
  end.

(** [GET /health]: [true] is the status ['ready'], [false] is
    ['missing_keys']. *)
Definition healthReady (env : Env) : bool :=
  match configured (PERSPECTIVE_API_KEY env),
        configured (OPENAI_API_KEY env) with
  | Some _, Some _ => true
  | _, _ => false
  end.

End Routes.

(* ================================================================== *)
(** ** Further concrete inputs *)

Module Scenarios.

(** Classifier B answering with a payload that has no entry for
    "self-harm/intent": self-harm is flagged, at confidence 0.9. *)
Definition legacyModeration : OpenAI.Wire.ModerationResult :=
  {| OpenAI.Wire.flagged := true;
     OpenAI.Wire.categories :=
       [("self-harm", true); ("self-harm/instructions", false)];
     OpenAI.Wire.category_scores :=
       [("self-harm", OpenAI.JNumber 0.9);
        ("self-harm/instructions", OpenAI.JNumber 0.1)] |}.

Definition legacyModerator : OpenAI.OpenAIModerator :=
  {| OpenAI.fetch := fun _ =>
       Some {| OpenAI.Wire.results := [legacyModeration] |} |}.

Definition legacyReport : OpenAI.Result :=
  {| OpenAI.flagged := true;
     OpenAI.categories := ["self-harm"];
     OpenAI.scores := OpenAI.Wire.category_scores legacyModeration;
     OpenAI.criticalFlags := [] |}.

(** Three requests a minute. *)
Definition threePerMinute : RateLimit.Options :=
  {| RateLimit.windowMs := 60000; RateLimit.maxRequests := 3 |}.

(** A process with both keys set, classifier A unreachable and classifier
    B finding nothing. *)
Definition configuredEnv : Routes.Env :=
  {| Routes.PERSPECTIVE_API_KEY := Some "perspective-key";
     Routes.OPENAI_API_KEY := Some "openai-key";
     Routes.perspectiveService := fun _ _ => None;
     Routes.openaiService := fun _ => OpenAI.fetch Samples.openaiCalm |}.

End Scenarios.

(* ================================================================== *)
(** ** The rounded arithmetic of the source *)

Module Double.

(** A JavaScript [number] as it is: a binary64 float, every operation
    rounded to the nearest value, a decimal literal standing for the
    double nearest to it.  The functions below are those whose answer can
    turn on a rounding: the escalation test, which compares two rounded
    averages, and the sentiment estimator, which accumulates the inexact
    constant [0.1]. *)

Import PrimFloat.

Local Set Warnings "-inexact-float".

(** A length, as a number. *)
Definition of_nat (n : nat) : float := of_uint63 (Uint63.of_Z (Z.of_nat n)).

(** [reduce((a, b) => a + b, 0)]. *)
Definition sum (xs : list float) : float := fold_left add xs 0%float.

(** [a > b]; every comparison with [NaN] is false. *)
Definition gtb (a b : float) : bool := ltb b a.

Definition isNaN (a : float) : bool := negb (eqb a a).

(** [Math.max(a, b)] and [Math.min(a, b)]: [NaN] if either is [NaN]; of
    the two zeros the negative one is the smaller. *)
Definition max2 (a b : float) : float :=
  if (isNaN a || isNaN b)%bool then nan
  else if ltb a b then b
  else if ltb b a then a
  else match classify a with
       | FloatClass.PZero => a
       | _ => b
       end.

Definition min2 (a b : float) : float :=
  if (isNaN a || isNaN b)%bool then nan
  else if ltb b a then b
  else if ltb a b then a
  else match classify a with
       | FloatClass.NZero => a
       | _ => b
       end.

Definition analyzeSentiment (text : string) : float :=
  let normalized := toLowerCase text in
  let score := 0%float in
  let score :=
    fold_left (fun score word =>
                 if includes normalized word
                 then add score 0.1 else score)
              positiveWords score in
  let score :=
    fold_left (fun score word =>
                 if includes normalized word
                 then sub score 0.1 else score)
              negativeWords score in
  max2 (-1) (min2 1 score).

Definition detectEscalation (scores : list float) : bool :=
  if Nat.ltb (List.length scores) 3 then false
  else
    let recentScores := slice_from scores (-3) in
    let olderScores := slice scores (-6) (-3) in
    if Nat.eqb (List.length olderScores) 0 then false
    else
      let recentAvg :=
        div (sum recentScores) (of_nat (List.length recentScores)) in
      let olderAvg :=
        div (sum olderScores) (of_nat (List.length olderScores)) in
      gtb recentAvg (mul olderAvg 1.3).

(** The average of a window as the code computes it: the sum from zero,
    left to right, divided by the number of scores. *)
Definition average (xs : list float) : float :=
  div (sum xs) (of_nat (List.length xs)).

(** Zero, then [0.1] added [p] times, then [0.1] subtracted [n] times. *)
Definition accumulated (p n : nat) : float :=
  Nat.iter n (fun score => sub score 0.1)
           (Nat.iter p (fun score => add score 0.1) 0%float).

End Double.

(* ================================================================== *)
(** ** Numbers: comparison and clamping *)

Lemma Qle_bool_false (x y : Q) : Qle_bool x y = false -> y < x.
Proof.
  intros H. destruct (Qlt_le_dec y x) as [Hlt | Hle]; [exact Hlt |].
  apply Qle_bool_iff in Hle. congruence.
Qed.

Ltac qreflect :=
  repeat match goal with
         | H : Qle_bool _ _ = true |- _ => apply Qle_bool_iff in H
         | H : Qle_bool _ _ = false |- _ => apply Qle_bool_false in H
         end.

(** Split the conjunctions of a goal without evaluating its atoms. *)
Ltac conjuncts :=
  repeat match goal with
         | |- _ /\ _ => split
         end.

Lemma Qle_bool_true (x y : Q) : x <= y -> Qle_bool x y = true.
Proof. intros H. now apply Qle_bool_iff. Qed.

Lemma Qle_bool_lt (x y : Q) : y < x -> Qle_bool x y = false.
Proof.
  intros H. destruct (Qle_bool x y) eqn:E; [| reflexivity].
  qreflect. lra.
Qed.

Lemma geb_Fin (q t : Q) : geb (Fin q) (Fin t) = Qle_bool t q.
Proof. reflexivity. Qed.

Lemma determineRiskLevel_no_flags (q : Q) :
  determineRiskLevel (Fin q) [] =
  if Qle_bool 80 q then critical
  else if Qle_bool 60 q then high
  else if Qle_bool 40 q then medium
  else low.
Proof. reflexivity. Qed.

(** The four alternatives of the threshold function on a finite score. *)
Lemma determineRiskLevel_cases (q : Q) :
  (q < 40 /\ determineRiskLevel (Fin q) [] = low)
  \/ (40 <= q /\ q < 60 /\ determineRiskLevel (Fin q) [] = medium)
  \/ (60 <= q /\ q < 80 /\ determineRiskLevel (Fin q) [] = high)
  \/ (80 <= q /\ determineRiskLevel (Fin q) [] = critical).
Proof.
  rewrite determineRiskLevel_no_flags.
  destruct (Qle_bool 80 q) eqn:E80; qreflect; [now right; right; right |].
  destruct (Qle_bool 60 q) eqn:E60; qreflect; [now right; right; left |].
  destruct (Qle_bool 40 q) eqn:E40; qreflect; [now right; left |].
  now left.
Qed.

(** C6.  With no critical category reported by classifier B, the risk level
    is a non-decreasing step function of the score whose steps are exactly
    at 40, 60 and 80: below 40 it is low, in [40,60) medium, in [60,80)
    high, and from 80 on critical. *)
Theorem C6_risk_level_step_function (p q : Q) :
  p <= q ->
  (rank (determineRiskLevel (Fin p) []) <= rank (determineRiskLevel (Fin q) []))%nat
  /\ (determineRiskLevel (Fin q) [] = low <-> q < 40)
  /\ (determineRiskLevel (Fin q) [] = medium <-> 40 <= q /\ q < 60)
  /\ (determineRiskLevel (Fin q) [] = high <-> 60 <= q /\ q < 80)
  /\ (determineRiskLevel (Fin q) [] = critical <-> 80 <= q).
Proof.
  intros Hpq.
  destruct (determineRiskLevel_cases p) as [[Hp Ep] | [[Hp [Hp' Ep]] | [[Hp [Hp' Ep]] | [Hp Ep]]]];
    destruct (determineRiskLevel_cases q) as [[Hq Eq] | [[Hq [Hq' Eq]] | [[Hq [Hq' Eq]] | [Hq Eq]]]];
    rewrite Ep, Eq; simpl;
    (split; [lia || (exfalso; lra) |]);
    repeat split; intros; try discriminate; try lra; try reflexivity;
      try (exfalso; lra).
Qed.

Lemma C6_risk_level_step_function_witness :
  39.9 <= 40
  /\ (rank (determineRiskLevel (Fin 39.9) []) <= rank (determineRiskLevel (Fin 40) []))%nat
  /\ (determineRiskLevel (Fin 40) [] = low <-> 40 < 40)
  /\ (determineRiskLevel (Fin 40) [] = medium <-> 40 <= 40 /\ 40 < 60)
  /\ (determineRiskLevel (Fin 40) [] = high <-> 60 <= 40 /\ 40 < 80)
  /\ (determineRiskLevel (Fin 40) [] = critical <-> 80 <= 40).
Proof.
  assert (H : 39.9 <= 40) by (unfold Qle; simpl; lia).
  split; [exact H | exact (C6_risk_level_step_function 39.9 40 H)].
Defined.

(* ================================================================== *)
(** ** Alerts and suggested actions *)

Lemma assemble_requiresAlert text p o k s :
  requiresAlert (assemble text p o k s)
  = (isHighOrCritical (riskLevel (assemble text p o k s))
     || selfHarm (flags (assemble text p o k s)))%bool.
Proof.
  reflexivity.
Qed.

Lemma isHighOrCritical_true (level : RiskLevel) :
  isHighOrCritical level = true <-> level = high \/ level = critical.
Proof.
  destruct level; simpl; split; intros H; try discriminate; auto;
    destruct H; discriminate.
Qed.

(** C8.  In every result of [analyzeMessage], [requiresAlert] holds exactly
    when the risk level is high or critical or the self-harm flag is
    set. *)
Theorem C8_requires_alert_iff (self : CombinedContentAnalyzer) (text : string) :
  requiresAlert (analyzeMessage self text) = true
  <-> (riskLevel (analyzeMessage self text) = high
       \/ riskLevel (analyzeMessage self text) = critical
       \/ selfHarm (flags (analyzeMessage self text)) = true).
Proof.
  unfold analyzeMessage. rewrite assemble_requiresAlert.
  rewrite orb_true_iff, isHighOrCritical_true. tauto.
Qed.


Lemma assemble_suggestedActions text p o k s :
  suggestedActions (assemble text p o k s)
  = generateSuggestedActions (flags (assemble text p o k s))
                             (riskLevel (assemble text p o k s)).
Proof. reflexivity. Qed.

(* ================================================================== *)
(** ** The critical-category override *)

Lemma array_includes_In (xs : list string) (x : string) :
  array_includes xs x = true <-> In x xs.
Proof.
  unfold array_includes. rewrite existsb_exists. split.
  - intros [y [Hy E]]. apply String.eqb_eq in E. now subst.
  - intros H. exists x. split; [exact H | apply String.eqb_refl].
Qed.

Lemma determineRiskLevel_flagged (score : num) (c : string) (cs : list string) :
  In c cs -> determineRiskLevel score cs = critical.
Proof.
  intros H. destruct cs as [| c' cs']; [contradiction | reflexivity].
Qed.

Lemma flaggedNames_In (entries : list (string * bool)) (c : string) :
  In c (OpenAI.flaggedNames entries) <-> In (c, true) entries.
Proof.
  unfold OpenAI.flaggedNames. rewrite in_map_iff. split.
  - intros [[c' b] [E H]]. apply filter_In in H. simpl in *.
    destruct H as [H Hb]. now subst.
  - intros H. exists (c, true). split; [reflexivity |].
    apply filter_In. now split.
Qed.

(** What classifier B resolves to satisfies the adapter contract. *)
Lemma moderateText_contract (m : OpenAI.OpenAIModerator) (text : string) r :
  OpenAI.moderateText m text = Some r -> adapterContract r.
Proof.
  unfold OpenAI.moderateText, adapterContract.
  destruct (OpenAI.fetch m text) as [data |]; [| discriminate].
  destruct (OpenAI.Wire.results data) as [| result rest]; [discriminate |].
  intros E. injection E as <-. reflexivity.
Qed.

Lemma openaiFallback_contract : adapterContract openaiFallback.
Proof. reflexivity. Qed.

Lemma contract_critical (o : OpenAI.Result) (c : string) (score : num) :
  adapterContract o ->
  In c (OpenAI.categories o) ->
  In c OpenAI.criticalCategories ->
  determineRiskLevel score (OpenAI.criticalFlags o) = critical.
Proof.
  intros Hc Hin Hcrit. apply determineRiskLevel_flagged with (c := c).
  rewrite Hc. apply filter_In. split; [exact Hin |].
  now apply array_includes_In.
Qed.

(** C2.  Whenever classifier B answers and flags a category of the fixed
    critical set, the risk level of the message is critical, whatever the
    composite score. *)
Theorem C2_critical_category_override
        (self : CombinedContentAnalyzer) (text : string)
        (data : OpenAI.Wire.ModerationResponse)
        (result : OpenAI.Wire.ModerationResult)
        (rest : list OpenAI.Wire.ModerationResult) (c : string) :
  OpenAI.fetch (openai self) text = Some data ->
  OpenAI.Wire.results data = result :: rest ->
  In (c, true) (OpenAI.Wire.categories result) ->
  In c OpenAI.criticalCategories ->
  riskLevel (analyzeMessage self text) = critical.
Proof.
  intros Hfetch Hres Hflag Hcrit.
  unfold analyzeMessage, assemble; cbn [riskLevel].
  destruct (OpenAI.moderateText (openai self) text) as [r |] eqn:Hm.
  - cbn [catch]. apply contract_critical with (c := c); [| | exact Hcrit].
    + eapply moderateText_contract; eassumption.
    + unfold OpenAI.moderateText in Hm. rewrite Hfetch, Hres in Hm.
      injection Hm as <-. cbn [OpenAI.categories].
      now apply flaggedNames_In.
  - unfold OpenAI.moderateText in Hm. rewrite Hfetch, Hres in Hm. discriminate.
Qed.

(** The scenario of a self-harm intent report at confidence 0.3: the level
    is critical although the composite is 20. *)
Lemma C2_critical_category_override_witness :
  riskLevel (analyzeMessage Samples.selfHarmIntent "just a message") = critical
  /\ eqv (riskScore (analyzeMessage Samples.selfHarmIntent "just a message")) (Fin 20).
Proof.
  split.
  - apply (C2_critical_category_override
             Samples.selfHarmIntent "just a message"
             {| OpenAI.Wire.results := [Samples.moderationOf "self-harm/intent" 0.3] |}
             (Samples.moderationOf "self-harm/intent" 0.3) []
             "self-harm/intent").
    + reflexivity.
    + reflexivity.
    + vm_compute. tauto.
    + vm_compute. tauto.
  - vm_compute. reflexivity.
Defined.

Lemma selfHarm_forces_critical
      (text : string) (p : Perspective.Result) (o : OpenAI.Result)
      (k : list string) (s : num) :
  adapterContract o ->
  selfHarm (flags (assemble text p o k s)) = true ->
  riskLevel (assemble text p o k s) = critical.
Proof.
  intros Hc. unfold assemble; cbn [flags selfHarm riskLevel].
  rewrite orb_true_iff, !array_includes_In. intros [H | H].
  - eapply contract_critical; [exact Hc | exact H |]. simpl; tauto.
  - eapply contract_critical; [exact Hc | exact H |]. simpl; tauto.
Qed.

(** C10.  Under the adapter contract (the critical flags are the reported
    categories that belong to the critical set), a set self-harm flag
    forces the critical level, so [requiresAlert] is decided by the level
    alone. *)
Theorem C10_self_harm_implies_critical
        (text : string) (p : Perspective.Result) (o : OpenAI.Result)
        (k : list string) (s : num) :
  adapterContract o ->
  (selfHarm (flags (assemble text p o k s)) = true ->
   riskLevel (assemble text p o k s) = critical)
  /\ requiresAlert (assemble text p o k s)
     = isHighOrCritical (riskLevel (assemble text p o k s)).
Proof.
  intros Hc.
  pose proof (selfHarm_forces_critical text p o k s Hc) as Himp.
  split; [exact Himp |].
  rewrite assemble_requiresAlert.
  destruct (selfHarm (flags (assemble text p o k s))) eqn:E.
  - rewrite (Himp eq_refl). reflexivity.
  - apply orb_false_r.
Qed.

Lemma C10_self_harm_implies_critical_witness :
  adapterContract Samples.selfHarmReport
  /\ selfHarm (flags (assemble "just a message" perspectiveFallback
                               Samples.selfHarmReport [] (Fin 0))) = true
  /\ (selfHarm (flags (assemble "just a message" perspectiveFallback
                                Samples.selfHarmReport [] (Fin 0))) = true ->
      riskLevel (assemble "just a message" perspectiveFallback
                          Samples.selfHarmReport [] (Fin 0)) = critical)
  /\ requiresAlert (assemble "just a message" perspectiveFallback
                             Samples.selfHarmReport [] (Fin 0))
     = isHighOrCritical (riskLevel (assemble "just a message" perspectiveFallback
                                             Samples.selfHarmReport [] (Fin 0))).
Proof.
  assert (Hc : adapterContract Samples.selfHarmReport) by reflexivity.
  split; [exact Hc |].
  split; [reflexivity |].
  exact (C10_self_harm_implies_critical
           "just a message" perspectiveFallback Samples.selfHarmReport
           [] (Fin 0) Hc).
Defined.

(** Every analysis of a message runs under the adapter contract, so there
    the self-harm flag never raises an alert on its own. *)
Lemma analyzeMessage_selfHarm_critical
      (self : CombinedContentAnalyzer) (text : string) :
  selfHarm (flags (analyzeMessage self text)) = true ->
  riskLevel (analyzeMessage self text) = critical.
Proof.
  unfold analyzeMessage. apply selfHarm_forces_critical.
  destruct (OpenAI.moderateText (openai self) text) as [r |] eqn:E; cbn [catch].
  - eapply moderateText_contract; eassumption.
  - apply openaiFallback_contract.
Qed.

(* ================================================================== *)
(** ** Bounds of the scores *)

Lemma add_finiteOrNegInf (a b : num) :
  finiteOrNegInf a -> finiteOrNegInf b -> finiteOrNegInf (add a b).
Proof. destruct a, b; simpl; tauto. Qed.

Lemma mul_weight_finiteOrNegInf (a : num) (c : Q) :
  0 < c -> finiteOrNegInf a -> finiteOrNegInf (mul a (Fin c)).
Proof.
  intros Hc. destruct a; simpl; try tauto. intros _.
  apply Qgt_alt in Hc. rewrite Hc. exact I.
Qed.

Lemma isFinite_finiteOrNegInf (a : num) : isFinite a -> finiteOrNegInf a.
Proof. destruct a; simpl; tauto. Qed.

Lemma max2_finiteOrNegInf (a b : num) :
  finiteOrNegInf a -> finiteOrNegInf b -> finiteOrNegInf (max2 a b).
Proof.
  destruct a, b; simpl; try tauto; intros _ _.
  destruct (negb _); exact I.
Qed.

Lemma Math_max_finiteOrNegInf (xs : list num) :
  Forall finiteOrNegInf xs -> finiteOrNegInf (Math_max xs).
Proof.
  unfold Math_max. assert (H0 : finiteOrNegInf NegInf) by exact I.
  revert H0. generalize NegInf as acc.
  induction xs as [| x xs IH]; intros acc Hacc Hxs; simpl; [exact Hacc |].
  inversion Hxs; subst. apply IH; [| assumption].
  now apply max2_finiteOrNegInf.
Qed.

(** Clamping to [[lo, hi]] in the order of [calculateRiskScore]. *)
Lemma clamp_min_max_within (lo hi : Q) (x : num) :
  lo <= hi -> finiteOrNegInf x ->
  within lo hi (min2 (Fin hi) (max2 (Fin lo) x)).
Proof.
  intros Hlh. destruct x as [| | | q]; simpl; try tauto; intros _.
  - destruct (Qle_bool hi lo) eqn:E; simpl; qreflect; lra.
  - destruct (Qle_bool q lo) eqn:E1; simpl.
    + destruct (Qle_bool hi lo) eqn:E2; simpl; qreflect; lra.
    + destruct (Qle_bool hi q) eqn:E2; simpl; qreflect; lra.
Qed.

(** Clamping to [[lo, hi]] in the order of [analyzeSentiment]. *)
Lemma clamp_max_min_within (lo hi : Q) (x : num) :
  lo <= hi -> isFinite x ->
  within lo hi (max2 (Fin lo) (min2 (Fin hi) x)).
Proof.
  intros Hlh. destruct x as [| | | q]; simpl; try tauto; intros _.
  destruct (Qle_bool hi q) eqn:E1; simpl.
  - destruct (Qle_bool hi lo) eqn:E2; simpl; qreflect; lra.
  - destruct (Qle_bool q lo) eqn:E2; simpl; qreflect; lra.
Qed.

Lemma within_isFinite (lo hi : Q) (x : num) : within lo hi x -> isFinite x.
Proof. destruct x; simpl; tauto. Qed.

Lemma sentiment_fold_finite (normalized : string) (step : num -> num)
      (words : list string) (score : num) :
  (forall a, isFinite a -> isFinite (step a)) ->
  isFinite score ->
  isFinite (fold_left (fun score word =>
                         if includes normalized word then step score else score)
                      words score).
Proof.
  intros Hstep. revert score.
  induction words as [| w ws IH]; intros score Hs; simpl; [exact Hs |].
  apply IH. destruct (includes normalized w); auto.
Qed.

Lemma analyzeSentiment_within (text : string) :
  within (-1) 1 (analyzeSentiment text).
Proof.
  unfold analyzeSentiment. apply clamp_max_min_within; [lra |].
  apply (sentiment_fold_finite _ (fun a => sub a (Fin 0.1))).
  { intros [| | | q]; simpl; tauto. }
  apply (sentiment_fold_finite _ (fun a => add a (Fin 0.1))).
  { intros [| | | q]; simpl; tauto. }
  exact I.
Qed.

Lemma keywordScore_finite (keywords : list string) :
  isFinite (keywordScore keywords).
Proof.
  unfold keywordScore. destruct (existsb _ keywords); exact I.
Qed.

Lemma calculateRiskScore_within
      (p : Perspective.Result) (o : OpenAI.Result)
      (k : list string) (s : num) :
  isFinite (Perspective.highestScore p) -> isFinite s ->
  within 0 100 (calculateRiskScore p o k s).
Proof.
  intros Hp Hs. unfold calculateRiskScore.
  apply clamp_min_max_within; [lra |].
  repeat apply add_finiteOrNegInf.
  - apply mul_weight_finiteOrNegInf; [lra |].
    apply mul_weight_finiteOrNegInf; [lra |].
    now apply isFinite_finiteOrNegInf.
  - apply mul_weight_finiteOrNegInf; [lra |].
    apply mul_weight_finiteOrNegInf; [lra |].
    apply Math_max_finiteOrNegInf. apply Forall_forall.
    intros x Hx. apply in_map_iff in Hx. destruct Hx as [[name v] [<- _]].
    destruct v; exact I.
  - apply mul_weight_finiteOrNegInf; [lra |].
    apply isFinite_finiteOrNegInf, keywordScore_finite.
  - apply mul_weight_finiteOrNegInf; [lra |].
    apply mul_weight_finiteOrNegInf; [lra |].
    destruct s; simpl in *; tauto.
Qed.

Lemma visit_highest_finite (st : Perspective.Result) (entry : string * Q) :
  isFinite (Perspective.highestScore st) ->
  isFinite (Perspective.highestScore (Perspective.visit st entry)).
Proof.
  intros H. destruct entry as [attribute value]; simpl.
  destruct (gtb _ _); [exact I | exact H].
Qed.

Lemma analyzeText_highest_finite (a : Perspective.PerspectiveAnalyzer)
      (text : string) :
  isFinite (Perspective.highestScore
              (catch (Perspective.analyzeText a text) perspectiveFallback)).
Proof.
  unfold Perspective.analyzeText.
  destruct (Perspective.fetch a text) as [data |]; cbn [catch]; [| exact I].
  assert (H0 : isFinite (Perspective.highestScore
                           {| Perspective.scores := [];
                              Perspective.highestScore := Fin 0;
                              Perspective.flaggedCategories := [] |}))
    by exact I.
  revert H0. generalize ({| Perspective.scores := [];
                            Perspective.highestScore := Fin 0;
                            Perspective.flaggedCategories := [] |}).
  induction (Perspective.attributeScores data) as [| e es IH];
    intros st Hst; simpl; [exact Hst |].
  apply IH. now apply visit_highest_finite.
Qed.

Lemma analyzeMessage_riskScore_within
      (self : CombinedContentAnalyzer) (text : string) :
  within 0 100 (riskScore (analyzeMessage self text)).
Proof.
  unfold analyzeMessage, assemble; cbn [riskScore].
  apply calculateRiskScore_within.
  - apply analyzeText_highest_finite.
  - eapply within_isFinite. apply analyzeSentiment_within.
Qed.

(** The running sum of [analyzeConversation] over scores in [[0, 100]]. *)
Lemma sum_riskScore_bounds (analyses : list AnalysisResult) (acc : Q) :
  Forall (fun a => within 0 100 (riskScore a)) analyses ->
  exists t : Q,
    fold_left (fun sum a => add sum (riskScore a)) analyses (Fin acc) = Fin t
    /\ acc <= t
    /\ t <= acc + 100 * inject_Z (Z.of_nat (List.length analyses)).
Proof.
  revert acc. induction analyses as [| a rest IH]; intros acc Hall.
  - exists acc. simpl. repeat split; try lra. unfold inject_Z. lra.
  - inversion Hall as [| ? ? Ha Hrest]; subst.
    destruct (riskScore a) as [| | | q] eqn:Eq; simpl in Ha; try tauto.
    destruct (IH (acc + q) Hrest) as [t [Et [Hlo Hhi]]].
    exists t. cbn [fold_left List.length]. rewrite Eq. cbn [add].
    split; [exact Et |].
    rewrite Nat2Z.inj_succ, <- Z.add_1_r, inject_Z_plus.
    change (inject_Z 1) with 1. lra.
Qed.

Lemma of_nat_positive (n : nat) : (0 < n)%nat -> 0 < inject_Z (Z.of_nat n).
Proof.
  intros H. change 0 with (inject_Z 0). rewrite <- Zlt_Qlt. lia.
Qed.

Lemma div_by_length (t : Q) (n : nat) :
  (0 < n)%nat -> div (Fin t) (of_nat n) = Fin (t / inject_Z (Z.of_nat n)).
Proof.
  intros H. unfold div, of_nat.
  destruct (Qeq_bool (inject_Z (Z.of_nat n)) 0) eqn:E; [| reflexivity].
  apply Qeq_bool_iff in E. pose proof (of_nat_positive n H). lra.
Qed.

Lemma analyzeConversation_overall_within
      (self : CombinedContentAnalyzer) (messages : list string) :
  messages <> [] ->
  within 0 100 (overallRiskScore (analyzeConversation self messages)).
Proof.
  intros Hne. unfold analyzeConversation; cbn [overallRiskScore].
  set (analyses := map (analyzeMessage self) messages).
  assert (Hall : Forall (fun a => within 0 100 (riskScore a)) analyses).
  { apply Forall_forall. intros a Ha. apply in_map_iff in Ha.
    destruct Ha as [text [<- _]]. apply analyzeMessage_riskScore_within. }
  assert (Hlen : (0 < List.length analyses)%nat).
  { unfold analyses. rewrite length_map.
    destruct messages; [contradiction | simpl; lia]. }
  destruct (sum_riskScore_bounds analyses 0 Hall) as [t [Et [Hlo Hhi]]].
  rewrite Et, div_by_length by exact Hlen.
  pose proof (of_nat_positive _ Hlen) as Hpos.
  simpl. split.
  - apply Qle_shift_div_l; [exact Hpos | lra].
  - apply Qle_shift_div_r; [exact Hpos | lra].
Qed.

(** With no message at all the mean is [0 / 0]. *)
Lemma analyzeConversation_empty (self : CombinedContentAnalyzer) :
  overallRiskScore (analyzeConversation self []) = NaN.
Proof. reflexivity. Qed.

(** C7 (as amended).  For every conversation and every message in it, the
    risk score of the message lies in [0,100], its sentiment lies in
    [-1,1], and the overall risk score of the conversation lies in
    [0,100]. *)
Theorem C7_scores_within_bounds
        (self : CombinedContentAnalyzer) (messages : list string)
        (text : string) :
  In text messages ->
  within 0 100 (riskScore (analyzeMessage self text))
  /\ within (-1) 1 (sentiment (details (analyzeMessage self text)))
  /\ within 0 100 (overallRiskScore (analyzeConversation self messages)).
Proof.
  intros Hin. split; [apply analyzeMessage_riskScore_within |].
  split; [apply analyzeSentiment_within |].
  apply analyzeConversation_overall_within.
  intros E. rewrite E in Hin. exact Hin.
Qed.

Lemma C7_scores_within_bounds_witness :
  In "hello" Samples.fourMessages
  /\ within 0 100 (riskScore (analyzeMessage Samples.calm "hello"))
  /\ within (-1) 1 (sentiment (details (analyzeMessage Samples.calm "hello")))
  /\ within 0 100 (overallRiskScore
                     (analyzeConversation Samples.calm Samples.fourMessages)).
Proof.
  assert (H : In "hello" Samples.fourMessages) by (left; reflexivity).
  split; [exact H |].
  exact (C7_scores_within_bounds Samples.calm Samples.fourMessages "hello" H).
Defined.

(** C7, as stated, fails on the conversation with no message: its overall
    risk score is [NaN], which is not in [0,100]. *)
Lemma C7_empty_conversation_out_of_bounds :
  overallRiskScore (analyzeConversation Samples.calm []) = NaN
  /\ ~ within 0 100 (overallRiskScore (analyzeConversation Samples.calm [])).
Proof.
  split; [reflexivity |]. intros H. exact H.
Qed.

(* ================================================================== *)
(** ** Failure of classifier B *)

Lemma calculateRiskScore_openai_down
      (p : Perspective.Result) (k : list string) (s : num) :
  isFinite (Perspective.highestScore p) -> isFinite s ->
  calculateRiskScore p openaiFallback k s = Fin 0.
Proof.
  intros Hp Hs. unfold calculateRiskScore.
  pose proof (keywordScore_finite k) as Hk.
  destruct (Perspective.highestScore p); simpl in Hp; try contradiction.
  destruct s; simpl in Hs; try contradiction.
  destruct (keywordScore k); simpl in Hk; try contradiction.
  reflexivity.
Qed.

(** When classifier B fails the score is 0 and the level low, whatever
    classifier A, the lexicon and the sentiment found. *)
Lemma analyzeMessage_openai_down
      (self : CombinedContentAnalyzer) (text : string) :
  OpenAI.moderateText (openai self) text = None ->
  riskScore (analyzeMessage self text) = Fin 0
  /\ riskLevel (analyzeMessage self text) = low.
Proof.
  intros Hdown. unfold analyzeMessage, assemble; cbn [riskScore riskLevel].
  rewrite Hdown; cbn [catch].
  rewrite calculateRiskScore_openai_down.
  - split; reflexivity.
  - apply analyzeText_highest_finite.
  - eapply within_isFinite. apply analyzeSentiment_within.
Qed.

(** C1 (the code at the failing input).  Classifier A answers 0.5,
    classifier B fails and the text holds one concern term: the component
    of classifier B is [-Infinity] instead of 0, the three surviving
    components are 50, 20 and 50, for which the announced composite is 24,
    yet the returned score is 0 and the level low. *)
Theorem C1_classifierB_failure_discards_signals :
  OpenAI.moderateText (openai Samples.degraded) "I feel depressed" = None
  /\ mul (Math_max (map (fun kv => numberOrZero (snd kv))
                        (OpenAI.scores openaiFallback)))
         (Fin 100)
     = NegInf
  /\ eqv (mul (Perspective.highestScore
                 (d_perspective
                    (details (analyzeMessage Samples.degraded "I feel depressed"))))
              (Fin 100))
         (Fin 50)
  /\ eqv (keywordScore
            (keywords (details (analyzeMessage Samples.degraded "I feel depressed"))))
         (Fin 20)
  /\ eqv (mul (sub (Fin 1)
                   (sentiment
                      (details (analyzeMessage Samples.degraded "I feel depressed"))))
              (Fin 50))
         (Fin 50)
  /\ Spec.compositeWithoutB 50 20 50 == 24
  /\ riskScore (analyzeMessage Samples.degraded "I feel depressed") = Fin 0
  /\ riskLevel (analyzeMessage Samples.degraded "I feel depressed") = low.
Proof.
  conjuncts; vm_compute; reflexivity.
Qed.

(* ================================================================== *)
(** ** The lexicon matcher and the keyword component *)

Lemma fold_push_filter {A B : Type} (f : A -> bool) (g : A -> B)
      (xs : list A) (acc : list B) :
  fold_left (fun matches x => if f x then push matches (g x) else matches)
            xs acc
  = (acc ++ map g (filter f xs))%list.
Proof.
  revert acc. induction xs as [| x xs IH]; intros acc; simpl.
  - now rewrite app_nil_r.
  - rewrite IH. destruct (f x); [| reflexivity].
    unfold push. simpl. now rewrite <- app_assoc.
Qed.

(** The matches, in order: the concern terms found, then the critical
    terms found, each behind the marker. *)
Lemma detectKeywords_matches (text : string) :
  detectKeywords text
  = (termsFound mentalHealthKeywords text
     ++ map (fun k => ("[CRITICAL] " ++ k)%string)
            (termsFound suicidalIdeationKeywords text))%list.
Proof.
  unfold detectKeywords, termsFound.
  generalize mentalHealthKeywords as concern.
  generalize suicidalIdeationKeywords as acute.
  generalize (toLowerCase text) as normalizedText.
  intros normalizedText acute concern.
  rewrite (fold_push_filter (includes normalizedText) (fun k => k)).
  rewrite (fold_push_filter (includes normalizedText)
                            (fun k => ("[CRITICAL] " ++ k)%string)).
  rewrite map_id. reflexivity.
Qed.

Lemma marked_isCritical (k : string) :
  isCriticalMatch ("[CRITICAL] " ++ k) = true.
Proof. reflexivity. Qed.

Lemma concern_terms_unmarked (k : string) :
  In k mentalHealthKeywords -> isCriticalMatch k = false.
Proof.
  intros H.
  assert (Hall : forallb (fun k => negb (isCriticalMatch k))
                         mentalHealthKeywords = true) by (vm_compute; reflexivity).
  rewrite forallb_forall in Hall. apply Hall in H.
  now apply negb_true_iff in H.
Qed.

Lemma existsb_none {A : Type} (f : A -> bool) (xs : list A) :
  (forall x, In x xs -> f x = false) -> existsb f xs = false.
Proof.
  intros H. induction xs as [| x xs IH]; simpl; [reflexivity |].
  rewrite H by (left; reflexivity). apply IH.
  intros y Hy. apply H. now right.
Qed.

Lemma existsb_marked (xs : list string) :
  existsb isCriticalMatch (map (fun k => "[CRITICAL] " ++ k) xs)
  = negb (Nat.eqb (List.length xs) 0).
Proof.
  destruct xs as [| x xs]; [reflexivity |].
  cbn [map existsb]. rewrite marked_isCritical. reflexivity.
Qed.

(** A match of [detectKeywords] carries the critical tag exactly when a
    critical term was found. *)
Lemma detectKeywords_critical (text : string) :
  existsb isCriticalMatch (detectKeywords text)
  = negb (Nat.eqb (List.length (termsFound suicidalIdeationKeywords text)) 0).
Proof.
  rewrite detectKeywords_matches, existsb_app, existsb_marked.
  rewrite existsb_none; [apply orb_false_l |].
  intros k Hk. apply concern_terms_unmarked.
  unfold termsFound in Hk. apply filter_In in Hk.
  destruct Hk as [Hk _]. exact Hk.
Qed.

Lemma concernMatches_all (keywords : list string) :
  existsb isCriticalMatch keywords = false ->
  concernMatches keywords = keywords.
Proof.
  unfold concernMatches.
  induction keywords as [| k ks IH]; cbn [existsb filter]; [reflexivity |].
  intros H. apply orb_false_iff in H. destruct H as [Hk Hks].
  rewrite Hk. cbn [negb]. now rewrite IH.
Qed.

(** What the keyword component computes: 100 when a match carries the
    critical tag, and otherwise 20 times the number of matches, none of
    which is critical; on the matches of a text, 100 when a critical term
    occurs in it and otherwise 20 times the number of concern terms that
    occur in it.  Nothing bounds the product. *)
Lemma keywordScore_value (keywords : list string) (text : string) :
  eqv (keywordScore keywords)
      (Fin (if existsb isCriticalMatch keywords then 100
            else 20 * inject_Z (Z.of_nat (List.length (concernMatches keywords)))))
  /\ eqv (keywordScore (detectKeywords text))
         (Fin (match termsFound suicidalIdeationKeywords text with
               | _ :: _ => 100
               | [] => 20 * inject_Z (Z.of_nat
                                        (List.length
                                           (termsFound mentalHealthKeywords text)))
               end)).
Proof.
  assert (Hgen : forall ks,
             eqv (keywordScore ks)
                 (Fin (if existsb isCriticalMatch ks then 100
                       else 20 * inject_Z (Z.of_nat (List.length (concernMatches ks)))))).
  { intros ks. unfold keywordScore.
    change (existsb (fun k => includes k "[CRITICAL]") ks)
      with (existsb isCriticalMatch ks).
    destruct (existsb isCriticalMatch ks) eqn:E; simpl; [reflexivity |].
    rewrite concernMatches_all by exact E. ring. }
  split; [apply Hgen |].
  pose proof (Hgen (detectKeywords text)) as H.
  rewrite detectKeywords_critical in H.
  destruct (termsFound suicidalIdeationKeywords text) as [| c cs] eqn:E.
  - cbn [List.length Nat.eqb negb] in H.
    rewrite concernMatches_all in H.
    + rewrite detectKeywords_matches, E in H. cbn [map] in H.
      rewrite app_nil_r in H. rewrite detectKeywords_matches, E. cbn [map].
      rewrite app_nil_r. exact H.
    + rewrite detectKeywords_critical, E. reflexivity.
  - exact H.
Qed.

(** C3 (the code at the failing input).  On a text holding six concern
    terms and no critical one the keyword component is 20 x 6 = 120, where
    the claim announces min(100, 20 x 6) = 100, the bound that the
    project's own description of the component (a score from 0 to 100)
    promises as well. *)
Lemma C3_six_concern_terms_exceed_cap :
  List.length (detectKeywords Samples.sixConcernTerms) = 6%nat
  /\ existsb isCriticalMatch (detectKeywords Samples.sixConcernTerms) = false
  /\ eqv (keywordScore (detectKeywords Samples.sixConcernTerms)) (Fin 120)
  /\ Spec.keywordComponent (detectKeywords Samples.sixConcernTerms) == 100
  /\ ~ eqv (keywordScore (detectKeywords Samples.sixConcernTerms))
           (Fin (Spec.keywordComponent (detectKeywords Samples.sixConcernTerms))).
Proof.
  conjuncts; try (vm_compute; reflexivity).
  vm_compute. discriminate.
Qed.

(* ================================================================== *)
(** ** Windows of a conversation *)

Lemma slice_from_recent {A : Type} (xs : list A) :
  slice_from xs (-3) = recentWindow xs.
Proof.
  unfold slice_from, recentWindow, lastN, rel_index.
  change (-3 <? 0)%Z with true. cbv iota. f_equal. lia.
Qed.

Lemma slice_older {A : Type} (xs : list A) :
  slice xs (-6) (-3) = olderWindow xs.
Proof.
  unfold slice, olderWindow, lastN, dropLast, rel_index.
  change (-6 <? 0)%Z with true. change (-3 <? 0)%Z with true. cbv iota zeta.
  rewrite length_firstn, firstn_skipn_comm.
  set (n := List.length xs).
  replace (Z.to_nat (Z.max (Z.of_nat n + -6) 0)) with (n - 6)%nat by lia.
  replace (Z.to_nat (Z.max (Z.max (Z.of_nat n + -3) 0
                            - Z.max (Z.of_nat n + -6) 0) 0))
    with (n - 3 - (n - 6))%nat by lia.
  replace (Nat.min (n - 3) n - 3)%nat with (n - 6)%nat by lia.
  replace (n - 6 + (n - 3 - (n - 6)))%nat with (n - 3)%nat by lia.
  reflexivity.
Qed.

Lemma recentWindow_map {A B : Type} (f : A -> B) (xs : list A) :
  recentWindow (map f xs) = map f (recentWindow xs).
Proof.
  unfold recentWindow, lastN. now rewrite length_map, skipn_map.
Qed.

Lemma olderWindow_map {A B : Type} (f : A -> B) (xs : list A) :
  olderWindow (map f xs) = map f (olderWindow xs).
Proof.
  unfold olderWindow, lastN, dropLast.
  now rewrite length_map, firstn_map, length_map, skipn_map.
Qed.

Lemma recentWindow_length {A : Type} (xs : list A) :
  List.length (recentWindow xs) = Nat.min 3 (List.length xs).
Proof. unfold recentWindow, lastN. rewrite length_skipn. lia. Qed.

Lemma olderWindow_length {A : Type} (xs : list A) :
  List.length (olderWindow xs) = Nat.min 3 (List.length xs - 3).
Proof.
  unfold olderWindow, lastN, dropLast.
  rewrite length_skipn, length_firstn. lia.
Qed.

Lemma sum_map_Fin_from (qs : list Q) (acc : Q) :
  fold_left add (map Fin qs) (Fin acc) = Fin (fold_left Qplus qs acc).
Proof.
  revert acc. induction qs as [| q qs IH]; intros acc; [reflexivity |].
  cbn [map fold_left add]. apply IH.
Qed.

Lemma sum_map_Fin (qs : list Q) : sum (map Fin qs) = Fin (total qs).
Proof. apply sum_map_Fin_from. Qed.

Lemma average_map_Fin (qs : list Q) :
  (0 < List.length qs)%nat ->
  div (sum (map Fin qs)) (of_nat (List.length (map Fin qs))) = Fin (mean qs).
Proof.
  intros H. rewrite sum_map_Fin, length_map, div_by_length by exact H.
  reflexivity.
Qed.

Lemma gtb_Fin_true (a b : Q) : gtb (Fin a) (Fin b) = true <-> b < a.
Proof.
  unfold gtb, ltb. rewrite negb_true_iff. split; intros H.
  - now apply Qle_bool_false.
  - now apply Qle_bool_lt.
Qed.

(** What [detectEscalation] computes on finite scores, in exact
    arithmetic. *)
Lemma detectEscalation_finite (qs : list Q) :
  detectEscalation (map Fin qs) = true
  <-> (3 < List.length qs)%nat
      /\ 1.3 * mean (olderWindow qs) < mean (recentWindow qs).
Proof.
  unfold detectEscalation.
  rewrite slice_from_recent, slice_older, recentWindow_map, olderWindow_map.
  rewrite length_map.
  destruct (Nat.ltb (List.length qs) 3) eqn:E3.
  - apply Nat.ltb_lt in E3. split; [discriminate | lia].
  - apply Nat.ltb_ge in E3.
    destruct (Nat.eqb (List.length (map Fin (olderWindow qs))) 0) eqn:E0.
    + apply Nat.eqb_eq in E0. rewrite length_map, olderWindow_length in E0.
      split; [discriminate | lia].
    + apply Nat.eqb_neq in E0. rewrite length_map, olderWindow_length in E0.
      rewrite !average_map_Fin
        by (rewrite ?recentWindow_length, ?olderWindow_length; lia).
      cbn [mul]. rewrite gtb_Fin_true.
      split; [intros H; split; [lia | lra] | intros [_ H]; lra].
Qed.

Lemma riskScores_finite (self : CombinedContentAnalyzer) (messages : list string) :
  map riskScore (map (analyzeMessage self) messages)
  = map Fin (riskScores self messages).
Proof.
  unfold riskScores. rewrite !map_map. apply map_ext. intros text.
  pose proof (analyzeMessage_riskScore_within self text) as H.
  destruct (riskScore (analyzeMessage self text)); simpl in H; try contradiction.
  reflexivity.
Qed.

Lemma sentiments_finite (self : CombinedContentAnalyzer) (messages : list string) :
  map (fun a => sentiment (details a)) (map (analyzeMessage self) messages)
  = map Fin (sentiments self messages).
Proof.
  unfold sentiments. rewrite !map_map. apply map_ext. intros text.
  pose proof (analyzeSentiment_within text) as H.
  change (sentiment (details (analyzeMessage self text)))
    with (analyzeSentiment text).
  destruct (analyzeSentiment text); simpl in H; try contradiction.
  reflexivity.
Qed.

Section EscalationInDoubles.

Import PrimFloat.

Local Set Warnings "-inexact-float".

(** C4 (as amended).  On the risk scores of a conversation, taken as the
    doubles they are, [detectEscalation] answers true exactly when there
    are more than three scores and the average of the last three exceeds
    the average of the older window times 1.3, the two averages and the
    product being the rounded ones the code computes.  The older window
    holds the up to three scores just before the last three, that is one
    or two scores for four or five messages, and its average is taken over
    the scores present: with four scores the last three are compared with
    the first alone, with five with the average of the first two.  In the
    embedding of the whole analyzer a conversation of three messages or
    fewer is never escalating. *)
Theorem C4_escalation_over_older_scores_present (scores : list float) :
  (Double.detectEscalation scores = true
   <-> (3 < List.length scores)%nat
       /\ Double.gtb (Double.average (recentWindow scores))
                     (mul (Double.average (olderWindow scores)) 1.3) = true)
  /\ List.length (recentWindow scores) = Nat.min 3 (List.length scores)
  /\ List.length (olderWindow scores) = Nat.min 3 (List.length scores - 3)
  /\ (forall a b c d : float,
         Double.detectEscalation [a; b; c; d]
         = Double.gtb (div (add (add (add 0 b) c) d) 3)
                      (mul (div (add 0 a) 1) 1.3))
  /\ (forall a b c d e : float,
         Double.detectEscalation [a; b; c; d; e]
         = Double.gtb (div (add (add (add 0 c) d) e) 3)
                      (mul (div (add (add 0 a) b) 2) 1.3))
  /\ (forall (self : CombinedContentAnalyzer) (messages : list string),
         (List.length messages <= 3)%nat ->
         isEscalating (analyzeConversation self messages) = false).
Proof.
  split; [| split; [apply recentWindow_length
                   | split; [apply olderWindow_length
                            | split; [reflexivity
                                     | split; [reflexivity |]]]]].
  - unfold Double.detectEscalation, Double.average.
    rewrite slice_from_recent, slice_older.
    destruct (Nat.ltb (List.length scores) 3) eqn:E3.
    + apply Nat.ltb_lt in E3. split; [discriminate | lia].
    + apply Nat.ltb_ge in E3.
      destruct (Nat.eqb (List.length (olderWindow scores)) 0) eqn:E0.
      * apply Nat.eqb_eq in E0. rewrite olderWindow_length in E0.
        split; [discriminate | lia].
      * apply Nat.eqb_neq in E0. rewrite olderWindow_length in E0.
        cbv zeta.
        split; [intros H; split; [lia | exact H] | intros [_ H]; exact H].
  - intros self messages Hlen.
    destruct (isEscalating (analyzeConversation self messages)) eqn:E;
      [exfalso | reflexivity].
    unfold analyzeConversation in E; cbn [isEscalating] in E.
    rewrite riskScores_finite in E. apply detectEscalation_finite in E.
    unfold riskScores in E. rewrite length_map in E. lia.
Qed.

(** Within rounding distance of equality the rounded comparison decides:
    after a score of 22, three scores of 28.6 have a computed average just
    above 22 x 1.3 as computed, and the conversation is escalating, while
    in exact arithmetic the two sides are equal. *)
Example detectEscalation_rounding_decides :
  Double.detectEscalation [22; 28.6; 28.6; 28.6]%float = true
  /\ Double.average (recentWindow [22; 28.6; 28.6; 28.6]%float)
     = 28.600000000000005%float
  /\ mul (Double.average (olderWindow [22; 28.6; 28.6; 28.6]%float)) 1.3
     = 28.6%float
  /\ Analyzer.detectEscalation (map Fin [22; 28.6; 28.6; 28.6]%Q) = false.
Proof. repeat split; reflexivity. Qed.

End EscalationInDoubles.

(** C4, as stated, fails on a conversation of four messages: a single
    older score is enough for the comparison, and the conversation is
    reported as escalating. *)
Lemma C4_four_messages_escalate :
  List.length Samples.fourMessages = 4%nat
  /\ List.length (olderWindow (riskScores Samples.calm Samples.fourMessages)) = 1%nat
  /\ mean (olderWindow (riskScores Samples.calm Samples.fourMessages)) == 5
  /\ mean (recentWindow (riskScores Samples.calm Samples.fourMessages)) == 12.5
  /\ Spec.isEscalating (riskScores Samples.calm Samples.fourMessages) = false
  /\ isEscalating (analyzeConversation Samples.calm Samples.fourMessages) = true.
Proof.
  conjuncts; vm_compute; reflexivity.
Qed.

(* ================================================================== *)
(** ** The sentiment trend *)

(** What [analyzeSentimentTrend] computes on finite sentiments: both sums
    are divided by 3, however many older sentiments there are. *)
Lemma analyzeSentimentTrend_finite (qs : list Q) :
  analyzeSentimentTrend (map Fin qs)
  = if Nat.ltb (List.length qs) 3 then stable
    else if Spec.Qltb (total (olderWindow qs) / 3 * 1.2)
                      (total (recentWindow qs) / 3) then improving
    else if Spec.Qltb (total (recentWindow qs) / 3)
                      (total (olderWindow qs) / 3 * 0.8) then declining
    else stable.
Proof.
  unfold analyzeSentimentTrend.
  rewrite slice_from_recent, slice_older, recentWindow_map, olderWindow_map.
  rewrite length_map, !sum_map_Fin. reflexivity.
Qed.

Lemma Qltb_ext (a a' b b' : Q) :
  a == a' -> b == b' -> Spec.Qltb a b = Spec.Qltb a' b'.
Proof.
  intros Ha Hb. unfold Spec.Qltb. f_equal.
  destruct (Qle_bool b a) eqn:E1, (Qle_bool b' a') eqn:E2;
    try reflexivity; qreflect; lra.
Qed.

Lemma mean_of_three (qs : list Q) :
  List.length qs = 3%nat -> mean qs == total qs / 3.
Proof. intros H. unfold mean. rewrite H. reflexivity. Qed.

(** With six messages or more both windows hold three sentiments, and
    in exact arithmetic the function agrees with the announced trend. *)
Lemma analyzeSentimentTrend_full_windows (qs : list Q) :
  (6 <= List.length qs)%nat ->
  analyzeSentimentTrend (map Fin qs) = Spec.sentimentTrend qs.
Proof.
  intros H. rewrite analyzeSentimentTrend_finite. unfold Spec.sentimentTrend.
  assert (Hr : mean (recentWindow qs) == total (recentWindow qs) / 3).
  { apply mean_of_three. rewrite recentWindow_length. lia. }
  assert (Ho : mean (olderWindow qs) == total (olderWindow qs) / 3).
  { apply mean_of_three. rewrite olderWindow_length. lia. }
  destruct (Nat.ltb (List.length qs) 3); [reflexivity |]. cbv zeta.
  rewrite (Qltb_ext (1.2 * mean (olderWindow qs))
                    (total (olderWindow qs) / 3 * 1.2)
                    (mean (recentWindow qs))
                    (total (recentWindow qs) / 3))
    by (rewrite ?Hr, ?Ho; ring).
  rewrite (Qltb_ext (mean (recentWindow qs))
                    (total (recentWindow qs) / 3)
                    (0.8 * mean (olderWindow qs))
                    (total (olderWindow qs) / 3 * 0.8))
    by (rewrite ?Hr, ?Ho; ring).
  reflexivity.
Qed.

(** C5 (the code at the failing input).  Four messages with sentiments
    0.3, 0.2, 0.2, 0.2, classifier B finding nothing: the mean of the one
    older sentiment is 0.3 and the mean of the last three is 0.2, below
    0.8 times 0.3, so the announced trend is declining; the function
    divides the older sum by 3 and answers improving. *)
Theorem C5_sentiment_trend_divides_by_three :
  List.length Samples.fadingMood = 4%nat
  /\ map (fun a => sentiment (details a))
         (map (analyzeMessage Samples.calm) Samples.fadingMood)
     = map Fin (sentiments Samples.calm Samples.fadingMood)
  /\ Forall2 Qeq (sentiments Samples.calm Samples.fadingMood)
             [0.3; 0.2; 0.2; 0.2]
  /\ mean (olderWindow (sentiments Samples.calm Samples.fadingMood)) == 0.3
  /\ mean (recentWindow (sentiments Samples.calm Samples.fadingMood)) == 0.2
  /\ Spec.sentimentTrend (sentiments Samples.calm Samples.fadingMood) = declining
  /\ sentimentTrend (analyzeConversation Samples.calm Samples.fadingMood)
     = improving.
Proof.
  conjuncts; try (vm_compute; reflexivity).
  repeat (constructor; [vm_compute; reflexivity |]). constructor.
Qed.

(* ================================================================== *)
(** ** The sentiment estimator and the lexicon flag *)

Lemma termsFound_length_le (terms : list string) (text : string) :
  (List.length (termsFound terms text) <= List.length terms)%nat.
Proof. unfold termsFound. apply filter_length_le. Qed.

Lemma fold_when_iter {A S : Type} (found : A -> bool) (step : S -> S)
      (words : list A) (score : S) :
  fold_left (fun score word => if found word then step score else score)
            words score
  = Nat.iter (List.length (filter found words)) step score.
Proof.
  revert score. induction words as [| w ws IH]; intros score; [reflexivity |].
  cbn [fold_left filter]. destruct (found w).
  - rewrite IH. cbn [List.length]. now rewrite Nat.iter_succ_r.
  - apply IH.
Qed.

Section SentimentInDoubles.

Import PrimFloat.

Local Set Warnings "-inexact-float".

(** With at most seven additions and seven subtractions the accumulated
    score stays inside the clamp. *)
Lemma accumulated_unclamped (p n : nat) :
  (p <= 7)%nat -> (n <= 7)%nat ->
  Double.max2 (-1) (Double.min2 1 (Double.accumulated p n))
  = Double.accumulated p n
  /\ leb (-0.7) (Double.accumulated p n) = true
  /\ leb (Double.accumulated p n) 0.7 = true.
Proof.
  intros Hp Hn.
  destruct p as [| [| [| [| [| [| [| [| p]]]]]]]]; try lia;
    destruct n as [| [| [| [| [| [| [| [| n]]]]]]]]; try lia;
    (split; [| split]); vm_compute; reflexivity.
Qed.

(** X1.  In the doubles of the source, the sentiment of a text is what is
    left of zero after 0.1 has been added once for each positive word
    found in it and then subtracted once for each negative word found, at
    most seven of each; it lies within [-0.7, 0.7], so the clamp to
    [-1, 1] never applies. *)
Theorem X1_sentiment_within_clamp (text : string) :
  Double.analyzeSentiment text
  = Double.accumulated (List.length (termsFound positiveWords text))
                       (List.length (termsFound negativeWords text))
  /\ (List.length (termsFound positiveWords text) <= 7)%nat
  /\ (List.length (termsFound negativeWords text) <= 7)%nat
  /\ leb (-0.7) (Double.analyzeSentiment text) = true
  /\ leb (Double.analyzeSentiment text) 0.7 = true.
Proof.
  pose proof (termsFound_length_le positiveWords text) as Hp.
  pose proof (termsFound_length_le negativeWords text) as Hn.
  change (List.length positiveWords) with 7%nat in Hp.
  change (List.length negativeWords) with 7%nat in Hn.
  assert (E : Double.analyzeSentiment text
              = Double.max2 (-1)
                  (Double.min2 1
                     (Double.accumulated
                        (List.length (termsFound positiveWords text))
                        (List.length (termsFound negativeWords text))))).
  { unfold Double.analyzeSentiment, Double.accumulated, termsFound. cbv zeta.
    generalize positiveWords negativeWords. intros ps ns.
    now rewrite !fold_when_iter. }
  destruct (accumulated_unclamped _ _ Hp Hn) as [Hc [Hlo Hhi]].
  rewrite E, Hc. auto.
Qed.

(** The accumulation is not exact: three words of each kind leave 2^-55,
    not zero, while one of each leaves zero and seven positive words give
    the double of 0.7. *)
Example analyzeSentiment_residue :
  Double.analyzeSentiment "happy good great sad bad worse" = 0x1p-55%float
  /\ Double.analyzeSentiment "happy sad" = 0%float
  /\ Double.analyzeSentiment "happy good great better hope love joy"
     = 0.7%float.
Proof. repeat split; vm_compute; reflexivity. Qed.

End SentimentInDoubles.

Lemma some_found {A : Type} (f : A -> bool) (xs ys : list A) :
  (0 < List.length (filter f xs) + List.length (filter f ys))%nat
  <-> exists x : A, In x (xs ++ ys)%list /\ f x = true.
Proof.
  rewrite <- length_app, <- filter_app. split.
  - intros H. destruct (filter f (xs ++ ys)) as [| x rest] eqn:E;
      [simpl in H; lia |].
    assert (Hx : In x (filter f (xs ++ ys))) by (rewrite E; left; reflexivity).
    apply filter_In in Hx. now exists x.
  - intros [x Hx]. apply filter_In in Hx.
    destruct (filter f (xs ++ ys)); [contradiction | simpl; lia].
Qed.

(** X2.  The mental-health flag of a message is set exactly when its text,
    once case-folded, contains a term of the concern lexicon or of the
    critical lexicon as a substring. *)
Theorem X2_mental_health_flag_iff_term_found
        (self : CombinedContentAnalyzer) (text : string) :
  mentalHealthConcern (flags (analyzeMessage self text)) = true
  <-> exists term : string,
        In term (mentalHealthKeywords ++ suicidalIdeationKeywords)%list
        /\ includes (toLowerCase text) term = true.
Proof.
  unfold analyzeMessage, assemble; cbn [flags mentalHealthConcern].
  rewrite detectKeywords_matches, length_app, length_map.
  unfold termsFound. rewrite Nat.ltb_lt. apply some_found.
Qed.

(* ================================================================== *)
(** ** What classifier A resolves to *)

Lemma visit_flagged_fold (entries : list (string * Q)) (st : Perspective.Result) :
  Perspective.flaggedCategories (fold_left Perspective.visit entries st)
  = (Perspective.flaggedCategories st
     ++ map fst (filter (fun e => gtb (Fin (snd e)) (Fin 0.7)) entries))%list.
Proof.
  revert st. induction entries as [| [name v] rest IH]; intros st.
  - cbn [fold_left filter map]. now rewrite app_nil_r.
  - cbn [fold_left filter snd]. rewrite IH.
    cbn [Perspective.visit Perspective.flaggedCategories].
    destruct (gtb (Fin v) (Fin 0.7)); [| reflexivity].
    unfold push. cbn [map fst]. now rewrite <- app_assoc.
Qed.

Lemma visit_highest_fold (entries : list (string * Q))
      (st : Perspective.Result) (h0 : Q) :
  Perspective.highestScore st = Fin h0 ->
  exists h : Q,
    Perspective.highestScore (fold_left Perspective.visit entries st) = Fin h
    /\ h0 <= h
    /\ (forall name v, In (name, v) entries -> v <= h)
    /\ (h = h0 \/ exists name, In (name, h) entries).
Proof.
  revert st h0. induction entries as [| [name v] rest IH]; intros st h0 Hst.
  - exists h0. cbn [fold_left]. repeat split; auto; try lra.
    intros ? ? [].
  - cbn [fold_left].
    assert (Hv : exists h1,
               Perspective.highestScore (Perspective.visit st (name, v)) = Fin h1
               /\ h0 <= h1 /\ v <= h1 /\ (h1 = h0 \/ h1 = v)).
    { cbn [Perspective.visit Perspective.highestScore]. rewrite Hst.
      unfold gtb, ltb. destruct (Qle_bool v h0) eqn:E; cbn [negb]; qreflect.
      - exists h0. repeat split; auto; lra.
      - exists v. repeat split; auto; lra. }
    destruct Hv as [h1 [E1 [H01 [Hv1 Hor]]]].
    destruct (IH _ h1 E1) as [h [Eh [H1h [Hall Hex]]]].
    exists h. split; [exact Eh |]. split; [lra |]. split.
    + intros n w [Heq | Hin].
      * injection Heq as _ <-. lra.
      * eapply Hall; eassumption.
    + destruct Hex as [-> | [n Hn]].
      * destruct Hor as [-> | ->]; [now left |].
        right. exists name. now left.
      * right. exists n. now right.
Qed.

(** X3.  When classifier A answers, the highest score it resolves to is
    the greatest of 0 and the scores of the payload (so a payload of
    negative scores gives 0), and the flagged categories are the
    attributes whose score exceeds 0.7, in the order of the payload. *)
Theorem X3_perspective_highest_and_flagged
        (self : Perspective.PerspectiveAnalyzer) (text : string)
        (data : Perspective.PerspectiveResponse) :
  Perspective.fetch self text = Some data ->
  exists (r : Perspective.Result) (h : Q),
    Perspective.analyzeText self text = Some r
    /\ Perspective.highestScore r = Fin h
    /\ 0 <= h
    /\ (forall name v, In (name, v) (Perspective.attributeScores data) -> v <= h)
    /\ (h = 0 \/ exists name, In (name, h) (Perspective.attributeScores data))
    /\ Perspective.flaggedCategories r
       = map fst (filter (fun e => gtb (Fin (snd e)) (Fin 0.7))
                         (Perspective.attributeScores data)).
Proof.
  intros Hfetch. unfold Perspective.analyzeText. rewrite Hfetch.
  destruct (visit_highest_fold (Perspective.attributeScores data)
              {| Perspective.scores := [];
                 Perspective.highestScore := Fin 0;
                 Perspective.flaggedCategories := [] |} 0 eq_refl)
    as [h [Eh [H0 [Hall Hex]]]].
  eexists. exists h. split; [reflexivity |].
  split; [exact Eh |]. split; [exact H0 |]. split; [exact Hall |].
  split; [exact Hex |]. apply visit_flagged_fold.
Qed.

Lemma X3_perspective_highest_and_flagged_witness :
  Perspective.fetch (Samples.toxicityOf 0.9) "you fool"
  = Some {| Perspective.attributeScores := [("TOXICITY", 0.9)] |}
  /\ exists (r : Perspective.Result) (h : Q),
       Perspective.analyzeText (Samples.toxicityOf 0.9) "you fool" = Some r
       /\ Perspective.highestScore r = Fin h
       /\ 0 <= h
       /\ (forall name v, In (name, v) [("TOXICITY", 0.9)] -> v <= h)
       /\ (h = 0 \/ exists name, In (name, h) [("TOXICITY", 0.9)])
       /\ Perspective.flaggedCategories r
          = map fst (filter (fun e => gtb (Fin (snd e)) (Fin 0.7))
                            [("TOXICITY", 0.9)]).
Proof.
  split; [reflexivity |].
  exact (X3_perspective_highest_and_flagged
           (Samples.toxicityOf 0.9) "you fool"
           {| Perspective.attributeScores := [("TOXICITY", 0.9)] |} eq_refl).
Defined.

(** X4.  The toxicity flag of a message is set exactly when classifier A
    contributes at least one flagged category to the result; when
    classifier A fails both are off. *)
Theorem X4_toxicity_flag_iff_category_flagged
        (self : CombinedContentAnalyzer) (text : string) :
  toxicity (flags (analyzeMessage self text)) = true
  <-> Perspective.flaggedCategories
        (d_perspective (details (analyzeMessage self text))) <> [].
Proof.
  unfold analyzeMessage, assemble;
    cbn [flags toxicity details d_perspective].
  unfold Perspective.analyzeText.
  destruct (Perspective.fetch (perspective self) text) as [data |] eqn:Hfetch;
    cbn [catch].
  - destruct (visit_highest_fold (Perspective.attributeScores data)
                {| Perspective.scores := [];
                   Perspective.highestScore := Fin 0;
                   Perspective.flaggedCategories := [] |} 0 eq_refl)
      as [h [Eh [H0 [Hall Hex]]]].
    rewrite Eh, visit_flagged_fold. cbn [Perspective.flaggedCategories app].
    rewrite gtb_Fin_true. split.
    + intros Hh. destruct Hex as [-> | [name Hname]]; [lra |].
      assert (Hin : In (name, h)
                       (filter (fun e => gtb (Fin (snd e)) (Fin 0.7))
                               (Perspective.attributeScores data))).
      { apply filter_In. split; [exact Hname |]. now apply gtb_Fin_true. }
      intros E. apply (in_map fst) in Hin. rewrite E in Hin. exact Hin.
    + intros Hne.
      destruct (filter (fun e => gtb (Fin (snd e)) (Fin 0.7))
                       (Perspective.attributeScores data))
        as [| [name v] rest] eqn:E; [now contradiction Hne |].
      assert (Hin : In (name, v)
                       (filter (fun e => gtb (Fin (snd e)) (Fin 0.7))
                               (Perspective.attributeScores data)))
        by (rewrite E; left; reflexivity).
      apply filter_In in Hin. destruct Hin as [Hin Hv].
      apply gtb_Fin_true in Hv. cbn [snd] in Hv.
      specialize (Hall name v Hin). lra.
  - cbn [perspectiveFallback Perspective.highestScore
         Perspective.flaggedCategories].
    split; [discriminate | congruence].
Qed.

(* ================================================================== *)
(** ** The composite score when classifier B fails, and on a critical term *)

Lemma max2_Fin (a b : Q) :
  exists m : Q, max2 (Fin a) (Fin b) = Fin m
                /\ a <= m /\ b <= m /\ (m = a \/ m = b).
Proof.
  cbn [max2 ltb]. destruct (Qle_bool b a) eqn:E; cbn [negb]; qreflect.
  - exists a. repeat split; auto; lra.
  - exists b. repeat split; auto; lra.
Qed.

Lemma fold_max2_Fin (qs : list Q) (m0 : Q) :
  exists m : Q,
    fold_left max2 (map Fin qs) (Fin m0) = Fin m
    /\ m0 <= m /\ (forall q, In q qs -> q <= m) /\ (m = m0 \/ In m qs).
Proof.
  revert m0. induction qs as [| q qs IH]; intros m0.
  - exists m0. cbn [map fold_left]. repeat split; auto; try lra.
    intros ? [].
  - cbn [map fold_left].
    destruct (max2_Fin m0 q) as [m1 [E1 [H0 [Hq Hor]]]]. rewrite E1.
    destruct (IH m1) as [m [Em [H1 [Hall Hin]]]].
    exists m. split; [exact Em |]. split; [lra |]. split.
    + intros x [<- | Hx]; [lra | now apply Hall].
    + destruct Hin as [-> | Hin]; [| right; now right].
      destruct Hor as [-> | ->]; [now left | right; now left].
Qed.

(** [Math.max] of at least one finite number is the greatest of them. *)
Lemma Math_max_greatest (q : Q) (qs : list Q) :
  exists m : Q,
    Math_max (map Fin (q :: qs)) = Fin m
    /\ In m (q :: qs) /\ (forall x, In x (q :: qs) -> x <= m).
Proof.
  unfold Math_max. cbn [map fold_left].
  change (max2 NegInf (Fin q)) with (Fin q).
  destruct (fold_max2_Fin qs q) as [m [Em [H0 [Hall Hin]]]].
  exists m. split; [exact Em |]. split.
  - destruct Hin as [-> | Hin]; [now left | now right].
  - intros x [<- | Hx]; [exact H0 | now apply Hall].
Qed.

(** The numbers [calculateRiskScore] takes the maximum of. *)
Lemma scores_as_numbers (scores : list (string * OpenAI.JsonValue)) :
  map (fun kv => numberOrZero (snd kv)) scores
  = map Fin (map (fun kv => valueOf (numberOrZero (snd kv))) scores).
Proof.
  rewrite map_map. apply map_ext. intros [name v]. now destruct v.
Qed.

(** The composite on finite components. *)
Lemma calculateRiskScore_finite
      (p : Perspective.Result) (o : OpenAI.Result) (k : list string)
      (h m kw s : Q) :
  Perspective.highestScore p = Fin h ->
  Math_max (map (fun kv => numberOrZero (snd kv)) (OpenAI.scores o)) = Fin m ->
  keywordScore k = Fin kw ->
  calculateRiskScore p o k (Fin s)
  = min2 (Fin 100)
         (max2 (Fin 0)
               (Fin (h * 100 * 0.3 + m * 100 * 0.4 + kw * 0.2
                     + (1 + - s) * 50 * 0.1))).
Proof.
  intros Hh Hm Hk. unfold calculateRiskScore. rewrite Hh, Hm, Hk. reflexivity.
Qed.

Lemma openai_down_flags (self : CombinedContentAnalyzer) (text : string) :
  OpenAI.moderateText (openai self) text = None ->
  selfHarm (flags (analyzeMessage self text)) = false
  /\ violence (flags (analyzeMessage self text)) = false
  /\ hate (flags (analyzeMessage self text)) = false
  /\ sexual (flags (analyzeMessage self text)) = false.
Proof.
  intros Hdown. unfold analyzeMessage, assemble;
    cbn [flags selfHarm violence hate sexual].
  rewrite Hdown. repeat split; reflexivity.
Qed.

(** X6.  When classifier B fails, no message raises an alert, whatever its
    text and whatever classifier A reports: the level is low, the flags
    derived from classifier B are off, the categories are those of
    classifier A alone, and the only actions that can be suggested are the
    two of the mental-health block. *)
Theorem X6_no_alert_while_openai_is_down
        (self : CombinedContentAnalyzer) (text : string) :
  OpenAI.moderateText (openai self) text = None ->
  requiresAlert (analyzeMessage self text) = false
  /\ riskLevel (analyzeMessage self text) = low
  /\ selfHarm (flags (analyzeMessage self text)) = false
  /\ violence (flags (analyzeMessage self text)) = false
  /\ categories (analyzeMessage self text)
     = Perspective.flaggedCategories
         (d_perspective (details (analyzeMessage self text)))
  /\ suggestedActions (analyzeMessage self text)
     = blockIf (mentalHealthConcern (flags (analyzeMessage self text)))
               mentalHealthBlock.
Proof.
  intros Hdown.
  destruct (analyzeMessage_openai_down self text Hdown) as [_ Hlow].
  destruct (openai_down_flags self text Hdown) as [Hsh [Hvi _]].
  split.
  { unfold analyzeMessage in *. rewrite assemble_requiresAlert, Hlow, Hsh.
    reflexivity. }
  split; [exact Hlow |]. split; [exact Hsh |]. split; [exact Hvi |]. split.
  - unfold analyzeMessage, assemble; cbn [categories details d_perspective].
    rewrite Hdown. cbn [catch openaiFallback OpenAI.categories].
    apply app_nil_r.
  - unfold analyzeMessage in *.
    rewrite assemble_suggestedActions, Hlow.
    unfold generateSuggestedActions. rewrite Hsh, Hvi.
    destruct (mentalHealthConcern (flags _)); reflexivity.
Qed.

Lemma X6_no_alert_while_openai_is_down_witness :
  OpenAI.moderateText (openai Samples.degraded) "i want to kill myself" = None
  /\ requiresAlert (analyzeMessage Samples.degraded "i want to kill myself")
     = false
  /\ riskLevel (analyzeMessage Samples.degraded "i want to kill myself") = low
  /\ selfHarm (flags (analyzeMessage Samples.degraded "i want to kill myself"))
     = false
  /\ violence (flags (analyzeMessage Samples.degraded "i want to kill myself"))
     = false
  /\ categories (analyzeMessage Samples.degraded "i want to kill myself")
     = Perspective.flaggedCategories
         (d_perspective
            (details (analyzeMessage Samples.degraded "i want to kill myself")))
  /\ suggestedActions (analyzeMessage Samples.degraded "i want to kill myself")
     = blockIf (mentalHealthConcern
                  (flags (analyzeMessage Samples.degraded "i want to kill myself")))
               mentalHealthBlock.
Proof.
  assert (H : OpenAI.moderateText (openai Samples.degraded)
                                  "i want to kill myself" = None)
    by reflexivity.
  split; [exact H |].
  exact (X6_no_alert_while_openai_is_down
           Samples.degraded "i want to kill myself" H).
Defined.

Lemma clamp_lower (lo c : Q) :
  0 <= lo -> lo <= 100 -> lo <= c ->
  within lo 100 (min2 (Fin 100) (max2 (Fin 0) (Fin c))).
Proof.
  intros H0 H100 Hc. cbn [max2 ltb].
  destruct (Qle_bool c 0) eqn:E0; cbn [negb min2 ltb].
  - change (Qle_bool 100 0) with false. cbn [negb within]. qreflect. lra.
  - destruct (Qle_bool 100 c) eqn:E1; cbn [negb within]; qreflect; lra.
Qed.

Lemma highestScore_nonneg (a : Perspective.PerspectiveAnalyzer) (text : string) :
  exists h : Q,
    Perspective.highestScore
      (catch (Perspective.analyzeText a text) perspectiveFallback) = Fin h
    /\ 0 <= h.
Proof.
  unfold Perspective.analyzeText.
  destruct (Perspective.fetch a text) as [data |]; cbn [catch].
  - destruct (visit_highest_fold (Perspective.attributeScores data)
                {| Perspective.scores := [];
                   Perspective.highestScore := Fin 0;
                   Perspective.flaggedCategories := [] |} 0 eq_refl)
      as [h [Eh [H0 _]]].
    now exists h.
  - exists 0. split; [reflexivity | lra].
Qed.

Lemma keywordScore_critical_term (text : string) :
  termsFound suicidalIdeationKeywords text <> [] ->
  keywordScore (detectKeywords text) = Fin 100.
Proof.
  intros Hne. unfold keywordScore.
  change (existsb (fun k => includes k "[CRITICAL]") (detectKeywords text))
    with (existsb isCriticalMatch (detectKeywords text)).
  rewrite detectKeywords_critical.
  destruct (termsFound suicidalIdeationKeywords text); [congruence |].
  reflexivity.
Qed.

(** X7.  A text containing a term of the critical lexicon, analysed while
    classifier B answers with some non-negative score, has a risk score of
    at least 20 (the keyword component alone), and its mental-health flag
    is set. *)
Theorem X7_critical_term_floor
        (self : CombinedContentAnalyzer) (text : string) (o : OpenAI.Result)
        (name : string) (q : Q) :
  OpenAI.moderateText (openai self) text = Some o ->
  In (name, OpenAI.JNumber q) (OpenAI.scores o) ->
  0 <= q ->
  termsFound suicidalIdeationKeywords text <> [] ->
  within 20 100 (riskScore (analyzeMessage self text))
  /\ mentalHealthConcern (flags (analyzeMessage self text)) = true.
Proof.
  intros Hm Hin Hq Hterm. split.
  - unfold analyzeMessage, assemble; cbn [riskScore].
    rewrite Hm; cbn [catch].
    destruct (highestScore_nonneg (perspective self) text) as [h [Hh Hh0]].
    pose proof (analyzeSentiment_within text) as Hs.
    destruct (analyzeSentiment text) as [| | | s]; cbn [within] in Hs;
      try contradiction.
    assert (Hv : In q (map (fun kv => valueOf (numberOrZero (snd kv)))
                           (OpenAI.scores o))).
    { apply in_map_iff. exists (name, OpenAI.JNumber q). now split. }
    destruct (map (fun kv => valueOf (numberOrZero (snd kv))) (OpenAI.scores o))
      as [| v vs] eqn:Evals; [contradiction |].
    destruct (Math_max_greatest v vs) as [m [Emax [_ Hall]]].
    specialize (Hall q Hv).
    rewrite (calculateRiskScore_finite _ _ _ h m 100 s Hh).
    + apply clamp_lower; lra.
    + rewrite scores_as_numbers, Evals. exact Emax.
    + now apply keywordScore_critical_term.
  - unfold analyzeMessage, assemble; cbn [flags mentalHealthConcern].
    rewrite detectKeywords_matches, length_app, length_map.
    apply Nat.ltb_lt.
    destruct (termsFound suicidalIdeationKeywords text); [congruence |].
    cbn [List.length]. lia.
Qed.

Lemma X7_critical_term_floor_witness :
  OpenAI.moderateText (openai Samples.calm) "i want to kill myself"
  = Some (catch (OpenAI.moderateText (openai Samples.calm)
                                     "i want to kill myself")
                openaiFallback)
  /\ In ("violence", OpenAI.JNumber 0)
        (OpenAI.scores
           (catch (OpenAI.moderateText (openai Samples.calm)
                                       "i want to kill myself")
                  openaiFallback))
  /\ 0 <= 0
  /\ termsFound suicidalIdeationKeywords "i want to kill myself" <> []
  /\ within 20 100 (riskScore (analyzeMessage Samples.calm "i want to kill myself"))
  /\ mentalHealthConcern
       (flags (analyzeMessage Samples.calm "i want to kill myself")) = true.
Proof.
  assert (H1 : OpenAI.moderateText (openai Samples.calm) "i want to kill myself"
               = Some (catch (OpenAI.moderateText (openai Samples.calm)
                                                  "i want to kill myself")
                             openaiFallback)) by reflexivity.
  assert (H2 : In ("violence", OpenAI.JNumber 0)
                  (OpenAI.scores
                     (catch (OpenAI.moderateText (openai Samples.calm)
                                                 "i want to kill myself")
                            openaiFallback))).
  { vm_compute. tauto. }
  assert (H3 : 0 <= 0) by lra.
  assert (H4 : termsFound suicidalIdeationKeywords "i want to kill myself" <> [])
    by (vm_compute; discriminate).
  split; [exact H1 |]. split; [exact H2 |]. split; [exact H3 |].
  split; [exact H4 |].
  exact (X7_critical_term_floor Samples.calm "i want to kill myself" _
                                "violence" 0 H1 H2 H3 H4).
Defined.

(* ================================================================== *)
(** ** The conversation analyzer *)

Lemma total_from (qs : list Q) (acc : Q) :
  fold_left Qplus qs acc == acc + total qs.
Proof.
  unfold total. revert acc. induction qs as [| q qs IH]; intros acc.
  - cbn [fold_left]. ring.
  - cbn [fold_left]. rewrite (IH (acc + q)), (IH (0 + q)). ring.
Qed.

Lemma total_cons (q : Q) (qs : list Q) : total (q :: qs) == q + total qs.
Proof. unfold total at 1. cbn [fold_left]. rewrite total_from. ring. Qed.

Lemma inject_length_cons {A : Type} (x : A) (xs : list A) :
  inject_Z (Z.of_nat (List.length (x :: xs)))
  == inject_Z (Z.of_nat (List.length xs)) + 1.
Proof.
  cbn [List.length]. rewrite Nat2Z.inj_succ, <- Z.add_1_r, inject_Z_plus.
  reflexivity.
Qed.

Lemma total_upper (t : Q) (qs : list Q) :
  Forall (fun q => q <= t) qs ->
  total qs <= t * inject_Z (Z.of_nat (List.length qs)).
Proof.
  induction 1 as [| q qs Hq _ IH].
  - unfold total. cbn [fold_left List.length].
    change (inject_Z (Z.of_nat 0)) with 0. lra.
  - rewrite total_cons, inject_length_cons. lra.
Qed.

Lemma total_lower (t : Q) (qs : list Q) :
  Forall (fun q => t <= q) qs ->
  t * inject_Z (Z.of_nat (List.length qs)) <= total qs.
Proof.
  induction 1 as [| q qs Hq _ IH].
  - unfold total. cbn [fold_left List.length].
    change (inject_Z (Z.of_nat 0)) with 0. lra.
  - rewrite total_cons, inject_length_cons. lra.
Qed.

Lemma total_below (t : Q) (qs : list Q) :
  qs <> [] -> Forall (fun q => q < t) qs ->
  total qs < t * inject_Z (Z.of_nat (List.length qs)).
Proof.
  intros Hne Hall. destruct Hall as [| q qs Hq Hrest]; [congruence |].
  assert (H : total qs <= t * inject_Z (Z.of_nat (List.length qs))).
  { apply total_upper. eapply Forall_impl; [| exact Hrest].
    intros a Ha. cbv beta in Ha. lra. }
  rewrite total_cons, inject_length_cons. lra.
Qed.

Lemma mean_upper (t : Q) (qs : list Q) :
  qs <> [] -> Forall (fun q => q <= t) qs -> mean qs <= t.
Proof.
  intros Hne Hall. unfold mean.
  assert (Hpos : 0 < inject_Z (Z.of_nat (List.length qs))).
  { apply of_nat_positive. destruct qs; [congruence | simpl; lia]. }
  apply Qle_shift_div_r; [exact Hpos |]. now apply total_upper.
Qed.

Lemma mean_lower (t : Q) (qs : list Q) :
  qs <> [] -> Forall (fun q => t <= q) qs -> t <= mean qs.
Proof.
  intros Hne Hall. unfold mean.
  assert (Hpos : 0 < inject_Z (Z.of_nat (List.length qs))).
  { apply of_nat_positive. destruct qs; [congruence | simpl; lia]. }
  apply Qle_shift_div_l; [exact Hpos |]. now apply total_lower.
Qed.

Lemma some_at_least_or_all_below (t : Q) (qs : list Q) :
  (exists q, In q qs /\ t <= q) \/ Forall (fun q => q < t) qs.
Proof.
  induction qs as [| q qs IH]; [right; constructor |].
  destruct (Qlt_le_dec q t) as [Hlt | Hle].
  - destruct IH as [[x [Hx Hxt]] | Hall].
    + left. exists x. split; [now right | exact Hxt].
    + right. now constructor.
  - left. exists q. split; [now left | exact Hle].
Qed.

(** Some element is at least the mean. *)
Lemma mean_reached (qs : list Q) :
  qs <> [] -> exists q, In q qs /\ mean qs <= q.
Proof.
  intros Hne.
  destruct (some_at_least_or_all_below (mean qs) qs) as [H | Hall];
    [exact H | exfalso].
  pose proof (total_below _ _ Hne Hall) as Hlt.
  assert (Hpos : 0 < inject_Z (Z.of_nat (List.length qs))).
  { apply of_nat_positive. destruct qs; [congruence | simpl; lia]. }
  unfold mean in Hlt.
  assert (E : total qs / inject_Z (Z.of_nat (List.length qs))
              * inject_Z (Z.of_nat (List.length qs)) == total qs).
  { field. lra. }
  lra.
Qed.

Lemma fold_left_through_map {A B C : Type} (g : C -> B -> C) (f : A -> B)
      (xs : list A) (acc : C) :
  fold_left (fun acc x => g acc (f x)) xs acc = fold_left g (map f xs) acc.
Proof.
  revert acc. induction xs as [| x xs IH]; intros acc; [reflexivity |].
  cbn [map fold_left]. apply IH.
Qed.

Lemma overallRiskScore_mean (self : CombinedContentAnalyzer)
      (messages : list string) :
  messages <> [] ->
  overallRiskScore (analyzeConversation self messages)
  = Fin (mean (riskScores self messages)).
Proof.
  intros Hne. unfold analyzeConversation; cbn [overallRiskScore].
  rewrite (fold_left_through_map add riskScore).
  rewrite riskScores_finite, sum_map_Fin_from.
  rewrite length_map, div_by_length
    by (destruct messages; [congruence | simpl; lia]).
  unfold mean, total, riskScores. now rewrite length_map.
Qed.

Lemma riskScores_In (self : CombinedContentAnalyzer) (messages : list string)
      (q : Q) :
  In q (riskScores self messages) ->
  exists text, In text messages
               /\ riskScore (analyzeMessage self text) = Fin q.
Proof.
  unfold riskScores. intros H. apply in_map_iff in H.
  destruct H as [text [<- Hin]]. exists text. split; [exact Hin |].
  pose proof (analyzeMessage_riskScore_within self text) as Hw.
  destruct (riskScore (analyzeMessage self text)); cbn [within] in Hw;
    try contradiction.
  reflexivity.
Qed.

Lemma determineRiskLevel_monotone (p q : Q) :
  p <= q ->
  (rank (determineRiskLevel (Fin p) []) <= rank (determineRiskLevel (Fin q) []))%nat.
Proof.
  intros Hpq.
  destruct (determineRiskLevel_cases p)
    as [[Hp Ep] | [[Hp [Hp' Ep]] | [[Hp [Hp' Ep]] | [Hp Ep]]]];
    destruct (determineRiskLevel_cases q)
      as [[Hq Eq] | [[Hq [Hq' Eq]] | [[Hq [Hq' Eq]] | [Hq Eq]]]];
    rewrite Ep, Eq; cbn [rank]; try lia; exfalso; lra.
Qed.

Lemma determineRiskLevel_flags_raise (score : num) (flags : list string) :
  (rank (determineRiskLevel score []) <= rank (determineRiskLevel score flags))%nat.
Proof.
  destruct flags as [| f fs]; [lia |].
  unfold determineRiskLevel at 2. cbn [List.length Nat.ltb Nat.leb orb rank].
  destruct (determineRiskLevel score []); cbn [rank]; lia.
Qed.

(** X8.  The overall level of a conversation never exceeds the level of
    its worst message: unless the conversation is empty, in which case the
    overall level is low, some message has a level at least the overall
    one. *)
Theorem X8_overall_level_at_most_worst_message
        (self : CombinedContentAnalyzer) (messages : list string) :
  (messages = []
   /\ overallRiskLevel (analyzeConversation self messages) = low)
  \/ exists text,
       In text messages
       /\ (rank (overallRiskLevel (analyzeConversation self messages))
           <= rank (riskLevel (analyzeMessage self text)))%nat.
Proof.
  destruct messages as [| m ms] eqn:Em; [left; split; reflexivity | right].
  rewrite <- Em. assert (Hne : messages <> []) by (rewrite Em; discriminate).
  destruct (mean_reached (riskScores self messages)) as [q [Hq Hmean]].
  { unfold riskScores. rewrite Em. discriminate. }
  destruct (riskScores_In self messages q Hq) as [text [Hin Hscore]].
  exists text. split; [exact Hin |].
  assert (Hov : overallRiskLevel (analyzeConversation self messages)
                = determineRiskLevel
                    (overallRiskScore (analyzeConversation self messages)) [])
    by reflexivity.
  rewrite Hov, overallRiskScore_mean by exact Hne.
  assert (Hlv : riskLevel (analyzeMessage self text)
                = determineRiskLevel
                    (riskScore (analyzeMessage self text))
                    (OpenAI.criticalFlags
                       (d_openai (details (analyzeMessage self text)))))
    by reflexivity.
  rewrite Hlv, Hscore.
  eapply Nat.le_trans; [apply determineRiskLevel_monotone; exact Hmean |].
  apply determineRiskLevel_flags_raise.
Qed.

Lemma analyzeMessage_requiresAlert_level
      (self : CombinedContentAnalyzer) (text : string) :
  requiresAlert (analyzeMessage self text)
  = isHighOrCritical (riskLevel (analyzeMessage self text)).
Proof.
  pose proof (analyzeMessage_selfHarm_critical self text) as Hsh.
  unfold analyzeMessage in *. rewrite assemble_requiresAlert.
  destruct (selfHarm (flags _)) eqn:E.
  - rewrite (Hsh eq_refl). reflexivity.
  - apply orb_false_r.
Qed.

(** X9.  The critical messages of a conversation are exactly the messages
    whose analysis requires an alert, in the order of the conversation. *)
Theorem X9_critical_messages_are_the_alerts
        (self : CombinedContentAnalyzer) (messages : list string) :
  criticalMessages (analyzeConversation self messages)
  = filter requiresAlert (map (analyzeMessage self) messages).
Proof.
  unfold analyzeConversation; cbn [criticalMessages].
  induction messages as [| m ms IH]; [reflexivity |].
  cbn [map filter]. rewrite IH, analyzeMessage_requiresAlert_level.
  reflexivity.
Qed.

Lemma high_overall_has_critical_message
      (self : CombinedContentAnalyzer) (messages : list string) :
  isHighOrCritical (overallRiskLevel (analyzeConversation self messages)) = true ->
  criticalMessages (analyzeConversation self messages) <> [].
Proof.
  intros Hhigh.
  destruct messages as [| m ms] eqn:Em; [discriminate Hhigh |].
  rewrite <- Em in *.
  assert (Hne : messages <> []) by (rewrite Em; discriminate).
  destruct (mean_reached (riskScores self messages)) as [q [Hq Hmean]].
  { unfold riskScores. rewrite Em. discriminate. }
  destruct (riskScores_In self messages q Hq) as [text [Hin Hscore]].
  assert (Hov : overallRiskLevel (analyzeConversation self messages)
                = determineRiskLevel (Fin (mean (riskScores self messages))) []).
  { rewrite <- overallRiskScore_mean by exact Hne. reflexivity. }
  assert (Hlv : riskLevel (analyzeMessage self text)
                = determineRiskLevel
                    (Fin q)
                    (OpenAI.criticalFlags
                       (d_openai (details (analyzeMessage self text))))).
  { rewrite <- Hscore. reflexivity. }
  pose proof (determineRiskLevel_monotone _ _ Hmean) as H1.
  pose proof (determineRiskLevel_flags_raise
                (Fin q)
                (OpenAI.criticalFlags
                   (d_openai (details (analyzeMessage self text))))) as H2.
  rewrite <- Hov in H1. rewrite <- Hlv in H2.
  assert (Hmsg : isHighOrCritical (riskLevel (analyzeMessage self text)) = true).
  { destruct (overallRiskLevel (analyzeConversation self messages));
      try discriminate Hhigh;
      destruct (riskLevel (analyzeMessage self text)); cbn [rank] in *;
        try reflexivity; lia. }
  intros Hnil.
  assert (Hmem : In (analyzeMessage self text)
                    (criticalMessages (analyzeConversation self messages))).
  { unfold analyzeConversation; cbn [criticalMessages].
    apply filter_In. split; [now apply in_map | exact Hmsg]. }
  rewrite Hnil in Hmem. exact Hmem.
Qed.

(** X10.  The recommendations of a conversation are empty exactly when it
    has no critical message, is not escalating and its sentiment is not
    declining: a high or critical overall level never stands alone, it
    comes with at least one critical message. *)
Theorem X10_no_recommendation_iff_no_concern
        (self : CombinedContentAnalyzer) (messages : list string) :
  recommendations (analyzeConversation self messages) = []
  <-> (criticalMessages (analyzeConversation self messages) = []
       /\ isEscalating (analyzeConversation self messages) = false
       /\ sentimentTrend (analyzeConversation self messages) <> declining).
Proof.
  pose proof (high_overall_has_critical_message self messages) as Hhigh.
  assert (Hrec : recommendations (analyzeConversation self messages)
                 = generateRecommendations
                     (overallRiskLevel (analyzeConversation self messages))
                     (isEscalating (analyzeConversation self messages))
                     (sentimentTrend (analyzeConversation self messages))
                     (criticalMessages (analyzeConversation self messages)))
    by reflexivity.
  rewrite Hrec. unfold generateRecommendations, push.
  destruct (criticalMessages (analyzeConversation self messages))
    as [| c cs] eqn:Ecm.
  - cbn [List.length Nat.ltb Nat.leb].
    destruct (isHighOrCritical
                (overallRiskLevel (analyzeConversation self messages))) eqn:Eh.
    { exfalso. now apply Hhigh. }
    split.
    + intros H.
      destruct (isEscalating (analyzeConversation self messages));
        destruct (sentimentTrend (analyzeConversation self messages));
        cbn [app] in H; try discriminate H; repeat split; congruence.
    + intros [_ [He Ht]]. rewrite He.
      destruct (sentimentTrend (analyzeConversation self messages));
        cbn [app]; try reflexivity. congruence.
  - split; [| intros [H _]; discriminate H].
    cbn [List.length Nat.ltb Nat.leb app].
    destruct (isEscalating (analyzeConversation self messages));
      destruct (sentimentTrend (analyzeConversation self messages));
      destruct (isHighOrCritical
                  (overallRiskLevel (analyzeConversation self messages)));
      cbn [app]; intros H; discriminate H.
Qed.

Lemma generateSuggestedActions_monitoring (f : Flags) (level : RiskLevel) :
  In "Send alert to trusted contacts" (generateSuggestedActions f level)
  <-> isHighOrCritical level = true.
Proof.
  destruct f as [tox sh vi ha sx mh].
  unfold generateSuggestedActions, push;
    cbn [selfHarm violence mentalHealthConcern].
  destruct sh, vi, mh, (isHighOrCritical level); cbn [app In];
    split; intros H; try reflexivity; try discriminate H;
      repeat (destruct H as [H | H]; [discriminate H |]);
      try contradiction; tauto.
Qed.

(** X11.  A message requires an alert exactly when the monitoring block,
    which starts with "Send alert to trusted contacts", is among its
    suggested actions. *)
Theorem X11_alert_iff_monitoring_suggested
        (self : CombinedContentAnalyzer) (text : string) :
  requiresAlert (analyzeMessage self text) = true
  <-> In "Send alert to trusted contacts"
         (suggestedActions (analyzeMessage self text)).
Proof.
  rewrite analyzeMessage_requiresAlert_level.
  assert (E : suggestedActions (analyzeMessage self text)
              = generateSuggestedActions
                  (flags (analyzeMessage self text))
                  (riskLevel (analyzeMessage self text))) by reflexivity.
  rewrite E. symmetry. apply generateSuggestedActions_monitoring.
Qed.

Lemma in_firstn_list {A : Type} (n : nat) (xs : list A) (x : A) :
  In x (firstn n xs) -> In x xs.
Proof.
  intros H. rewrite <- (firstn_skipn n xs). apply in_or_app. now left.
Qed.

Lemma in_skipn_list {A : Type} (n : nat) (xs : list A) (x : A) :
  In x (skipn n xs) -> In x xs.
Proof.
  intros H. rewrite <- (firstn_skipn n xs). apply in_or_app. now right.
Qed.

Lemma olderWindow_In {A : Type} (xs : list A) (x : A) :
  In x (olderWindow xs) -> In x xs.
Proof.
  unfold olderWindow, lastN, dropLast. intros H.
  apply in_skipn_list in H. now apply in_firstn_list in H.
Qed.

Lemma riskScores_nonneg (self : CombinedContentAnalyzer)
      (messages : list string) (q : Q) :
  In q (riskScores self messages) -> 0 <= q.
Proof.
  intros H. destruct (riskScores_In self messages q H) as [text [_ E]].
  pose proof (analyzeMessage_riskScore_within self text) as Hw.
  rewrite E in Hw. cbn [within] in Hw. tauto.
Qed.

Lemma isEscalating_finite (self : CombinedContentAnalyzer)
      (messages : list string) :
  isEscalating (analyzeConversation self messages)
  = detectEscalation (map Fin (riskScores self messages)).
Proof.
  unfold analyzeConversation; cbn [isEscalating].
  now rewrite riskScores_finite.
Qed.

Lemma window_nonempty {A : Type} (xs : list A) :
  (0 < List.length xs)%nat -> xs <> [].
Proof. destruct xs; simpl; [lia | discriminate]. Qed.

(** X12.  A conversation is not escalating when none of its last three
    risk scores exceeds a bound that the older scores compared with them
    all reach; in particular a conversation whose risk scores never
    increase is never escalating. *)
Theorem X12_no_escalation_without_increase
        (self : CombinedContentAnalyzer) (messages : list string) (t : Q) :
  Forall (fun q => q <= t) (recentWindow (riskScores self messages)) ->
  Forall (fun q => t <= q) (olderWindow (riskScores self messages)) ->
  isEscalating (analyzeConversation self messages) = false.
Proof.
  intros Hrecent Holder.
  destruct (isEscalating (analyzeConversation self messages)) eqn:E;
    [exfalso | reflexivity].
  rewrite isEscalating_finite in E. apply detectEscalation_finite in E.
  destruct E as [Hlen Hgt].
  set (qs := riskScores self messages) in *.
  assert (Hr : recentWindow qs <> []).
  { apply window_nonempty. rewrite recentWindow_length. lia. }
  assert (Ho : olderWindow qs <> []).
  { apply window_nonempty. rewrite olderWindow_length. lia. }
  pose proof (mean_upper t _ Hr Hrecent) as H1.
  pose proof (mean_lower t _ Ho Holder) as H2.
  assert (H3 : 0 <= mean (olderWindow qs)).
  { apply mean_lower; [exact Ho |]. apply Forall_forall. intros q Hq.
    apply (riskScores_nonneg self messages). now apply olderWindow_In. }
  lra.
Qed.

Lemma X12_no_escalation_without_increase_witness :
  Forall (fun q => q <= 5)
         (recentWindow (riskScores Samples.calm
                                   ["hello"; "hello"; "hello"; "hello"]))
  /\ Forall (fun q => 5 <= q)
            (olderWindow (riskScores Samples.calm
                                     ["hello"; "hello"; "hello"; "hello"]))
  /\ isEscalating (analyzeConversation Samples.calm
                                       ["hello"; "hello"; "hello"; "hello"])
     = false.
Proof.
  assert (H1 : Forall (fun q => q <= 5)
                      (recentWindow (riskScores Samples.calm
                                       ["hello"; "hello"; "hello"; "hello"]))).
  { vm_compute. repeat constructor; discriminate. }
  assert (H2 : Forall (fun q => 5 <= q)
                      (olderWindow (riskScores Samples.calm
                                      ["hello"; "hello"; "hello"; "hello"]))).
  { vm_compute. repeat constructor; discriminate. }
  split; [exact H1 |]. split; [exact H2 |].
  exact (X12_no_escalation_without_increase
           Samples.calm ["hello"; "hello"; "hello"; "hello"] 5 H1 H2).
Defined.

(* ================================================================== *)
(** ** Classifier A over a conversation *)




(* ================================================================== *)
(** ** Joined promises *)

Lemma all_Some {A B : Type} (f : A -> option B) (xs : list A) (ys : list B) :
  Async.all f xs = Some ys -> Forall2 (fun x y => f x = Some y) xs ys.
Proof.
  revert ys. induction xs as [| x xs IH]; intros ys H; cbn [Async.all] in H.
  - injection H as <-. constructor.
  - destruct (f x) as [y |] eqn:Ex; [| discriminate].
    destruct (Async.all f xs) as [ys' |]; [| discriminate].
    injection H as <-. constructor; [exact Ex | now apply IH].
Qed.

Lemma all_None {A B : Type} (f : A -> option B) (xs : list A) :
  Async.all f xs = None <-> exists x, In x xs /\ f x = None.
Proof.
  induction xs as [| x xs IH]; cbn [Async.all].
  - split; [discriminate | intros [x [[] _]]].
  - destruct (f x) as [y |] eqn:Ex.
    + destruct (Async.all f xs) as [ys |].
      * split; [discriminate |]. intros [z [[<- | Hz] Hf]]; [congruence |].
        assert (H : exists x0, In x0 xs /\ f x0 = None) by (now exists z).
        apply IH in H. discriminate H.
      * split; [| reflexivity]. intros _.
        destruct (proj1 IH eq_refl) as [z [Hz Hf]].
        exists z. split; [now right | exact Hf].
    + split; [| reflexivity]. intros _. exists x. split; [now left | exact Ex].
Qed.

(* ================================================================== *)
(** ** Classifier B: its own risk level *)

Lemma moderateText_outcome (self : OpenAI.OpenAIModerator) (text : string) :
  OpenAI.moderateText self text
  = match Moderation.moderateText self text with
    | Some m => Some (Moderation.outcome m)
    | None => None
    end.
Proof.
  unfold OpenAI.moderateText, Moderation.moderateText.
  destruct (OpenAI.fetch self text) as [data |]; [| reflexivity].
  destruct (OpenAI.Wire.results data); reflexivity.
Qed.

Lemma calculateRiskLevel_critical (scores : list (string * OpenAI.JsonValue))
      (criticalFlags : list string) :
  Moderation.calculateRiskLevel scores criticalFlags = critical
  <-> criticalFlags <> [].
Proof.
  unfold Moderation.calculateRiskLevel.
  destruct criticalFlags as [| c cs]; cbn [List.length Nat.ltb Nat.leb].
  - split; [| congruence].
    destruct (gtb _ (Fin 0.8)); [discriminate |].
    destruct (gtb _ (Fin 0.5)); discriminate.
  - split; [discriminate | reflexivity].
Qed.

Lemma moderateText_level (self : OpenAI.OpenAIModerator) (text : string)
      (m : Moderation.Moderated) :
  Moderation.moderateText self text = Some m ->
  Moderation.riskLevel m
  = Moderation.calculateRiskLevel (OpenAI.scores (Moderation.outcome m))
                                  (OpenAI.criticalFlags (Moderation.outcome m)).
Proof.
  unfold Moderation.moderateText.
  destruct (OpenAI.fetch self text) as [data |]; [| discriminate].
  destruct (OpenAI.Wire.results data) as [| result rest]; [discriminate |].
  intros H. injection H as <-. reflexivity.
Qed.

(** X14.  The risk level classifier B assigns to a text is critical
    exactly when a flagged category belongs to the critical set (the
    scores alone reach high at most), and whenever it is critical the
    aggregator's level for that text is critical too. *)
Theorem X14_moderation_level_critical_iff_flag
        (a : CombinedContentAnalyzer) (text : string)
        (m : Moderation.Moderated) :
  Moderation.moderateText (openai a) text = Some m ->
  (Moderation.riskLevel m = critical
   <-> OpenAI.criticalFlags (Moderation.outcome m) <> [])
  /\ (Moderation.riskLevel m = critical ->
      riskLevel (analyzeMessage a text) = critical).
Proof.
  intros Hm.
  assert (Hiff : Moderation.riskLevel m = critical
                 <-> OpenAI.criticalFlags (Moderation.outcome m) <> []).
  { rewrite (moderateText_level _ _ _ Hm). apply calculateRiskLevel_critical. }
  split; [exact Hiff |].
  intros Hcrit. apply Hiff in Hcrit.
  unfold analyzeMessage, assemble; cbn [riskLevel].
  rewrite moderateText_outcome, Hm. cbn [catch].
  destruct (OpenAI.criticalFlags (Moderation.outcome m)) as [| c cs];
    [congruence | reflexivity].
Qed.

Lemma X14_moderation_level_critical_iff_flag_witness :
  Moderation.moderateText (openai Samples.selfHarmIntent) "just a message"
  = Some {| Moderation.outcome := Samples.selfHarmReport;
            Moderation.riskLevel := critical |}
  /\ (critical = critical <-> OpenAI.criticalFlags Samples.selfHarmReport <> [])
  /\ (critical = critical ->
      riskLevel (analyzeMessage Samples.selfHarmIntent "just a message")
      = critical).
Proof.
  assert (H : Moderation.moderateText (openai Samples.selfHarmIntent)
                                      "just a message"
              = Some {| Moderation.outcome := Samples.selfHarmReport;
                        Moderation.riskLevel := critical |}) by reflexivity.
  split; [exact H |].
  exact (X14_moderation_level_critical_iff_flag
           Samples.selfHarmIntent "just a message" _ H).
Defined.

(* ================================================================== *)
(** ** Classifier B over a conversation *)

Lemma levelIs_true (a b : RiskLevel) : levelIs a b = true <-> a = b.
Proof. destruct a, b; cbn; split; intros H; congruence. Qed.

(** Every element of [results] comes from [moderateText] on its own
    message. *)
Lemma moderateConversation_results
      (self : OpenAI.OpenAIModerator) (messages : list string)
      (c : ModerationBatch.ConversationModeration) :
  ModerationBatch.moderateConversation self messages = Some c ->
  Forall2 (fun message r =>
             exists m,
               Moderation.moderateText self message = Some m
               /\ ModerationBatch.message r = message
               /\ ModerationBatch.categories r
                  = OpenAI.categories (Moderation.outcome m)
               /\ ModerationBatch.criticalFlags r
                  = OpenAI.criticalFlags (Moderation.outcome m)
               /\ ModerationBatch.riskLevel r = Moderation.riskLevel m)
          messages (ModerationBatch.results c).
Proof.
  unfold ModerationBatch.moderateConversation.
  destruct (Async.all _ messages) as [results |] eqn:Eall; [| discriminate].
  intros H. injection H as <-. cbn [ModerationBatch.results].
  apply all_Some in Eall.
  induction Eall as [| message r ms rs Hone _ IH]; constructor; [| exact IH].
  destruct (Moderation.moderateText self message) as [m |] eqn:Em;
    [| discriminate].
  injection Hone as <-. exists m. repeat split; reflexivity.
Qed.

Lemma Forall2_In_r {A B : Type} (P : A -> B -> Prop)
      (xs : list A) (ys : list B) (y : B) :
  Forall2 P xs ys -> In y ys -> exists x, In x xs /\ P x y.
Proof.
  induction 1 as [| x y' xs ys Hxy _ IH]; [contradiction |].
  intros [<- | Hin].
  - exists x. split; [now left | exact Hxy].
  - destruct (IH Hin) as [x0 [Hx0 Hp]]. exists x0. split; [now right | exact Hp].
Qed.

Lemma entry_critical_iff (self : OpenAI.OpenAIModerator)
      (messages : list string) (c : ModerationBatch.ConversationModeration)
      (r : ModerationBatch.Entry) :
  ModerationBatch.moderateConversation self messages = Some c ->
  In r (ModerationBatch.results c) ->
  levelIs (ModerationBatch.riskLevel r) critical
  = Nat.ltb 0 (List.length (ModerationBatch.criticalFlags r)).
Proof.
  intros Hc Hin. pose proof (moderateConversation_results _ _ _ Hc) as Hall.
  destruct (Forall2_In_r _ _ _ _ Hall Hin)
    as [message [_ [m [Hm [_ [_ [Hcf Hlv]]]]]]].
  rewrite Hlv, Hcf, (moderateText_level _ _ _ Hm).
  unfold Moderation.calculateRiskLevel.
  destruct (OpenAI.criticalFlags (Moderation.outcome m));
    cbn [List.length Nat.ltb Nat.leb]; [| reflexivity].
  destruct (gtb _ (Fin 0.8)); [reflexivity |].
  destruct (gtb _ (Fin 0.5)); reflexivity.
Qed.

Lemma existsb_ext_in {A : Type} (f g : A -> bool) (xs : list A) :
  (forall x, In x xs -> f x = g x) -> existsb f xs = existsb g xs.
Proof.
  induction xs as [| x xs IH]; intros H; [reflexivity |].
  cbn [existsb]. rewrite (H x) by (now left). f_equal. apply IH.
  intros y Hy. apply H. now right.
Qed.

(** X15.  When the moderation of a conversation resolves, its overall
    level is critical exactly when [hasCriticalFlags] is set, that is when
    some message has a flagged category of the critical set. *)
Theorem X15_conversation_critical_iff_flags
        (self : OpenAI.OpenAIModerator) (messages : list string)
        (c : ModerationBatch.ConversationModeration) :
  ModerationBatch.moderateConversation self messages = Some c ->
  (ModerationBatch.overallRiskLevel c = critical
   <-> ModerationBatch.hasCriticalFlags c = true).
Proof.
  intros Hc.
  pose proof (fun r => entry_critical_iff self messages c r Hc) as Hentry.
  unfold ModerationBatch.moderateConversation in Hc.
  destruct (Async.all _ messages) as [results |]; [| discriminate].
  injection Hc as <-.
  cbn [ModerationBatch.overallRiskLevel ModerationBatch.hasCriticalFlags
       ModerationBatch.results] in *.
  rewrite <- (existsb_ext_in _ _ results Hentry).
  unfold ModerationBatch.determineOverallRisk.
  destruct (existsb _ results); [split; reflexivity |].
  split; [| discriminate].
  destruct (Nat.leb 2 _); [discriminate |].
  destruct (Nat.eqb _ 1); [discriminate |].
  destruct (Nat.leb 3 _); discriminate.
Qed.

Lemma X15_conversation_critical_iff_flags_witness :
  exists c : ModerationBatch.ConversationModeration,
    ModerationBatch.moderateConversation
      (openai Samples.selfHarmIntent) ["one"; "two"] = Some c
    /\ (ModerationBatch.overallRiskLevel c = critical
        <-> ModerationBatch.hasCriticalFlags c = true).
Proof.
  destruct (ModerationBatch.moderateConversation
              (openai Samples.selfHarmIntent) ["one"; "two"]) as [c |] eqn:E;
    [| vm_compute in E; discriminate E].
  exists c. split; [reflexivity |].
  exact (X15_conversation_critical_iff_flags
           (openai Samples.selfHarmIntent) ["one"; "two"] c E).
Defined.

Lemma existsb_Permutation {A : Type} (f : A -> bool) (xs ys : list A) :
  Permutation xs ys -> existsb f xs = existsb f ys.
Proof.
  induction 1 as [| x xs ys _ IH | x y xs | xs ys zs _ IH1 _ IH2];
    cbn [existsb].
  - reflexivity.
  - now rewrite IH.
  - now rewrite !orb_assoc, (orb_comm (f y) (f x)).
  - now rewrite IH1.
Qed.

Lemma filter_length_Permutation {A : Type} (f : A -> bool) (xs ys : list A) :
  Permutation xs ys ->
  List.length (filter f xs) = List.length (filter f ys).
Proof.
  induction 1 as [| x xs ys _ IH | x y xs | xs ys zs _ IH1 _ IH2];
    cbn [filter].
  - reflexivity.
  - destruct (f x); cbn [List.length]; now rewrite IH.
  - destruct (f x), (f y); reflexivity.
  - now rewrite IH1.
Qed.

(** The two tests on the number of high-risk results amount to one. *)
Lemma determineOverallRisk_cases (rs : list ModerationBatch.Entry) :
  ModerationBatch.determineOverallRisk rs
  = if existsb (fun r => levelIs (ModerationBatch.riskLevel r) critical) rs
    then critical
    else if Nat.leb 1 (List.length
                         (filter (fun r => levelIs (ModerationBatch.riskLevel r) high)
                                 rs))
         then high
         else if Nat.leb 3 (List.length
                              (filter (fun r => levelIs (ModerationBatch.riskLevel r)
                                                        medium) rs))
              then medium else low.
Proof.
  unfold ModerationBatch.determineOverallRisk.
  destruct (existsb _ rs); [reflexivity |].
  destruct (List.length
              (filter (fun r => levelIs (ModerationBatch.riskLevel r) high) rs))
    as [| [| n]]; reflexivity.
Qed.

Ltac nat_tests :=
  repeat match goal with
         | |- context [Nat.leb ?a ?b] => destruct (Nat.leb_spec a b)
         end.

Lemma determineOverallRisk_cons (r : ModerationBatch.Entry)
      (rs : list ModerationBatch.Entry) :
  (rank (ModerationBatch.determineOverallRisk rs)
   <= rank (ModerationBatch.determineOverallRisk (r :: rs)))%nat.
Proof.
  rewrite !determineOverallRisk_cases. cbn [existsb filter].
  destruct (ModerationBatch.riskLevel r); cbn [levelIs orb List.length];
    destruct (existsb _ rs); cbn [rank]; try lia;
      nat_tests; cbn [rank]; lia.
Qed.

(** X16.  The overall level of a moderated conversation does not depend
    on the order of its messages, and one more message never lowers it. *)
Theorem X16_overall_risk_order_independent_and_monotone
        (rs rs' : list ModerationBatch.Entry) (r : ModerationBatch.Entry) :
  Permutation rs rs' ->
  ModerationBatch.determineOverallRisk rs
  = ModerationBatch.determineOverallRisk rs'
  /\ (rank (ModerationBatch.determineOverallRisk rs)
      <= rank (ModerationBatch.determineOverallRisk (rs' ++ [r])))%nat.
Proof.
  intros Hperm.
  assert (Heq : forall xs ys, Permutation xs ys ->
                  ModerationBatch.determineOverallRisk xs
                  = ModerationBatch.determineOverallRisk ys).
  { intros xs ys H. rewrite !determineOverallRisk_cases.
    rewrite (existsb_Permutation _ xs ys H).
    rewrite (filter_length_Permutation
               (fun r => levelIs (ModerationBatch.riskLevel r) high) xs ys H).
    rewrite (filter_length_Permutation
               (fun r => levelIs (ModerationBatch.riskLevel r) medium) xs ys H).
    reflexivity. }
  split; [now apply Heq |].
  rewrite (Heq (rs' ++ [r])%list (r :: rs)).
  - apply determineOverallRisk_cons.
  - eapply Permutation_trans.
    + apply Permutation_sym, Permutation_cons_append.
    + apply perm_skip, Permutation_sym, Hperm.
Qed.

Lemma filter_length_positive {A : Type} (f : A -> bool) (xs : list A) (x : A) :
  In x xs -> f x = true -> (1 <= List.length (filter f xs))%nat.
Proof.
  intros Hin Hf.
  assert (H : In x (filter f xs)) by (apply filter_In; now split).
  destruct (filter f xs); [contradiction | simpl; lia].
Qed.

Lemma filter_positive_witness {A : Type} (f : A -> bool) (xs : list A) :
  (1 <= List.length (filter f xs))%nat -> exists x, In x xs /\ f x = true.
Proof.
  intros H. destruct (filter f xs) as [| x rest] eqn:E; [simpl in H; lia |].
  assert (Hx : In x (filter f xs)) by (rewrite E; now left).
  apply filter_In in Hx. now exists x.
Qed.

(** X17.  Unless it is low, the overall level of a moderated conversation
    is the level of one of its messages; and a message that is high or
    critical is never under-reported, the overall level being at least
    its own.  (Medium messages can be: fewer than three of them, with
    nothing higher, give low.) *)
Theorem X17_overall_risk_is_a_message_level
        (rs : list ModerationBatch.Entry) :
  (ModerationBatch.determineOverallRisk rs = low
   \/ exists r, In r rs
                /\ ModerationBatch.riskLevel r
                   = ModerationBatch.determineOverallRisk rs)
  /\ (forall r, In r rs ->
                isHighOrCritical (ModerationBatch.riskLevel r) = true ->
                (rank (ModerationBatch.riskLevel r)
                 <= rank (ModerationBatch.determineOverallRisk rs))%nat)
  /\ ((forall r, In r rs -> isHighOrCritical (ModerationBatch.riskLevel r) = false) ->
      (List.length rs < 3)%nat ->
      ModerationBatch.determineOverallRisk rs = low).
Proof.
  rewrite determineOverallRisk_cases. split; [| split].
  - destruct (existsb _ rs) eqn:Ec.
    + right. apply existsb_exists in Ec. destruct Ec as [r [Hin Hr]].
      apply levelIs_true in Hr. now exists r.
    + destruct (Nat.leb_spec 1 (List.length
                  (filter (fun r => levelIs (ModerationBatch.riskLevel r) high) rs)))
        as [Hh | Hh].
      * right. destruct (filter_positive_witness _ _ Hh) as [r [Hin Hr]].
        apply levelIs_true in Hr. now exists r.
      * destruct (Nat.leb_spec 3 (List.length
                    (filter (fun r => levelIs (ModerationBatch.riskLevel r) medium) rs)))
          as [Hm | Hm]; [right | now left].
        assert (H1 : (1 <= List.length
                        (filter (fun r => levelIs (ModerationBatch.riskLevel r) medium)
                                rs))%nat) by lia.
        destruct (filter_positive_witness _ _ H1) as [r [Hin Hr]].
        apply levelIs_true in Hr. now exists r.
  - intros r Hin Hr.
    destruct (ModerationBatch.riskLevel r) eqn:El; try discriminate Hr.
    + destruct (existsb _ rs); [cbn [rank]; lia |].
      rewrite (proj2 (Nat.leb_le _ _)); [cbn [rank]; lia |].
      apply (filter_length_positive _ _ r Hin). now rewrite El.
    + assert (Hex : existsb (fun r0 => levelIs (ModerationBatch.riskLevel r0) critical)
                            rs = true).
      { apply existsb_exists. exists r. split; [exact Hin | now rewrite El]. }
      rewrite Hex. cbn [rank]. lia.
  - intros Hnone Hlen.
    rewrite existsb_none.
    + rewrite (proj2 (Nat.leb_gt 1 _)).
      * rewrite (proj2 (Nat.leb_gt 3 _)); [reflexivity |].
        pose proof (filter_length_le
                      (fun r => levelIs (ModerationBatch.riskLevel r) medium) rs).
        lia.
      * destruct (filter (fun r => levelIs (ModerationBatch.riskLevel r) high) rs)
          as [| r rest] eqn:E; [simpl; lia | exfalso].
        assert (Hr : In r (filter (fun r => levelIs (ModerationBatch.riskLevel r) high)
                                  rs)) by (rewrite E; now left).
        apply filter_In in Hr. destruct Hr as [Hin Hr].
        apply levelIs_true in Hr. specialize (Hnone r Hin).
        rewrite Hr in Hnone. discriminate Hnone.
    + intros r Hin. specialize (Hnone r Hin).
      destruct (ModerationBatch.riskLevel r); try reflexivity; discriminate Hnone.
Qed.

Lemma X16_overall_risk_order_independent_and_monotone_witness :
  Permutation
    [ {| ModerationBatch.message := "a"; ModerationBatch.flagged := false;
         ModerationBatch.categories := []; ModerationBatch.criticalFlags := [];
         ModerationBatch.riskLevel := medium |};
      {| ModerationBatch.message := "b"; ModerationBatch.flagged := true;
         ModerationBatch.categories := ["hate"];
         ModerationBatch.criticalFlags := [];
         ModerationBatch.riskLevel := high |} ]
    [ {| ModerationBatch.message := "b"; ModerationBatch.flagged := true;
         ModerationBatch.categories := ["hate"];
         ModerationBatch.criticalFlags := [];
         ModerationBatch.riskLevel := high |};
      {| ModerationBatch.message := "a"; ModerationBatch.flagged := false;
         ModerationBatch.categories := []; ModerationBatch.criticalFlags := [];
         ModerationBatch.riskLevel := medium |} ]
  /\ ModerationBatch.determineOverallRisk
       [ {| ModerationBatch.message := "a"; ModerationBatch.flagged := false;
            ModerationBatch.categories := []; ModerationBatch.criticalFlags := [];
            ModerationBatch.riskLevel := medium |};
         {| ModerationBatch.message := "b"; ModerationBatch.flagged := true;
            ModerationBatch.categories := ["hate"];
            ModerationBatch.criticalFlags := [];
            ModerationBatch.riskLevel := high |} ]
     = high.
Proof.
  assert (H : Permutation
    [ {| ModerationBatch.message := "a"; ModerationBatch.flagged := false;
         ModerationBatch.categories := []; ModerationBatch.criticalFlags := [];
         ModerationBatch.riskLevel := medium |};
      {| ModerationBatch.message := "b"; ModerationBatch.flagged := true;
         ModerationBatch.categories := ["hate"];
         ModerationBatch.criticalFlags := [];
         ModerationBatch.riskLevel := high |} ]
    [ {| ModerationBatch.message := "b"; ModerationBatch.flagged := true;
         ModerationBatch.categories := ["hate"];
         ModerationBatch.criticalFlags := [];
         ModerationBatch.riskLevel := high |};
      {| ModerationBatch.message := "a"; ModerationBatch.flagged := false;
         ModerationBatch.categories := []; ModerationBatch.criticalFlags := [];
         ModerationBatch.riskLevel := medium |} ]) by apply perm_swap.
  split; [exact H |].
  rewrite (proj1 (X16_overall_risk_order_independent_and_monotone
                    _ _ {| ModerationBatch.message := "c";
                           ModerationBatch.flagged := false;
                           ModerationBatch.categories := [];
                           ModerationBatch.criticalFlags := [];
                           ModerationBatch.riskLevel := low |} H)).
  reflexivity.
Defined.

(* ================================================================== *)
(** ** Objects as maps *)

Lemma get_set_same {V : Type} (obj : Obj.t V) (key : string) (value : V) :
  Obj.get (Obj.set obj key value) key = Some value.
Proof.
  induction obj as [| [k v] rest IH]; cbn [Obj.set Obj.get].
  - now rewrite String.eqb_refl.
  - destruct (String.eqb k key) eqn:E; cbn [Obj.get]; rewrite E;
      [reflexivity | exact IH].
Qed.

Lemma get_set_other {V : Type} (obj : Obj.t V) (key other : string) (value : V) :
  key <> other ->
  Obj.get (Obj.set obj key value) other = Obj.get obj other.
Proof.
  intros Hne. induction obj as [| [k v] rest IH]; cbn [Obj.set Obj.get].
  - destruct (String.eqb key other) eqn:E; [| reflexivity].
    apply String.eqb_eq in E. contradiction.
  - destruct (String.eqb k key) eqn:E; cbn [Obj.get].
    + apply String.eqb_eq in E. subst k.
      destruct (String.eqb key other) eqn:E2; [| reflexivity].
      apply String.eqb_eq in E2. contradiction.
    + destruct (String.eqb k other); [reflexivity | exact IH].
Qed.

(** The entry a category has after [n] occurrences. *)
Lemma countCategory_get (freq : Obj.t nat) (seen : string -> nat)
      (cat other : string) :
  (forall k, Obj.get freq k = match seen k with 0%nat => None | S n => Some (S n) end) ->
  Obj.get (ModerationBatch.countCategory freq cat) other
  = match (seen other + (if String.eqb cat other then 1 else 0))%nat with
    | 0%nat => None
    | S n => Some (S n)
    end.
Proof.
  intros Hinv. unfold ModerationBatch.countCategory.
  destruct (String.eqb cat other) eqn:E.
  - apply String.eqb_eq in E. subst other. rewrite get_set_same, Hinv.
    destruct (seen cat) as [| n]; cbn; [reflexivity |].
    rewrite Nat.add_1_r. reflexivity.
  - apply String.eqb_neq in E. rewrite get_set_other by exact E.
    rewrite Hinv, Nat.add_0_r. reflexivity.
Qed.

Lemma countCategory_fold (cats : list string) (freq : Obj.t nat)
      (seen : string -> nat) :
  (forall k, Obj.get freq k = match seen k with 0%nat => None | S n => Some (S n) end) ->
  forall k,
    Obj.get (fold_left ModerationBatch.countCategory cats freq) k
    = match (seen k + count_occ string_dec cats k)%nat with
      | 0%nat => None
      | S n => Some (S n)
      end.
Proof.
  revert freq seen. induction cats as [| cat cats IH]; intros freq seen Hinv k.
  - cbn [fold_left count_occ]. rewrite Nat.add_0_r. apply Hinv.
  - cbn [fold_left].
    rewrite (IH _ (fun k => (seen k + (if String.eqb cat k then 1 else 0))%nat)).
    + cbn [count_occ]. destruct (string_dec cat k) as [-> | Hne].
      * rewrite String.eqb_refl.
        replace (seen k + 1 + count_occ string_dec cats k)%nat
          with (seen k + S (count_occ string_dec cats k))%nat by lia.
        reflexivity.
      * apply String.eqb_neq in Hne. rewrite Hne.
        replace (seen k + 0 + count_occ string_dec cats k)%nat
          with (seen k + count_occ string_dec cats k)%nat by lia.
        reflexivity.
    + intros k'. now apply countCategory_get.
Qed.

Lemma fold_categories_concat (results : list ModerationBatch.Entry)
      (freq : Obj.t nat) :
  fold_left (fun categoryFrequency r =>
               fold_left ModerationBatch.countCategory
                         (ModerationBatch.categories r) categoryFrequency)
            results freq
  = fold_left ModerationBatch.countCategory
              (List.concat (map ModerationBatch.categories results)) freq.
Proof.
  revert freq. induction results as [| r rs IH]; intros freq; [reflexivity |].
  cbn [fold_left map List.concat]. now rewrite fold_left_app, IH.
Qed.

(** X18.  When the moderation of a conversation resolves, the frequency
    recorded for a category is the number of times the messages flagged
    it, and a category no message flagged has no entry. *)
Theorem X18_category_frequency_counts
        (self : OpenAI.OpenAIModerator) (messages : list string)
        (c : ModerationBatch.ConversationModeration) (cat : string) :
  ModerationBatch.moderateConversation self messages = Some c ->
  Obj.get (ModerationBatch.categoryFrequency c) cat
  = match count_occ string_dec
                    (List.concat (map ModerationBatch.categories
                                 (ModerationBatch.results c))) cat with
    | 0%nat => None
    | S n => Some (S n)
    end.
Proof.
  unfold ModerationBatch.moderateConversation.
  destruct (Async.all _ messages) as [results |]; [| discriminate].
  intros H. injection H as <-.
  cbn [ModerationBatch.categoryFrequency ModerationBatch.results].
  rewrite fold_categories_concat.
  rewrite (countCategory_fold _ [] (fun _ => 0%nat)); [reflexivity |].
  intros k. reflexivity.
Qed.

Lemma X18_category_frequency_counts_witness :
  exists c : ModerationBatch.ConversationModeration,
    ModerationBatch.moderateConversation
      (openai Samples.selfHarmIntent) ["one"; "two"] = Some c
    /\ Obj.get (ModerationBatch.categoryFrequency c) "self-harm/intent"
       = match count_occ string_dec
                         (List.concat (map ModerationBatch.categories
                                      (ModerationBatch.results c)))
                         "self-harm/intent" with
         | 0%nat => None
         | S n => Some (S n)
         end
    /\ Obj.get (ModerationBatch.categoryFrequency c) "self-harm/intent"
       = Some 2%nat.
Proof.
  destruct (ModerationBatch.moderateConversation
              (openai Samples.selfHarmIntent) ["one"; "two"]) as [c |] eqn:E;
    [| vm_compute in E; discriminate E].
  exists c. split; [reflexivity |]. split.
  - exact (X18_category_frequency_counts
             (openai Samples.selfHarmIntent) ["one"; "two"] c
             "self-harm/intent" E).
  - vm_compute in E. injection E as <-. reflexivity.
Defined.

(* ================================================================== *)
(** ** The self-harm check *)

Lemma max2_NaN_r (a : num) : max2 a NaN = NaN.
Proof. now destruct a. Qed.

Lemma checkSelfHarmRisk_outcome (self : OpenAI.OpenAIModerator) (text : string) :
  Moderation.checkSelfHarmRisk self text
  = match OpenAI.moderateText self text with
    | Some o =>
        let score :=
          Math_max [ Moderation.scoreAt (OpenAI.scores o) "self-harm/intent";
                     Moderation.scoreAt (OpenAI.scores o) "self-harm/instructions";
                     Moderation.scoreAt (OpenAI.scores o) "self-harm" ] in
        Some {| Moderation.hasSelfHarmIntent :=
                  array_includes (OpenAI.categories o) "self-harm/intent";
                Moderation.hasSelfHarmInstructions :=
                  array_includes (OpenAI.categories o) "self-harm/instructions";
                Moderation.score := score;
                Moderation.requiresIntervention :=
                  array_includes (OpenAI.categories o) "self-harm/intent"
                  || array_includes (OpenAI.categories o) "self-harm/instructions"
                  || gtb score (Fin 0.7) |}
    | None => None
    end.
Proof.
  unfold Moderation.checkSelfHarmRisk. rewrite moderateText_outcome.
  destruct (Moderation.moderateText self text); reflexivity.
Qed.

(** X19.  The self-harm check fails exactly when the moderation of the
    text fails (nothing catches the failure, unlike in the aggregator);
    when it resolves, its two category tests together are the aggregator's
    self-harm flag for the same text, so a set flag always requires
    intervention. *)
Theorem X19_self_harm_check_covers_the_flag
        (a : CombinedContentAnalyzer) (text : string) :
  (Moderation.checkSelfHarmRisk (openai a) text = None
   <-> OpenAI.moderateText (openai a) text = None)
  /\ forall r : Moderation.SelfHarmRisk,
       Moderation.checkSelfHarmRisk (openai a) text = Some r ->
       selfHarm (flags (analyzeMessage a text))
       = (Moderation.hasSelfHarmIntent r || Moderation.hasSelfHarmInstructions r)
       /\ (selfHarm (flags (analyzeMessage a text)) = true ->
           Moderation.requiresIntervention r = true).
Proof.
  rewrite checkSelfHarmRisk_outcome.
  unfold analyzeMessage, assemble; cbn [flags selfHarm].
  destruct (OpenAI.moderateText (openai a) text) as [o |]; cbn [catch].
  - split; [split; discriminate |].
    intros r Hr. injection Hr as <-.
    cbn [Moderation.hasSelfHarmIntent Moderation.hasSelfHarmInstructions
         Moderation.requiresIntervention].
    split; [reflexivity |]. intros H. rewrite H. reflexivity.
  - split; [tauto | discriminate].
Qed.

(** X20.  When the payload of classifier B lacks one of the three
    self-harm scores, the score of the self-harm check is [NaN] and
    intervention is decided by the two category tests alone, whatever
    the other scores are. *)
Theorem X20_self_harm_check_missing_score
        (self : OpenAI.OpenAIModerator) (text : string) (o : OpenAI.Result)
        (key : string) :
  OpenAI.moderateText self text = Some o ->
  In key ["self-harm/intent"; "self-harm/instructions"; "self-harm"] ->
  Obj.get (OpenAI.scores o) key = None ->
  exists r : Moderation.SelfHarmRisk,
    Moderation.checkSelfHarmRisk self text = Some r
    /\ Moderation.score r = NaN
    /\ Moderation.requiresIntervention r
       = (Moderation.hasSelfHarmIntent r || Moderation.hasSelfHarmInstructions r).
Proof.
  intros Hm Hkey Hmissing. rewrite checkSelfHarmRisk_outcome, Hm. cbv zeta.
  eexists. split; [reflexivity |].
  cbn [Moderation.score Moderation.requiresIntervention
       Moderation.hasSelfHarmIntent Moderation.hasSelfHarmInstructions].
  assert (Hnan : Math_max
                   [ Moderation.scoreAt (OpenAI.scores o) "self-harm/intent";
                     Moderation.scoreAt (OpenAI.scores o) "self-harm/instructions";
                     Moderation.scoreAt (OpenAI.scores o) "self-harm" ] = NaN).
  { unfold Math_max. cbn [fold_left].
    destruct Hkey as [<- | [<- | [<- | []]]];
      unfold Moderation.scoreAt at 1 2 3; rewrite Hmissing;
      rewrite ?max2_NaN_r; reflexivity. }
  rewrite Hnan. split; [reflexivity |]. apply orb_false_r.
Qed.

(* ================================================================== *)
(** ** Batches that nothing catches *)

(** X21.  The moderation of a conversation fails exactly when the
    moderation of one of its messages fails; when it resolves there is
    one result per message, in the order of the messages. *)
Theorem X21_moderate_conversation_all_or_nothing
        (self : OpenAI.OpenAIModerator) (messages : list string) :
  (ModerationBatch.moderateConversation self messages = None
   <-> exists message, In message messages
                       /\ OpenAI.moderateText self message = None)
  /\ forall c, ModerationBatch.moderateConversation self messages = Some c ->
               map ModerationBatch.message (ModerationBatch.results c) = messages.
Proof.
  split.
  - unfold ModerationBatch.moderateConversation.
    destruct (Async.all _ messages) as [results |] eqn:Eall.
    + split; [discriminate |]. intros [message [Hin Hnone]].
      assert (Hex : Async.all
                      (fun message =>
                         match Moderation.moderateText self message with
                         | Some moderation =>
                             Some {| ModerationBatch.message := message;
                                     ModerationBatch.flagged :=
                                       OpenAI.flagged (Moderation.outcome moderation);
                                     ModerationBatch.categories :=
                                       OpenAI.categories (Moderation.outcome moderation);
                                     ModerationBatch.criticalFlags :=
                                       OpenAI.criticalFlags (Moderation.outcome moderation);
                                     ModerationBatch.riskLevel :=
                                       Moderation.riskLevel moderation |}
                         | None => None
                         end) messages = None).
      { apply all_None. exists message. split; [exact Hin |].
        rewrite moderateText_outcome in Hnone.
        destruct (Moderation.moderateText self message); [discriminate | reflexivity]. }
      rewrite Eall in Hex. discriminate Hex.
    + split; [| reflexivity]. intros _.
      apply all_None in Eall. destruct Eall as [message [Hin Hnone]].
      exists message. split; [exact Hin |]. rewrite moderateText_outcome.
      destruct (Moderation.moderateText self message); [discriminate | reflexivity].
  - intros c Hc. pose proof (moderateConversation_results _ _ _ Hc) as Hall.
    clear Hc. revert Hall. generalize (ModerationBatch.results c) as rs.
    intros rs Hall.
    induction Hall as [| message r ms rs' [m [_ [Hmsg _]]] _ IH];
      [reflexivity |].
    cbn [map]. now rewrite Hmsg, IH.
Qed.

Lemma perspective_sum_nonneg (analyses : list PerspectiveBatch.MessageAnalysis)
      (acc : Q) :
  Forall (fun a => exists h, Perspective.highestScore (PerspectiveBatch.analysis a)
                             = Fin h /\ 0 <= h) analyses ->
  exists t : Q,
    fold_left (fun sum a =>
                 add sum (Perspective.highestScore (PerspectiveBatch.analysis a)))
              analyses (Fin acc) = Fin t
    /\ acc <= t.
Proof.
  intros Hall. revert acc.
  induction Hall as [| a rest [h [Eh Hh]] _ IH]; intros acc.
  - exists acc. split; [reflexivity | lra].
  - cbn [fold_left]. rewrite Eh. cbn [add].
    destruct (IH (acc + h)) as [t [Et Ht]]. exists t. split; [exact Et | lra].
Qed.

(** X22.  The analysis of a conversation by classifier A fails exactly
    when the analysis of one of its messages fails.  When it resolves, the
    analyses follow the messages in order; the overall risk is a finite
    number that is not negative if there is a message, and [NaN], with no
    upward trend, if there is none. *)
Theorem X22_perspective_conversation
        (self : Perspective.PerspectiveAnalyzer) (messages : list string) :
  (PerspectiveBatch.analyzeConversation self messages = None
   <-> exists message, In message messages
                       /\ Perspective.analyzeText self message = None)
  /\ forall c, PerspectiveBatch.analyzeConversation self messages = Some c ->
       map PerspectiveBatch.message (PerspectiveBatch.messageAnalyses c) = messages
       /\ (messages <> [] ->
           exists risk : Q, PerspectiveBatch.overallRisk c = Fin risk /\ 0 <= risk)
       /\ (messages = [] ->
           PerspectiveBatch.overallRisk c = NaN
           /\ PerspectiveBatch.trendingUp c = false).
Proof.
  unfold PerspectiveBatch.analyzeConversation.
  destruct (Async.all _ messages) as [analyses |] eqn:Eall.
  - split.
    + split; [discriminate |]. intros [message [Hin Hnone]].
      assert (Hex : Async.all
                      (fun message =>
                         match Perspective.analyzeText self message with
                         | Some result =>
                             Some {| PerspectiveBatch.message := message;
                                     PerspectiveBatch.analysis := result |}
                         | None => None
                         end) messages = None).
      { apply all_None. exists message. split; [exact Hin |]. now rewrite Hnone. }
      rewrite Eall in Hex. discriminate Hex.
    + intros c Hc. injection Hc as <-.
      cbn [PerspectiveBatch.messageAnalyses PerspectiveBatch.overallRisk
           PerspectiveBatch.trendingUp].
      apply all_Some in Eall.
      assert (Hshape : map PerspectiveBatch.message analyses = messages
                       /\ Forall (fun a =>
                                    exists h,
                                      Perspective.highestScore
                                        (PerspectiveBatch.analysis a) = Fin h
                                      /\ 0 <= h) analyses).
      { induction Eall as [| message a ms rest Hone _ IH];
          [split; [reflexivity | constructor] |].
        destruct IH as [IHm IHf].
        pose proof (highestScore_nonneg self message) as Hh.
        destruct (Perspective.analyzeText self message) as [result |];
          [| discriminate].
        injection Hone as <-. cbn [catch] in Hh. split.
        - cbn [map PerspectiveBatch.message]. now rewrite IHm.
        - constructor; [exact Hh | exact IHf]. }
      destruct Hshape as [Hmsgs Hfin].
      split; [exact Hmsgs |]. split.
      * intros Hne.
        destruct (perspective_sum_nonneg analyses 0 Hfin) as [t [Et Ht]].
        rewrite Et, div_by_length.
        -- eexists. split; [reflexivity |].
           apply Qle_shift_div_l; [| lra].
           apply of_nat_positive. rewrite <- Hmsgs in Hne.
           destruct analyses; [now contradiction Hne | simpl; lia].
        -- rewrite <- Hmsgs in Hne.
           destruct analyses; [now contradiction Hne | simpl; lia].
      * intros Hnil. rewrite Hnil in Hmsgs.
        destruct analyses; [split; reflexivity | discriminate Hmsgs].
  - split; [| discriminate].
    split; [| reflexivity]. intros _.
    apply all_None in Eall. destruct Eall as [message [Hin Hnone]].
    exists message. split; [exact Hin |].
    destruct (Perspective.analyzeText self message); [discriminate | reflexivity].
Qed.

Lemma X20_self_harm_check_missing_score_witness :
  OpenAI.moderateText Scenarios.legacyModerator "i am done" = Some Scenarios.legacyReport
  /\ In "self-harm/intent"
        ["self-harm/intent"; "self-harm/instructions"; "self-harm"]
  /\ Obj.get (OpenAI.scores Scenarios.legacyReport) "self-harm/intent" = None
  /\ exists r : Moderation.SelfHarmRisk,
       Moderation.checkSelfHarmRisk Scenarios.legacyModerator "i am done" = Some r
       /\ Moderation.score r = NaN
       /\ Moderation.requiresIntervention r
          = (Moderation.hasSelfHarmIntent r || Moderation.hasSelfHarmInstructions r).
Proof.
  assert (H1 : OpenAI.moderateText Scenarios.legacyModerator "i am done"
               = Some Scenarios.legacyReport) by reflexivity.
  assert (H2 : In "self-harm/intent"
                  ["self-harm/intent"; "self-harm/instructions"; "self-harm"])
    by (left; reflexivity).
  assert (H3 : Obj.get (OpenAI.scores Scenarios.legacyReport) "self-harm/intent"
               = None) by reflexivity.
  split; [exact H1 |]. split; [exact H2 |]. split; [exact H3 |].
  exact (X20_self_harm_check_missing_score
           Scenarios.legacyModerator "i am done" Scenarios.legacyReport
           "self-harm/intent" H1 H2 H3).
Defined.

(* ================================================================== *)
(** ** The rate limiter *)

Section RateLimiter.

Local Open Scope Z_scope.

Lemma serve_within_window (options : RateLimit.Options) (ip : option string)
      (times : list Z) (store : RateLimit.RateLimitStore)
      (entry : RateLimit.Entry) :
  Obj.get store (RateLimit.clientKey ip) = Some entry ->
  Forall (fun t => t <= RateLimit.resetTime entry) times ->
  map RateLimit.admitted (snd (RateLimit.serve options ip times store))
  = map (fun i => RateLimit.count entry + 1 + Z.of_nat i
                  <=? RateLimit.maxRequests options)
        (seq 0 (List.length times)).
Proof.
  revert store entry. induction times as [| now later IH];
    intros store entry Hget Hall; [reflexivity |].
  inversion Hall as [| ? ? Hnow Hlater]; subst.
  assert (Hlive : (now >? RateLimit.resetTime entry) = false) by lia.
  assert (Hstep : RateLimit.rateLimiter options ip now store
                  = (Obj.set store (RateLimit.clientKey ip)
                             {| RateLimit.count := RateLimit.count entry + 1;
                                RateLimit.resetTime := RateLimit.resetTime entry |},
                     if RateLimit.count entry + 1 >? RateLimit.maxRequests options
                     then RateLimit.tooManyRequests
                            (RateLimit.ceilSeconds
                               (RateLimit.resetTime entry - now))
                     else RateLimit.next)).
  { unfold RateLimit.rateLimiter. rewrite Hget, Hlive. cbv zeta.
    cbn [RateLimit.count RateLimit.resetTime].
    destruct (RateLimit.count entry + 1 >? RateLimit.maxRequests options);
      reflexivity. }
  cbn [RateLimit.serve]. rewrite Hstep.
  pose proof (IH _ _ (get_set_same store (RateLimit.clientKey ip)
                        {| RateLimit.count := RateLimit.count entry + 1;
                           RateLimit.resetTime := RateLimit.resetTime entry |})
                 Hlater) as Hrest.
  cbn [RateLimit.count RateLimit.resetTime] in Hrest.
  destruct (RateLimit.serve options ip later _) as [store2 verdicts].
  cbn [snd map] in *. rewrite Hrest.
  cbn [List.length seq map]. rewrite <- seq_shift, map_map. f_equal.
  - destruct (RateLimit.count entry + 1 >? RateLimit.maxRequests options) eqn:E;
      cbn [RateLimit.admitted]; symmetry;
      [apply Z.leb_gt | apply Z.leb_le]; lia.
  - apply map_ext. intros i. apply f_equal2; [lia | reflexivity].
Qed.

(** X23.  A client whose window has expired, or who is unknown to the
    store, is admitted; of the requests it sends before the new window
    ends, the one sent in position n (counting the first as 1) is
    admitted exactly when n is at most [maxRequests].  The first request
    of a window is therefore admitted even when [maxRequests] is 0. *)
Theorem X23_requests_admitted_in_a_window
        (options : RateLimit.Options) (ip : option string)
        (now : Z) (later : list Z) (store : RateLimit.RateLimitStore) :
  (Obj.get store (RateLimit.clientKey ip) = None
   \/ exists entry, Obj.get store (RateLimit.clientKey ip) = Some entry
                    /\ now > RateLimit.resetTime entry) ->
  Forall (fun t => t <= now + RateLimit.windowMs options) later ->
  map RateLimit.admitted
      (snd (RateLimit.serve options ip (now :: later) store))
  = true :: map (fun i => Z.of_nat i + 2 <=? RateLimit.maxRequests options)
                (seq 0 (List.length later)).
Proof.
  intros Hfresh Hlater. cbn [RateLimit.serve].
  assert (Hfirst : RateLimit.rateLimiter options ip now store
                   = (Obj.set store (RateLimit.clientKey ip)
                              {| RateLimit.count := 1;
                                 RateLimit.resetTime :=
                                   now + RateLimit.windowMs options |},
                      RateLimit.next)).
  { unfold RateLimit.rateLimiter.
    destruct Hfresh as [Hnone | [entry [Hsome Hexp]]].
    - now rewrite Hnone.
    - rewrite Hsome. now rewrite (proj2 (Z.gtb_lt _ _)) by lia. }
  rewrite Hfirst.
  pose proof (serve_within_window options ip later _ _
                (get_set_same store (RateLimit.clientKey ip)
                   {| RateLimit.count := 1;
                      RateLimit.resetTime := now + RateLimit.windowMs options |}))
    as Hrest.
  cbn [RateLimit.count RateLimit.resetTime] in Hrest.
  specialize (Hrest Hlater).
  destruct (RateLimit.serve options ip later _) as [store2 verdicts].
  cbn [snd map RateLimit.admitted] in *. rewrite Hrest. f_equal.
  apply map_ext. intros i. apply f_equal2; [lia | reflexivity].
Qed.

Lemma X23_requests_admitted_in_a_window_witness :
  (Obj.get (@nil (string * RateLimit.Entry)) (RateLimit.clientKey (Some "10.0.0.7"))
   = None
   \/ exists entry,
        Obj.get (@nil (string * RateLimit.Entry))
                (RateLimit.clientKey (Some "10.0.0.7")) = Some entry
        /\ 1000 > RateLimit.resetTime entry)
  /\ Forall (fun t => t <= 1000 + RateLimit.windowMs Scenarios.threePerMinute)
            [2000; 3000; 4000; 61000]
  /\ map RateLimit.admitted
         (snd (RateLimit.serve Scenarios.threePerMinute (Some "10.0.0.7")
                               (1000 :: [2000; 3000; 4000; 61000]) []))
     = [true; true; true; false; false].
Proof.
  assert (H1 : Obj.get (@nil (string * RateLimit.Entry))
                       (RateLimit.clientKey (Some "10.0.0.7")) = None
               \/ exists entry,
                    Obj.get (@nil (string * RateLimit.Entry))
                            (RateLimit.clientKey (Some "10.0.0.7")) = Some entry
                    /\ 1000 > RateLimit.resetTime entry)
    by (left; reflexivity).
  assert (H2 : Forall (fun t => t <= 1000 + RateLimit.windowMs Scenarios.threePerMinute)
                      [2000; 3000; 4000; 61000])
    by (repeat constructor; discriminate).
  split; [exact H1 |]. split; [exact H2 |].
  rewrite (X23_requests_admitted_in_a_window
             Scenarios.threePerMinute (Some "10.0.0.7") 1000
             [2000; 3000; 4000; 61000] [] H1 H2).
  reflexivity.
Defined.


Lemma ceilSeconds_bounds (ms : Z) :
  1000 * (RateLimit.ceilSeconds ms - 1) < ms <= 1000 * RateLimit.ceilSeconds ms.
Proof.
  unfold RateLimit.ceilSeconds.
  pose proof (Z.div_mod (- ms) 1000) as Hdm.
  pose proof (Z.mod_pos_bound (- ms) 1000) as Hb.
  lia.
Qed.

(** X24.  A request is refused only inside a running window of its
    client.  The refusal still counts the request, leaves the end of the
    window where it was, and announces as [retryAfter] the time left until
    that end rounded up to whole seconds, which is never negative. *)
Theorem X24_refusal_keeps_the_window
        (options : RateLimit.Options) (ip : option string) (now : Z)
        (store store' : RateLimit.RateLimitStore) (retryAfter : Z) :
  RateLimit.rateLimiter options ip now store
  = (store', RateLimit.tooManyRequests retryAfter) ->
  exists entry : RateLimit.Entry,
    Obj.get store (RateLimit.clientKey ip) = Some entry
    /\ now <= RateLimit.resetTime entry
    /\ RateLimit.count entry + 1 > RateLimit.maxRequests options
    /\ Obj.get store' (RateLimit.clientKey ip)
       = Some {| RateLimit.count := RateLimit.count entry + 1;
                 RateLimit.resetTime := RateLimit.resetTime entry |}
    /\ 0 <= retryAfter
    /\ 1000 * (retryAfter - 1) < RateLimit.resetTime entry - now <= 1000 * retryAfter.
Proof.
  unfold RateLimit.rateLimiter.
  destruct (Obj.get store (RateLimit.clientKey ip)) as [entry |] eqn:Hget;
    [| discriminate].
  destruct (now >? RateLimit.resetTime entry) eqn:Hexp; [discriminate |].
  cbv zeta. cbn [RateLimit.count RateLimit.resetTime].
  destruct (RateLimit.count entry + 1 >? RateLimit.maxRequests options) eqn:Hmax;
    [| discriminate].
  intros H. injection H as <- <-.
  exists entry. split; [reflexivity |]. split; [lia |]. split; [lia |].
  split; [apply get_set_same |].
  pose proof (ceilSeconds_bounds (RateLimit.resetTime entry - now)) as Hc.
  split; lia.
Qed.

Lemma X24_refusal_keeps_the_window_witness :
  RateLimit.rateLimiter
    Scenarios.threePerMinute (Some "10.0.0.7") 4000
    [("10.0.0.7", {| RateLimit.count := 3; RateLimit.resetTime := 61000 |})]
  = ([("10.0.0.7", {| RateLimit.count := 4; RateLimit.resetTime := 61000 |})],
     RateLimit.tooManyRequests 57)
  /\ exists entry : RateLimit.Entry,
       Obj.get [("10.0.0.7", {| RateLimit.count := 3; RateLimit.resetTime := 61000 |})]
               (RateLimit.clientKey (Some "10.0.0.7")) = Some entry
       /\ 4000 <= RateLimit.resetTime entry
       /\ RateLimit.count entry + 1 > RateLimit.maxRequests Scenarios.threePerMinute
       /\ Obj.get [("10.0.0.7", {| RateLimit.count := 4; RateLimit.resetTime := 61000 |})]
                  (RateLimit.clientKey (Some "10.0.0.7"))
          = Some {| RateLimit.count := RateLimit.count entry + 1;
                    RateLimit.resetTime := RateLimit.resetTime entry |}
       /\ 0 <= 57
       /\ 1000 * (57 - 1) < RateLimit.resetTime entry - 4000 <= 1000 * 57.
Proof.
  assert (H : RateLimit.rateLimiter
                Scenarios.threePerMinute (Some "10.0.0.7") 4000
                [("10.0.0.7", {| RateLimit.count := 3; RateLimit.resetTime := 61000 |})]
              = ([("10.0.0.7", {| RateLimit.count := 4; RateLimit.resetTime := 61000 |})],
                 RateLimit.tooManyRequests 57)) by reflexivity.
  split; [exact H |].
  exact (X24_refusal_keeps_the_window
           Scenarios.threePerMinute (Some "10.0.0.7") 4000 _ _ 57 H).
Defined.

Lemma get_remove (obj : Obj.t RateLimit.Entry) (key other : string) :
  Obj.get (Obj.remove obj key) other
  = if String.eqb key other then None else Obj.get obj other.
Proof.
  unfold Obj.remove.
  induction obj as [| [k v] rest IH]; cbn [filter Obj.get fst].
  - now destruct (String.eqb key other).
  - destruct (String.eqb k key) eqn:Ek; cbn [negb].
    + apply String.eqb_eq in Ek. subst k. rewrite IH.
      destruct (String.eqb key other); reflexivity.
    + cbn [Obj.get]. rewrite IH.
      destruct (String.eqb k other) eqn:Eo; [| reflexivity].
      apply String.eqb_eq in Eo. subst k.
      destruct (String.eqb key other) eqn:E2; [| reflexivity].
      apply String.eqb_eq in E2. subst key.
      rewrite String.eqb_refl in Ek. discriminate Ek.
Qed.

Lemma cleanup_step_get (now : Z) (store : RateLimit.RateLimitStore)
      (key other : string) :
  Obj.get (match Obj.get store key with
           | Some entry =>
               if now >? RateLimit.resetTime entry
               then Obj.remove store key else store
           | None => store
           end) other
  = if String.eqb key other then RateLimit.kept now (Obj.get store other)
    else Obj.get store other.
Proof.
  destruct (String.eqb key other) eqn:E.
  - apply String.eqb_eq in E. subst other. unfold RateLimit.kept.
    destruct (Obj.get store key) as [entry |] eqn:Hget; [| now rewrite Hget].
    destruct (now >? RateLimit.resetTime entry).
    + now rewrite get_remove, String.eqb_refl.
    + exact Hget.
  - destruct (Obj.get store key) as [entry |]; [| reflexivity].
    destruct (now >? RateLimit.resetTime entry); [| reflexivity].
    now rewrite get_remove, E.
Qed.

Lemma kept_kept (now : Z) (entry : option RateLimit.Entry) :
  RateLimit.kept now (RateLimit.kept now entry) = RateLimit.kept now entry.
Proof.
  destruct entry as [e |]; [| reflexivity]. cbn [RateLimit.kept].
  destruct (now >? RateLimit.resetTime e) eqn:E; [reflexivity |].
  cbn [RateLimit.kept]. now rewrite E.
Qed.

Lemma cleanup_fold_get (now : Z) (keys : list string)
      (store : RateLimit.RateLimitStore) (other : string) :
  Obj.get (fold_left (fun store key =>
                        match Obj.get store key with
                        | Some entry =>
                            if now >? RateLimit.resetTime entry
                            then Obj.remove store key else store
                        | None => store
                        end) keys store) other
  = if existsb (fun key => String.eqb key other) keys
    then RateLimit.kept now (Obj.get store other)
    else Obj.get store other.
Proof.
  revert store. induction keys as [| key keys IH]; intros store;
    [reflexivity |].
  cbn [fold_left existsb]. rewrite IH, cleanup_step_get.
  destruct (String.eqb key other); cbn [orb].
  - destruct (existsb _ keys); [apply kept_kept | reflexivity].
  - reflexivity.
Qed.

Lemma get_absent_key {V : Type} (obj : Obj.t V) (other : string) :
  existsb (fun key => String.eqb key other) (Obj.keys obj) = false ->
  Obj.get obj other = None.
Proof.
  unfold Obj.keys. induction obj as [| [k v] rest IH];
    cbn [map existsb Obj.get fst]; [reflexivity |].
  destruct (String.eqb k other); cbn [orb]; [discriminate | exact IH].
Qed.

(** What the store holds for a key after a cleanup. *)
Lemma cleanup_get (now : Z) (store : RateLimit.RateLimitStore) (other : string) :
  Obj.get (RateLimit.cleanup now store) other
  = RateLimit.kept now (Obj.get store other).
Proof.
  unfold RateLimit.cleanup. rewrite cleanup_fold_get.
  destruct (existsb _ (Obj.keys store)) eqn:E; [reflexivity |].
  now rewrite (get_absent_key _ _ E).
Qed.

(** X25.  The periodic cleanup is invisible to the clients: a request
    arriving after a cleanup gets the verdict it would have got without
    it, and leaves the same entry for its client in the store. *)
Theorem X25_cleanup_is_transparent
        (options : RateLimit.Options) (ip : option string)
        (cleaned now : Z) (store : RateLimit.RateLimitStore) :
  cleaned <= now ->
  snd (RateLimit.rateLimiter options ip now (RateLimit.cleanup cleaned store))
  = snd (RateLimit.rateLimiter options ip now store)
  /\ Obj.get (fst (RateLimit.rateLimiter options ip now
                                         (RateLimit.cleanup cleaned store)))
             (RateLimit.clientKey ip)
     = Obj.get (fst (RateLimit.rateLimiter options ip now store))
               (RateLimit.clientKey ip).
Proof.
  intros Htime. unfold RateLimit.rateLimiter. rewrite cleanup_get.
  destruct (Obj.get store (RateLimit.clientKey ip)) as [entry |];
    cbn [RateLimit.kept].
  - destruct (cleaned >? RateLimit.resetTime entry) eqn:Ec.
    + rewrite (proj2 (Z.gtb_lt _ _)) by lia.
      cbn [fst snd]. split; [reflexivity |]. now rewrite !get_set_same.
    + destruct (now >? RateLimit.resetTime entry).
      * cbn [fst snd]. split; [reflexivity |]. now rewrite !get_set_same.
      * cbv zeta. cbn [RateLimit.count RateLimit.resetTime].
        destruct (RateLimit.count entry + 1 >? RateLimit.maxRequests options);
          cbn [fst snd]; (split; [reflexivity |]); now rewrite !get_set_same.
  - cbn [fst snd]. split; [reflexivity |]. now rewrite !get_set_same.
Qed.

Lemma X25_cleanup_is_transparent_witness :
  1000 <= 2000
  /\ snd (RateLimit.rateLimiter
            Scenarios.threePerMinute (Some "10.0.0.7") 2000
            (RateLimit.cleanup 1000
               [("10.0.0.7", {| RateLimit.count := 9; RateLimit.resetTime := 500 |})]))
     = snd (RateLimit.rateLimiter
              Scenarios.threePerMinute (Some "10.0.0.7") 2000
              [("10.0.0.7", {| RateLimit.count := 9; RateLimit.resetTime := 500 |})])
  /\ Obj.get (fst (RateLimit.rateLimiter
                     Scenarios.threePerMinute (Some "10.0.0.7") 2000
                     (RateLimit.cleanup 1000
                        [("10.0.0.7",
                          {| RateLimit.count := 9; RateLimit.resetTime := 500 |})])))
             (RateLimit.clientKey (Some "10.0.0.7"))
     = Obj.get (fst (RateLimit.rateLimiter
                       Scenarios.threePerMinute (Some "10.0.0.7") 2000
                       [("10.0.0.7",
                         {| RateLimit.count := 9; RateLimit.resetTime := 500 |})]))
               (RateLimit.clientKey (Some "10.0.0.7")).
Proof.
  assert (H : 1000 <= 2000) by discriminate.
  split; [exact H |].
  exact (X25_cleanup_is_transparent
           Scenarios.threePerMinute (Some "10.0.0.7") 1000 2000
           [("10.0.0.7", {| RateLimit.count := 9; RateLimit.resetTime := 500 |})] H).
Defined.

(** X26.  A request never touches the entry of another client; and the
    clients whose address is missing or empty share the entry of the key
    "unknown". *)
Theorem X26_clients_are_isolated
        (options : RateLimit.Options) (ip : option string) (now : Z)
        (store : RateLimit.RateLimitStore) (other : string) :
  (other <> RateLimit.clientKey ip ->
   Obj.get (fst (RateLimit.rateLimiter options ip now store)) other
   = Obj.get store other)
  /\ RateLimit.rateLimiter options None now store
     = RateLimit.rateLimiter options (Some "unknown"%string) now store
  /\ RateLimit.rateLimiter options (Some ""%string) now store
     = RateLimit.rateLimiter options (Some "unknown"%string) now store.
Proof.
  split; [| split; reflexivity].
  intros Hne. unfold RateLimit.rateLimiter.
  assert (Hset : forall e, Obj.get (Obj.set store (RateLimit.clientKey ip) e) other
                           = Obj.get store other).
  { intros e. apply get_set_other. congruence. }
  destruct (Obj.get store (RateLimit.clientKey ip)) as [entry |];
    [| cbn [fst]; apply Hset].
  destruct (now >? RateLimit.resetTime entry); [cbn [fst]; apply Hset |].
  cbv zeta. cbn [RateLimit.count RateLimit.resetTime].
  destruct (RateLimit.count entry + 1 >? RateLimit.maxRequests options);
    cbn [fst]; apply Hset.
Qed.

End RateLimiter.

(* ================================================================== *)
(** ** The analysis routes *)

Lemma getAnalyzer_ready (env : Routes.Env) :
  Routes.healthReady env = true
  <-> exists analyzer, Routes.getAnalyzer env = Some analyzer.
Proof.
  unfold Routes.healthReady, Routes.getAnalyzer.
  destruct (Routes.configured (Routes.PERSPECTIVE_API_KEY env)) as [pk |].
  - destruct (Routes.configured (Routes.OPENAI_API_KEY env)) as [ok |].
    + split; [intros _; now eexists | reflexivity].
    + split; [discriminate | intros [analyzer H]; discriminate H].
  - split; [discriminate | intros [analyzer H]; discriminate H].
Qed.


Lemma schema_length (messages : option (list (option string)))
      (texts : list string) :
  Routes.analyzeConversationSchema messages = Some texts ->
  (1 <= List.length texts <= 100)%nat.
Proof.
  unfold Routes.analyzeConversationSchema.
  destruct messages as [items |]; [| discriminate].
  destruct (Async.all Routes.analyzeMessageSchema items) as [accepted |];
    [| discriminate].
  destruct (Nat.leb 1 (List.length accepted)
            && Nat.leb (List.length accepted) 100) eqn:El; [| discriminate].
  intros H. injection H as <-.
  apply andb_true_iff in El. destruct El as [H1 H2].
  apply Nat.leb_le in H1. apply Nat.leb_le in H2. lia.
Qed.

(** X29.  Whenever the conversation route answers with an analysis, that
    analysis counts between 1 and 100 messages and carries an overall risk
    score in [0, 100]: the validation keeps the empty conversation, whose
    score would be [NaN], away from the analyzer. *)
Theorem X29_conversation_route_success
        (env : Routes.Env) (messages : option (list (option string)))
        (c : ConversationAnalysis) :
  Routes.postConversation env messages = Routes.success c ->
  (1 <= messageCount c <= 100)%nat
  /\ within 0 100 (overallRiskScore c)
  /\ Routes.healthReady env = true.
Proof.
  unfold Routes.postConversation.
  destruct (Routes.analyzeConversationSchema messages) as [texts |] eqn:Es;
    [| discriminate].
  destruct (Routes.getAnalyzer env) as [analyzer |] eqn:Eg; [| discriminate].
  intros H. injection H as <-.
  apply schema_length in Es. split; [exact Es |]. split.
  - apply analyzeConversation_overall_within.
    destruct texts; [simpl in Es; lia | discriminate].
  - apply getAnalyzer_ready. now exists analyzer.
Qed.

Lemma X29_conversation_route_success_witness :
  exists c : ConversationAnalysis,
    Routes.postConversation Scenarios.configuredEnv
                            (Some [Some "hello"; Some "i feel lonely"])
    = Routes.success c
    /\ (1 <= messageCount c <= 100)%nat
    /\ within 0 100 (overallRiskScore c)
    /\ Routes.healthReady Scenarios.configuredEnv = true.
Proof.
  destruct (Routes.postConversation Scenarios.configuredEnv
                                    (Some [Some "hello"; Some "i feel lonely"]))
    as [c | | error] eqn:E;
    [| vm_compute in E; discriminate E | vm_compute in E; discriminate E].
  exists c. split; [reflexivity |].
  exact (X29_conversation_route_success
           Scenarios.configuredEnv
           (Some [Some "hello"; Some "i feel lonely"]) c E).
Defined.
